(** * Decoding of laboratory results: a shallow embedding of the three
      revisions of the pipeline

    - [V1]     : decode_patients.py         (first script)
    - [Pandas] : decode_patients_pandas.py  (pandas rewrite)
    - [Sql]    : decode_patients_sql.py     (pipeline pushed into SQL)

    Modelling conventions.
    - A Python [str] is the list of its code points ([pystr]).  Literals are
      written as UTF-8 text and decoded by [u].
    - Letters are taken over Basic Latin, the Latin-1 Supplement and the
      Cyrillic block U+0400..U+045F: on these [lower] is Python's
      [str.lower], and it leaves every other code point as it is.
    - [isdigit] and [float] are those of Python 3.11 (Unicode 14.0) on every
      text: [str.isdigit] accepts the digits of all scripts and characters
      such as "²" that [float] rejects; [float] accepts decimal digits of
      all scripts, blanks around the number, digit separators, exponents,
      "inf" and "nan", and rounds to the nearest binary64 number, ties to
      even ([b64], with [b64_nearest] and [b64_infinite]).
    - A float is nan, an infinity, or the exact rational value of a
      binary64 number; a SQL double precision number is such a value too.
      A bound of the reference table is a [Decimal], a float, [None] or
      nan ([bound]); Python compares it with a float exactly, SQL after
      conversion to double precision.
    - A DataFrame is a list of rows addressed by position together with its
      additional columns; index labels are positions (what
      [reset_index(drop=True)] establishes before [check_range] runs).
    - A cell of the spreadsheet column "Значение" is its text (what
      [astype("str")], resp. [str(row["Значение"])], produces).
    - The tables de.med_an_name and de.med_name are given as the rows read
      from them; the persistent table is given by its rows, and the outcome
      of writing the output spreadsheet is a parameter. *)

From Stdlib Require Import ZArith QArith Qabs Qpower Lqa String Ascii.
From stdpp Require Import gmap list.

Local Open Scope Z_scope.

(** ** Python strings *)

Module PyStr.

Abbreviation pystr := (list N).

(** UTF-8 decoding of a literal; one- and two-byte sequences suffice for
    the ASCII and Cyrillic literals of the sources. *)
Fixpoint utf8_decode (bs : list N) : pystr :=
  match bs with
  | [] => []
  | b :: rest =>
      if (b <? 128)%N then b :: utf8_decode rest
      else match rest with
           | b2 :: rest' => ((b - 192) * 64 + (b2 - 128))%N :: utf8_decode rest'
           | [] => [b]
           end
  end.

Definition u (s : string) : pystr :=
  utf8_decode (map N_of_ascii (list_ascii_of_string s)).

(** [str.lower()], code point by code point. *)
Definition lower_cp (c : N) : N :=
  if ((65 <=? c) && (c <=? 90))%N then (c + 32)%N             (* A-Z *)
  else if ((192 <=? c) && (c <=? 222) && negb (c =? 215))%N
       then (c + 32)%N                                        (* À-Þ but × *)
  else if ((1040 <=? c) && (c <=? 1071))%N then (c + 32)%N    (* А-Я *)
  else if ((1024 <=? c) && (c <=? 1039))%N then (c + 80)%N    (* Ѐ-Џ *)
  else c.

Definition lower (s : pystr) : pystr := map lower_cp s.

(** [s.startswith(p)] for a single prefix. *)
Fixpoint startswith (s p : pystr) : bool :=
  match p, s with
  | [], _ => true
  | _ :: _, [] => false
  | c :: p', d :: s' => (c =? d)%N && startswith s' p'
  end.

(** [s.startswith((p1, p2, ...))] for a tuple of prefixes. *)
Definition startswith_any (s : pystr) (ps : list pystr) : bool :=
  existsb (startswith s) ps.

(** [s.replace(old, new)] for one-character [old] and [new]: every
    occurrence is replaced. *)
Definition replace_char (old new : N) (s : pystr) : pystr :=
  map (fun c => if (c =? old)%N then new else c) s.

(** [s.replace(old, "", 1)] for a one-character [old]: the first
    occurrence is removed. *)
Fixpoint remove_first (old : N) (s : pystr) : pystr :=
  match s with
  | [] => []
  | c :: s' => if (c =? old)%N then s' else c :: remove_first old s'
  end.

(** The decimal digits "0".."9". *)
Definition is_decimal (c : N) : bool := ((48 <=? c) && (c <=? 57))%N.

Definition in_range (c : N) (r : N * N) : bool := ((r.1 <=? c) && (c <=? r.2))%N.

Definition in_ranges (rs : list (N * N)) (c : N) : bool := existsb (in_range c) rs.

(** The code points [str.isdecimal] accepts, as ranges; every range is
    made of runs "0".."9" and starts at a digit zero (Python 3.11, Unicode
    14.0). *)
Definition decimal_ranges : list (N * N) :=
  [(48, 57); (1632, 1641); (1776, 1785); (1984, 1993); (2406, 2415);
   (2534, 2543); (2662, 2671); (2790, 2799); (2918, 2927); (3046, 3055);
   (3174, 3183); (3302, 3311); (3430, 3439); (3558, 3567); (3664, 3673);
   (3792, 3801); (3872, 3881); (4160, 4169); (4240, 4249); (6112, 6121);
   (6160, 6169); (6470, 6479); (6608, 6617); (6784, 6793); (6800, 6809);
   (6992, 7001); (7088, 7097); (7232, 7241); (7248, 7257); (42528, 42537);
   (43216, 43225); (43264, 43273); (43472, 43481); (43504, 43513);
   (43600, 43609); (44016, 44025); (65296, 65305); (66720, 66729);
   (68912, 68921); (69734, 69743); (69872, 69881); (69942, 69951);
   (70096, 70105); (70384, 70393); (70736, 70745); (70864, 70873);
   (71248, 71257); (71360, 71369); (71472, 71481); (71904, 71913);
   (72016, 72025); (72784, 72793); (73040, 73049); (73120, 73129);
   (92768, 92777); (92864, 92873); (93008, 93017); (120782, 120831);
   (123200, 123209); (123632, 123641); (125264, 125273); (130032, 130041)]%N.

(** The code points [str.isdigit] accepts: the decimal digits and the
    other characters with a digit value, such as superscripts and circled
    digits. *)
Definition digit_ranges : list (N * N) :=
  [(48, 57); (178, 179); (185, 185); (1632, 1641); (1776, 1785);
   (1984, 1993); (2406, 2415); (2534, 2543); (2662, 2671); (2790, 2799);
   (2918, 2927); (3046, 3055); (3174, 3183); (3302, 3311); (3430, 3439);
   (3558, 3567); (3664, 3673); (3792, 3801); (3872, 3881); (4160, 4169);
   (4240, 4249); (4969, 4977); (6112, 6121); (6160, 6169); (6470, 6479);
   (6608, 6618); (6784, 6793); (6800, 6809); (6992, 7001); (7088, 7097);
   (7232, 7241); (7248, 7257); (8304, 8304); (8308, 8313); (8320, 8329);
   (9312, 9320); (9332, 9340); (9352, 9360); (9450, 9450); (9461, 9469);
   (9471, 9471); (10102, 10110); (10112, 10120); (10122, 10130);
   (42528, 42537); (43216, 43225); (43264, 43273); (43472, 43481);
   (43504, 43513); (43600, 43609); (44016, 44025); (65296, 65305);
   (66720, 66729); (68160, 68163); (68912, 68921); (69216, 69224);
   (69714, 69722); (69734, 69743); (69872, 69881); (69942, 69951);
   (70096, 70105); (70384, 70393); (70736, 70745); (70864, 70873);
   (71248, 71257); (71360, 71369); (71472, 71481); (71904, 71913);
   (72016, 72025); (72784, 72793); (73040, 73049); (73120, 73129);
   (92768, 92777); (92864, 92873); (93008, 93017); (120782, 120831);
   (123200, 123209); (123632, 123641); (125264, 125273); (127232, 127242);
   (130032, 130041)]%N.

(** The code points [str.isspace] accepts. *)
Definition space_ranges : list (N * N) :=
  [(9, 13); (28, 32); (133, 133); (160, 160); (5760, 5760); (8192, 8202);
   (8232, 8233); (8239, 8239); (8287, 8287); (12288, 12288)]%N.

(** The characters [str.isdigit] accepts. *)
Definition is_digit (c : N) : bool := in_ranges digit_ranges c.

(** The value of a decimal digit of any script. *)
Definition decimal_value (c : N) : option N :=
  (fun r => ((c - r.1) mod 10)%N) <$> List.find (in_range c) decimal_ranges.

(** [s.isdigit()]: non-empty and digits only. *)
Definition isdigit (s : pystr) : bool :=
  match s with
  | [] => false
  | _ => forallb is_digit s
  end.

(** Non-empty text of decimal digits "0".."9". *)
Definition decimal_digits (s : pystr) : bool :=
  match s with
  | [] => false
  | _ => forallb is_decimal s
  end.

Definition DOT : N := 46.
Definition COMMA : N := 44.
Definition PLUS : N := 43.
Definition MINUS : N := 45.
Definition UNDERSCORE : N := 95.

Fixpoint split_dot (s : pystr) : pystr * option pystr :=
  match s with
  | [] => ([], None)
  | c :: s' =>
      if (c =? DOT)%N then ([], Some s')
      else let '(ip, fp) := split_dot s' in (c :: ip, fp)
  end.

Definition digits_val (s : pystr) : Z :=
  fold_left (fun acc c => acc * 10 + Z.of_N (c - 48)) s 0.

Definition pow10 (n : nat) : positive := Nat.iter n (Pos.mul 10) 1%positive.

Definition unsigned_decimal (s : pystr) : option Q :=
  let '(ip, fp) := split_dot s in
  let fp := default [] fp in
  if decimal_digits (ip ++ fp)
  then Some (Qmake (digits_val (ip ++ fp)) (pow10 (length fp)))
  else None.

(** A Python float: not a number, an infinity, or a finite binary64
    number given by its exact value. *)
Inductive pyfloat := Fnan | Finf (neg : bool) | Ffin (q : Q).

(** [n / 2^t] and [d * 2^t] without fractions: the quotient
    [scaled_num n t / scaled_den d t] is [(n/d) / 2^t] for every integer
    [t]. *)
Definition scaled_num (n t : Z) : Z := if t <=? 0 then n * 2 ^ (- t) else n.
Definition scaled_den (d t : Z) : Z := if t <=? 0 then d else d * 2 ^ t.

(** The binary exponent of [n/d]: the [L] with [2^L <= n/d < 2^(L+1)]. *)
Definition binade (n d : positive) : Z :=
  let k := Z.log2 (Zpos n) - Z.log2 (Zpos d) in
  let above := if 0 <=? k then Zpos d * 2 ^ k <=? Zpos n
               else Zpos d <=? Zpos n * 2 ^ (- k) in
  if above then k else k - 1.

(** The exponent of the unit in the last place of a binary64 number near
    [n/d]: the significand has 53 bits, fewer for a subnormal number. *)
Definition ulp_exponent (n d : positive) : Z := Z.max (binade n d - 52) (-1074).

(** The integer nearest to [num/den], a tie going to the even one. *)
Definition round_even (num den : Z) : Z :=
  let m := num / den in
  let r := num mod den in
  if (den <? 2 * r) || ((den =? 2 * r) && Z.odd m) then m + 1 else m.

(** The binary64 number nearest to [n/d], ties to the even significand;
    [None] when it is beyond the largest one. *)
Definition b64_pos (n d : positive) : option Q :=
  let e := ulp_exponent n d in
  let m := round_even (scaled_num (Zpos n) e) (scaled_den (Zpos d) e) in
  if (971 <? e) || ((e =? 971) && (2 ^ 53 <=? m)) then None
  else Some (Qred (if 0 <=? e then inject_Z (m * 2 ^ e)
                   else Qmake m (Z.to_pos (2 ^ (- e))))).

(** Rounding of a rational to binary64; beyond the range it is an
    infinity. *)
Definition b64 (q : Q) : pyfloat :=
  match Qnum q with
  | Z0 => Ffin 0
  | Zpos n => match b64_pos n (Qden q) with
              | Some y => Ffin y
              | None => Finf false
              end
  | Zneg n => match b64_pos n (Qden q) with
              | Some y => Ffin (- y)
              | None => Finf true
              end
  end.

(** What [float] does to a character before it parses: ASCII stays, a
    blank becomes a space, a decimal digit of any script becomes its ASCII
    digit, anything else "?". *)
Definition to_ascii_cp (c : N) : N :=
  if (c <? 127)%N then c
  else if in_ranges space_ranges c then 32%N
  else match decimal_value c with
       | Some d => (48 + d)%N
       | None => 63%N
       end.

Definition is_space_ascii (c : N) : bool :=
  ((c =? 32) || ((9 <=? c) && (c <=? 13)))%N.

Fixpoint lstrip (s : pystr) : pystr :=
  match s with
  | c :: s' => if is_space_ascii c then lstrip s' else s
  | [] => []
  end.

Definition strip (s : pystr) : pystr := rev (lstrip (rev (lstrip s))).

(** Digit separators: an underscore is dropped when it stands between two
    digits and is an error elsewhere; [prev] is the character before. *)
Fixpoint remove_underscores (prev : N) (s : pystr) : option pystr :=
  match s with
  | [] => if (prev =? UNDERSCORE)%N then None else Some []
  | c :: s' =>
      if (c =? UNDERSCORE)%N then
        if is_decimal prev then remove_underscores c s' else None
      else if (prev =? UNDERSCORE)%N && negb (is_decimal c) then None
      else cons c <$> remove_underscores c s'
  end.

Definition split_sign (s : pystr) : bool * pystr :=
  match s with
  | c :: s' =>
      if (c =? MINUS)%N then (true, s')
      else if (c =? PLUS)%N then (false, s')
      else (false, s)
  | [] => (false, [])
  end.

(** The text before the first "e" or "E" and, when there is one, the text
    after it. *)
Fixpoint split_exp (s : pystr) : pystr * option pystr :=
  match s with
  | [] => ([], None)
  | c :: s' =>
      if ((c =? 101) || (c =? 69))%N then ([], Some s')
      else let '(m, e) := split_exp s' in (c :: m, e)
  end.

Definition signed_int (s : pystr) : option Z :=
  let '(neg, ds) := split_sign s in
  if decimal_digits ds then Some (if neg then - digits_val ds else digits_val ds)
  else None.

Definition Qpow10 (e : Z) : Q :=
  if 0 <=? e then inject_Z (10 ^ e) else Qmake 1 (Z.to_pos (10 ^ (- e))).

(** An unsigned decimal literal with an optional exponent. *)
Definition parse_number (s : pystr) : option Q :=
  let '(mant, ex) := split_exp s in
  q ← unsigned_decimal mant;
  match ex with
  | None => Some q
  | Some t => e ← signed_int t; Some (q * Qpow10 e)%Q
  end.

Definition lower_ascii (s : pystr) : pystr :=
  map (fun c => if ((65 <=? c) && (c <=? 90))%N then (c + 32)%N else c) s.

Definition INF : pystr := Eval vm_compute in u "inf".
Definition INFINITY : pystr := Eval vm_compute in u "infinity".
Definition NAN : pystr := Eval vm_compute in u "nan".

(** [float(s)]; [None] is ValueError. *)
Definition py_float (s : pystr) : option pyfloat :=
  t ← remove_underscores 0 (strip (map to_ascii_cp s));
  let '(neg, body) := split_sign t in
  match parse_number body with
  | Some q => Some (b64 (if neg then - q else q))
  | None =>
      let w := lower_ascii body in
      if bool_decide (w = INF ∨ w = INFINITY) then Some (Finf neg)
      else if bool_decide (w = NAN) then Some Fnan
      else None
  end.

Definition Qltb (x y : Q) : bool := negb (Qle_bool y x).

(** [x < y] and [x <= y] on floats; a comparison with nan is false. *)
Definition flt (x y : pyfloat) : bool :=
  match x, y with
  | Ffin a, Ffin b => Qltb a b
  | Ffin _, Finf neg => negb neg
  | Finf neg, Ffin _ => neg
  | Finf a, Finf b => a && negb b
  | _, _ => false
  end.

Definition fle (x y : pyfloat) : bool :=
  match x, y with
  | Fnan, _ | _, Fnan => false
  | _, _ => negb (flt y x)
  end.

End PyStr.

Import PyStr.

(** ** DataFrames, the object store and the exception monad *)

Module Frame.

(** A Python value stored in an added column. *)
Inductive cell := PyNone | PyStr (s : pystr) | PyBool (b : bool).

#[global] Instance cell_eq_dec : EqDecision cell.
Proof. solve_decision. Defined.

(** A row of the spreadsheet: "Код пациента", "Анализ", "Значение". *)
Record row := Row { patient : Z; test : pystr; value : pystr }.

#[global] Instance row_eq_dec : EqDecision row.
Proof. solve_decision. Defined.

(** The frame read from the spreadsheet, with the columns added later
    ("Повышен", "Заключение") kept by name. *)
Record DataFrame := Df { rows : list row; extra : gmap pystr (list cell) }.

(** A bound of a reference range, as the frame read from de.med_an_name
    holds it: a number, which is a [Decimal] for a column of type numeric
    and a float for a column of type double precision, or no number, which
    is [None] among Decimal objects and nan among floats (a NULL of the
    table in both cases).  Infinite bounds and bounds stored as NaN are
    left out. *)
Inductive bound := BNone | BNaN | BDecimal (q : Q) | BFloat (q : Q).

Bind Scope Q_scope with bound.

#[global] Instance Q_eq_dec : EqDecision Q.
Proof. solve_decision. Defined.

#[global] Instance bound_eq_dec : EqDecision bound.
Proof. solve_decision. Defined.

Coercion BFloat : Q >-> bound.

(** The number a bound stands for, if any. *)
Definition bound_number (b : bound) : option Q :=
  match b with
  | BDecimal q | BFloat q => Some q
  | BNone | BNaN => None
  end.

(** A row of de.med_an_name; the code addresses its columns by position:
    0 id, 1 name, 2 kind, 3 lower bound, 4 upper bound. *)
Record med_row := Med {
  m_id : pystr; m_name : pystr; m_kind : pystr; m_min : bound; m_max : bound }.

(** [l[mask]]: boolean indexing. *)
Fixpoint mask_select {A} (mask : list bool) (l : list A) : list A :=
  match mask, l with
  | b :: mask', x :: l' =>
      if b then x :: mask_select mask' l' else mask_select mask' l'
  | _, _ => []
  end.

(** [df[mask]]: a new frame with the selected rows of every column. *)
Definition select (mask : list bool) (df : DataFrame) : DataFrame :=
  Df (mask_select mask (rows df)) (mask_select mask <$> extra df).

Definition value_col (df : DataFrame) : list pystr := map value (rows df).

(** [df["Значение"] = vs]. *)
Definition set_values (vs : list pystr) (df : DataFrame) : DataFrame :=
  Df (zip_with (fun r v => Row (patient r) (test r) v) (rows df) vs) (extra df).

(** [df[name]] for an added column. *)
Definition column (name : pystr) (df : DataFrame) : list cell :=
  default [] (extra df !! name).

(** [df[name] = col]. *)
Definition set_column (name : pystr) (col : list cell) (df : DataFrame) : DataFrame :=
  Df (rows df) (<[name := col]> (extra df)).

(** [df.loc[i, name] = v]. *)
Definition loc_set (name : pystr) (i : nat) (v : cell) (df : DataFrame) : DataFrame :=
  Df (rows df) (alter (fun col => <[i := v]> col) name (extra df)).

(** [df.loc[mask, name] = new[mask]], column-wise. *)
Definition assign_where (mask : list bool) (new old : list cell) : list cell :=
  zip_with (fun (m : bool) (p : cell * cell) => if m then p.1 else p.2)
           mask (zip new old).

(** [groupby(key)]: the rows of each group, in frame order. *)
Definition groupby {A} (key : A -> Z) (l : list A) : gmap Z (list A) :=
  foldr (fun x g => <[key x := x :: default [] (g !! key x)]> g) ∅ l.

(** Objects the caller and the callee may share. *)
Inductive obj := ODf (df : DataFrame) | OMed (med : list med_row).

Abbreviation loc := positive.
Abbreviation store := (gmap positive obj).

Inductive exn :=
| IndexError       (* [.values[0]] on an empty selection *)
| ValueError       (* [float] on text that is no number *)
| TypeError        (* a comparison with [None]; an object of the wrong kind *)
| InvalidOperation (* a comparison of a Decimal with nan *)
| DataError        (* SQL: invalid input syntax for a CAST, or out of range *)
| RaiseException   (* SQL: RAISE EXCEPTION *)
| OSError.         (* the output spreadsheet cannot be written *)

Inductive outcome (A : Type) := Ok (a : A) | Raise (e : exn).
Arguments Ok {A} a.
Arguments Raise {A} e.

#[global] Instance outcome_ret : MRet outcome := fun A a => Ok a.
#[global] Instance outcome_bind : MBind outcome := fun A B f m =>
  match m with
  | Ok a => f a
  | Raise e => Raise e
  end.

(** Computations on the store that may raise; the store survives an
    exception, as Python objects do. *)
Definition M (A : Type) : Type := store -> store * outcome A.

#[global] Instance M_ret : MRet M := fun A a σ => (σ, Ok a).
#[global] Instance M_bind : MBind M := fun A B f m σ =>
  match m σ with
  | (σ', Ok a) => f a σ'
  | (σ', Raise e) => (σ', Raise e)
  end.

Definition lift {A} (o : outcome A) : M A := fun σ => (σ, o).

Definition get_df (l : loc) : M DataFrame := fun σ =>
  match σ !! l with
  | Some (ODf df) => (σ, Ok df)
  | _ => (σ, Raise TypeError)
  end.

Definition get_med (l : loc) : M (list med_row) := fun σ =>
  match σ !! l with
  | Some (OMed med) => (σ, Ok med)
  | _ => (σ, Raise TypeError)
  end.

(** A new object; its reference is fresh. *)
Definition alloc (o : obj) : M loc := fun σ =>
  let l := fresh (dom σ) in (<[l := o]> σ, Ok l).

(** In-place update of the frame behind a reference. *)
Definition update_df (l : loc) (f : DataFrame -> DataFrame) : M unit := fun σ =>
  match σ !! l with
  | Some (ODf df) => (<[l := ODf (f df)]> σ, Ok tt)
  | _ => (σ, Raise TypeError)
  end.

Fixpoint for_each {A} (xs : list A) (body : A -> M unit) : M unit :=
  match xs with
  | [] => mret tt
  | x :: xs' => body x ;; for_each xs' body
  end.

(** [med_df[med_df[0] == t][k].values[0]]. *)
Definition med_value (med : list med_row) (t : pystr) (proj : med_row -> bound)
  : outcome bound :=
  match filter (fun m => m_id m = t) med with
  | m :: _ => Ok (proj m)
  | [] => Raise IndexError
  end.

(** [float(s)]. *)
Definition float (s : pystr) : outcome pyfloat :=
  match py_float s with
  | Some x => Ok x
  | None => Raise ValueError
  end.

(** A comparison [b op x] of a bound with a float, [op] one of [<], [>],
    [<=], [>=]; [x op' b] with the float on the left is evaluated as its
    mirror image.  Python compares a Decimal with a float by their exact
    values. *)
Definition py_cmp (op : pyfloat -> pyfloat -> bool) (b : bound) (x : pyfloat)
  : outcome bool :=
  match b with
  | BNone => Raise TypeError
  | BNaN => Ok false
  | BDecimal q =>
      match x with
      | Fnan => Raise InvalidOperation
      | _ => Ok (op (Ffin q) x)
      end
  | BFloat q => Ok (op (Ffin q) x)
  end.

Definition fgt (x y : pyfloat) : bool := flt y x.
Definition fge (x y : pyfloat) : bool := fle y x.

End Frame.

Import Frame.

(** ** decode_patients.py *)

Module V1.

(** [filter_patients(df, test_count=2)]. *)
Definition filter_patients (df : DataFrame) (test_count : Z) : DataFrame :=
  let groups := (fun g => Z.of_nat (length g)) <$> groupby patient (rows df) in
  let pat_codes := filter (fun kv => test_count <= kv.2) groups in
  select (map (fun r => bool_decide (patient r ∈ dom pat_codes)) (rows df)) df.

Definition values_voc : list (pystr * pystr) :=
  Eval vm_compute in [(u "+", u "п"); (u "-", u "о")].

(** [clean_values(df)]: works on a copy and returns a new frame. *)
Definition clean_values (df : DataFrame) : DataFrame :=
  let df := set_values (map lower (value_col df)) df in
  fold_left
    (fun df '(rep, pat) =>
       let mask := map (fun v => startswith v pat) (value_col df) in
       set_values (zip_with (fun (m : bool) v => if m then rep else v)
                            mask (value_col df)) df)
    values_voc df.

Definition check_name : pystr := Eval vm_compute in u "Повышен".
Definition KIND_N : pystr := Eval vm_compute in u "N".

(** The branches of the loop of [check_range]: the flag written for a
    value, [None] when the cell is left as it is. *)
Definition flag (min_val max_val : bound) (curr_val : pyfloat)
  : outcome (option bool) :=
  above ← py_cmp flt max_val curr_val;            (* max_val < curr_val *)
  if above : bool then Ok (Some true)
  else
    below ← py_cmp fgt min_val curr_val;          (* min_val > curr_val *)
    if below : bool then Ok (Some false) else Ok None.

(** One iteration of the loop of [check_range] over [df.iterrows()]. *)
Definition loop_body (l lm : loc) (irow : nat * row) : M unit :=
  let '(i, row) := irow in
  med_df ← get_med lm;
  min_val ← lift (med_value med_df (test row) m_min);
  max_val ← lift (med_value med_df (test row) m_max);
  curr_val ← lift (float (value row));
  f ← lift (flag min_val max_val curr_val);
  match f with
  | Some b => update_df l (loc_set check_name i (PyBool b))
  | None => mret tt
  end.

(** [check_range(df, med_df)]: both arguments are copied first; the
    result is the local frame. *)
Definition check_range (l lm : loc) : M loc :=
  med ← get_med lm;
  lm1 ← alloc (OMed med);                                  (* med_df.copy() *)
  df ← get_df l;
  l1 ← alloc (ODf df);                                     (* df.copy() *)
  med ← get_med lm1;
  lm2 ← alloc (OMed (filter (fun m => m_kind m = KIND_N) med));
  med ← get_med lm2;
  let unique_test_names := remove_dups (map m_id med) in
  df ← get_df l1;
  l2 ← alloc (ODf (select
          (map (fun r => bool_decide (test r ∈ unique_test_names)) (rows df)) df));
  update_df l2 (fun df =>
    set_column check_name (replicate (length (rows df)) PyNone) df);;
  df ← get_df l2;
  for_each (imap pair (rows df)) (loop_body l2 lm2);;
  mret l2.

(** The script: [filter_patients], [clean_values], [check_range]. *)
Definition main (xlsx : DataFrame) (med_an_name : list med_row) : M loc :=
  l0 ← alloc (ODf xlsx);
  df ← get_df l0;
  l1 ← alloc (ODf (filter_patients df 2));
  df ← get_df l1;
  l2 ← alloc (ODf (clean_values df));
  lm ← alloc (OMed med_an_name);
  check_range l2 lm.

End V1.

(** ** decode_patients_pandas.py *)

Module Pandas.

(** [filter_patients(df, test_count=2)]. *)
Definition filter_patients (df : DataFrame) (test_count : Z) : DataFrame :=
  let groups := (fun g => Z.of_nat (length g)) <$> groupby patient (rows df) in
  let pat_codes := filter (fun kv => test_count <= kv.2) groups in
  select (map (fun r => bool_decide (patient r ∈ dom pat_codes)) (rows df)) df.

Definition POSITIVE : pystr := Eval vm_compute in u "Положительный".
Definition NEGATIVE : pystr := Eval vm_compute in u "Отрицательный".
Definition HIGH : pystr := Eval vm_compute in u "Повышен".
Definition LOW : pystr := Eval vm_compute in u "Понижен".
Definition NORMAL : pystr := Eval vm_compute in u "Норма".

Definition values_voc : list (pystr * list pystr) :=
  Eval vm_compute in
    [(u "Положительный", [u "п"; u "+"]); (u "Отрицательный", [u "о"; u "-"])].

(** [clean_values(df)]: works on a copy and returns a new frame. *)
Definition clean_values (df : DataFrame) : DataFrame :=
  let df := set_values (map lower (value_col df)) df in
  fold_left
    (fun df '(rep, pat) =>
       let mask := map (fun v => startswith_any v pat) (value_col df) in
       set_values (zip_with (fun (m : bool) v => if m then rep else v)
                            mask (value_col df)) df)
    values_voc df.

Definition check_name : pystr := Eval vm_compute in u "Заключение".

(** [lambda x: x.replace(".", "", 1).isdigit()]. *)
Definition numeric (x : pystr) : bool := isdigit (remove_first DOT x).

(** [lambda x: ((x != "Норма") & (x != "Отрицательный")).sum()], on one
    element. *)
Definition counted (x : cell) : bool :=
  bool_decide (x ≠ PyStr NORMAL) && bool_decide (x ≠ PyStr NEGATIVE).

(** [.isin(["Повышен", "Понижен", "Положительный"])], on one element. *)
Definition reported (x : cell) : bool :=
  bool_decide (x ∈ [PyStr HIGH; PyStr LOW; PyStr POSITIVE]).

(** The aggregation of [check_range]: patient ↦ ("Количество анализов",
    "Плохие анализы"). *)
Definition grouped (df : DataFrame) : gmap Z (Z * Z) :=
  (fun g : list (row * cell) =>
     (Z.of_nat (length g),
      Z.of_nat (length (filter (fun rc => counted rc.2) g))))
  <$> groupby (fun rc : row * cell => patient rc.1) (zip (rows df) (column check_name df)).

(** The table returned by [check_range]: the columns "Код пациента",
    "Анализ", "Заключение". *)
Definition final_table (df : DataFrame) (test_count : Z) : list (Z * pystr * cell) :=
  let grouped := filter (fun kv : Z * (Z * Z) => test_count <= kv.2.2) (grouped df) in
  let filtered_df :=
    filter (fun rc : row * cell => patient rc.1 ∈ dom grouped)
           (zip (rows df) (column check_name df)) in
  map (fun rc : row * cell => (patient rc.1, test rc.1, rc.2))
      (filter (fun rc : row * cell => reported rc.2) filtered_df).

(** The branches of the loop of [check_range]: the conclusion written
    for a value, [None] when no branch applies and the cell is left as
    it is. *)
Definition conclusion (min_val max_val : bound) (curr_val : pyfloat)
  : outcome (option pystr) :=
  above ← py_cmp flt max_val curr_val;            (* max_val < curr_val *)
  if above : bool then Ok (Some HIGH)
  else
    below ← py_cmp fgt min_val curr_val;          (* min_val > curr_val *)
    if below : bool then Ok (Some LOW)
    else
      a ← py_cmp fle min_val curr_val;            (* min_val <= curr_val ... *)
      if a : bool then
        b ← py_cmp fge max_val curr_val;          (* ... <= max_val *)
        if b : bool then Ok (Some NORMAL) else Ok None
      else Ok None.

(** One iteration of the loop of [check_range] over the numeric rows. *)
Definition loop_body (l lm : loc) (irow : nat * row) : M unit :=
  let '(i, row) := irow in
  curr_val ← lift (float (value row));
  med_df ← get_med lm;
  min_val ← lift (med_value med_df (test row) m_min);
  max_val ← lift (med_value med_df (test row) m_max);
  c ← lift (conclusion min_val max_val curr_val);
  match c with
  | Some s => update_df l (loc_set check_name i (PyStr s))
  | None => mret tt
  end.

(** [check_range(df, med_df, test_count=2)]: [l] is the caller's frame,
    written in place. *)
Definition check_range (l lm : loc) (test_count : Z) : M (list (Z * pystr * cell)) :=
  update_df l (fun df =>
    set_column check_name (replicate (length (rows df)) PyNone) df);;
  df ← get_df l;
  let numeric_mask := map (fun r => numeric (value r)) (rows df) in
  update_df l (fun df =>
    set_column check_name
      (assign_where (map negb numeric_mask)
                    (map (fun r => PyStr (value r)) (rows df))
                    (column check_name df)) df);;
  df ← get_df l;
  for_each (mask_select numeric_mask (imap pair (rows df))) (loop_body l lm);;
  df ← get_df l;
  mret (final_table df test_count).

(** The script up to [check_range]. *)
Definition main (xlsx : DataFrame) (med_an_name : list med_row) : M (list (Z * pystr * cell)) :=
  l0 ← alloc (ODf xlsx);
  df ← get_df l0;
  l1 ← alloc (ODf (filter_patients df 2));
  df ← get_df l1;
  l2 ← alloc (ODf (clean_values df));
  lm ← alloc (OMed med_an_name);
  check_range l2 lm 2.

End Pandas.

(** ** decode_patients_sql.py *)

Module Sql.

Fixpoint mapM {A B} (f : A -> outcome B) (l : list A) : outcome (list B) :=
  match l with
  | [] => Ok []
  | x :: l' => y ← f x; ys ← mapM f l'; Ok (y :: ys)
  end.

Definition POSITIVE : pystr := Eval vm_compute in u "Положительный".
Definition NEGATIVE : pystr := Eval vm_compute in u "Отрицательный".
Definition HIGH : pystr := Eval vm_compute in u "Повышен".
Definition LOW : pystr := Eval vm_compute in u "Понижен".
Definition NORMAL : pystr := Eval vm_compute in u "Норма".
Definition INVALID : pystr := Eval vm_compute in u "Некорректное значение".
Definition PLUS_SIGN : pystr := Eval vm_compute in u "+".
Definition MINUS_SIGN : pystr := Eval vm_compute in u "-".
Definition CAP_PE : pystr := Eval vm_compute in u "П".
Definition CAP_O : pystr := Eval vm_compute in u "О".

(** The load loop: [str(row["Значение"]).replace(",", ".")], row by row
    into the temporary table medicine. *)
Definition load (df : list row) : list row :=
  map (fun r => Row (patient r) (test r) (replace_char COMMA DOT (value r))) df.

(** SQL_CLEAN_VALUES; [~ '^П'] is a case-sensitive match at the start. *)
Definition SQL_CLEAN_VALUES (medicine : list row) : list row :=
  map (fun r => Row (patient r) (test r)
                  (if startswith (value r) CAP_PE then PLUS_SIGN
                   else if startswith (value r) CAP_O then MINUS_SIGN
                   else value r))
      medicine.

(** [v ~ '^[0-9.]+$']. *)
Definition matches_number (v : pystr) : bool :=
  match v with
  | [] => false
  | _ => forallb (fun c => is_decimal c || (c =? DOT)%N) v
  end.

(** Conversion to double precision, by the input function of the type and
    by the cast of a numeric: the nearest binary64 number; a value beyond
    the range, and a value other than zero that rounds to zero, is an
    error. *)
Definition float8 (q : Q) : outcome Q :=
  match b64 q with
  | Ffin y => if Qeq_bool y 0 && negb (Qeq_bool q 0) then Raise DataError else Ok y
  | _ => Raise DataError
  end.

(** [CAST(v AS FLOAT)] on text of digits and dots. *)
Definition cast_float (v : pystr) : outcome Q :=
  match unsigned_decimal v with
  | Some q => float8 q
  | None => Raise DataError
  end.

(** A bound of de.med_an_name as an operand of a comparison with a double
    precision number: NULL ([None]), or its value in double precision. *)
Definition sql_bound (b : bound) : outcome (option Q) :=
  match b with
  | BNone | BNaN => Ok None
  | BDecimal q => y ← float8 q; Ok (Some y)
  | BFloat q => Ok (Some q)
  end.

(** [x < b] and [x > b]; a comparison with NULL is not true. *)
Definition sql_lt (x : Q) (b : bound) : outcome bool :=
  y ← sql_bound b; Ok (from_option (fun y => Qltb x y) false y).

Definition sql_gt (x : Q) (b : bound) : outcome bool :=
  y ← sql_bound b; Ok (from_option (fun y => Qltb y x) false y).

(** [v ~ '^[0-9.]+$' AND cmp(CAST(v AS FLOAT))]; the CAST is evaluated
    only when the pattern matches. *)
Definition number_and (v : pystr) (cmp : Q -> outcome bool) : outcome bool :=
  if matches_number v then x ← cast_float v; cmp x else Ok false.

(** The CASE of SQL_DECODE_ANALYSIS. *)
Definition zakl_case (v : pystr) (min_value max_value : bound) : outcome pystr :=
  if bool_decide (v = PLUS_SIGN) then Ok POSITIVE
  else if bool_decide (v = MINUS_SIGN) then Ok NEGATIVE
  else
    below ← number_and v (fun x => sql_lt x min_value);
    if below : bool then Ok LOW
    else
      above ← number_and v (fun x => sql_gt x max_value);
      if above : bool then Ok HIGH
      else if matches_number v then Ok NORMAL
      else Ok INVALID.

Record decoded_row := Dec {
  d_patient : Z; d_test : pystr; d_name : pystr; d_value : pystr;
  d_min : bound; d_max : bound; d_zakl : pystr }.

(** SQL_DECODE_ANALYSIS: inner join of cleaned_data with de.med_an_name. *)
Definition SQL_DECODE_ANALYSIS (cleaned_data : list row) (man : list med_row)
  : outcome (list decoded_row) :=
  mapM (fun p : row * med_row =>
          z ← zakl_case (value p.1) (m_min p.2) (m_max p.2);
          Ok (Dec (patient p.1) (test p.1) (m_name p.2) (value p.1)
                  (m_min p.2) (m_max p.2) z))
       (cd ← cleaned_data;
        (fun m => (cd, m)) <$> filter (fun m => test cd = m_id m) man).

(** SQL_CHECK_CORRECT_VALUE. *)
Definition SQL_CHECK_CORRECT_VALUE (decoded_data : list decoded_row) : outcome unit :=
  if existsb (fun d => bool_decide (d_zakl d = INVALID)) decoded_data
  then Raise RaiseException
  else Ok tt.

(** [CASE WHEN Заключение IN ('Повышен', 'Понижен', 'Положительный')
    THEN 1 ELSE 0 END]. *)
Definition bad (d : decoded_row) : Z :=
  if bool_decide (d_zakl d ∈ [HIGH; LOW; POSITIVE]) then 1 else 0.

(** SQL_FILTER_PATIENTS: patient ↦ ("Всего тестов", "Плохие анализы"). *)
Definition SQL_FILTER_PATIENTS (decoded_data : list decoded_row) : gmap Z (Z * Z) :=
  filter (fun kv : Z * (Z * Z) => 2 <= kv.2.2)
    ((fun g => (Z.of_nat (length g), foldr (fun d acc => bad d + acc) 0 g))
       <$> groupby d_patient decoded_data).

(** The statements of the script in order, up to filtered_patients. *)
Definition script (df : list row) (man : list med_row) : outcome (gmap Z (Z * Z)) :=
  let medicine := load df in
  let cleaned_data := SQL_CLEAN_VALUES medicine in
  decoded_data ← SQL_DECODE_ANALYSIS cleaned_data man;
  SQL_CHECK_CORRECT_VALUE decoded_data;;
  Ok (SQL_FILTER_PATIENTS decoded_data).

End Sql.

(** ** The reporter of decode_patients_pandas.py *)

Module PandasReport.

(** A row of de.med_name: id, name, phone. *)
Record contact := Contact { c_id : Z; c_name : pystr; c_phone : pystr }.

(** A row of the final table: "Телефон", "Имя", "Анализ", "Заключение". *)
Record report_row := Report {
  r_phone : pystr; r_name : pystr; r_test : pystr; r_zakl : cell }.

(** [get_final_table(df1, df2)]: inner merge on the patient code, then the
    four columns.  The order of the rows of a merge depends on the pandas
    version; here the rows of [df1] are taken in turn. *)
Definition get_final_table (df1 : list (Z * pystr * cell)) (df2 : list contact)
  : list report_row :=
  x ← df1;
  (fun k => Report (c_phone k) (c_name k) x.1.2 x.2)
    <$> filter (fun k => c_id k = x.1.1) df2.

(** A row of public.maka_med_results; [None] is NULL. *)
Record db_row := DbRow {
  db_phone : pystr; db_name : pystr; db_test : pystr; db_zakl : option pystr }.

(** A string parameter cannot contain the character U+0000. *)
Definition has_nul (s : pystr) : bool := existsb (fun c => (c =? 0)%N) s.

(** Storing text in a VARCHAR(n) column: text longer than [n] characters
    is an error, unless the excess is spaces, which are cut off. *)
Definition varchar (n : nat) (s : pystr) : outcome pystr :=
  if (length s <=? n)%nat then Ok s
  else if forallb (fun c => (c =? 32)%N) (drop n s) then Ok (take n s)
  else Raise DataError.

(** The text a Python value is stored as: None is NULL, a bool is stored
    as its SQL text. *)
Definition adapt (v : cell) : option pystr :=
  match v with
  | PyNone => None
  | PyStr s => Some s
  | PyBool true => Some (u "true")
  | PyBool false => Some (u "false")
  end.

(** One INSERT of [insert_query]. *)
Definition insert_row (r : report_row) : outcome db_row :=
  let z := adapt (r_zakl r) in
  if has_nul (r_phone r) || has_nul (r_name r) || has_nul (r_test r)
     || has_nul (default [] z)
  then Raise ValueError
  else
    ph ← varchar 20 (r_phone r);
    nm ← varchar 100 (r_name r);
    an ← varchar 20 (r_test r);
    zk ← match z with
         | Some s => s' ← varchar 50 s; Ok (Some s')
         | None => Ok None
         end;
    Ok (DbRow ph nm an zk).

Fixpoint executemany (rs : list report_row) : outcome (list db_row) :=
  match rs with
  | [] => Ok []
  | r :: rs' => x ← insert_row r; xs ← executemany rs'; Ok (x :: xs)
  end.

(** [load_final_table_to_db(conn, df)] on the table public.maka_med_results
    ([None]: the table does not exist).  The statements run in one
    transaction, committed at the end and rolled back on an exception. *)
Definition load_final_table_to_db (db : option (list db_row)) (df : list report_row)
  : option (list db_row) * outcome unit :=
  match executemany df with
  | Ok stored => (Some (default [] db ++ stored), Ok tt)
  | Raise e => (db, Raise e)
  end.

(** The script: classification, report, table, spreadsheet.  The result
    is the persistent table after the run and, when nothing raised, the
    frame written to the spreadsheet.  [to_excel] is the outcome of writing
    a frame to data/maka_med_results.xlsx, which is up to the file system;
    it runs after the table has been committed. *)
Definition main (to_excel : list report_row -> outcome unit)
           (xlsx : DataFrame) (med_an_name : list med_row)
           (med_name : list contact) (db : option (list db_row)) (σ : store)
  : option (list db_row) * outcome (list report_row) :=
  match (Pandas.main xlsx med_an_name σ).2 with
  | Raise e => (db, Raise e)
  | Ok df =>
      let df_final := get_final_table df med_name in
      match load_final_table_to_db db df_final with
      | (db', Ok _) =>
          match to_excel df_final with
          | Ok _ => (db', Ok df_final)
          | Raise e => (db', Raise e)
          end
      | (db', Raise e) => (db', Raise e)
      end
  end.

End PandasReport.

(** ** The reporter of decode_patients_sql.py *)

Module SqlReport.

Import PandasReport.

(** SQL_FINAL_RESULTS_WITH_PATIENTS: filtered_patients joined with
    decoded_data and de.med_name.  The order of the rows is the one of this
    evaluation; SQL leaves it open. *)
Definition SQL_FINAL_RESULTS_WITH_PATIENTS
           (filtered_patients : gmap Z (Z * Z)) (decoded_data : list Sql.decoded_row)
           (mn : list contact) : list (pystr * pystr * pystr * pystr) :=
  fp ← map_to_list filtered_patients;
  cd ← filter (fun d => fp.1 = Sql.d_patient d) decoded_data;
  k ← filter (fun k => fp.1 = c_id k) mn;
  if bool_decide (Sql.d_zakl cd ∈ [Sql.HIGH; Sql.LOW; Sql.POSITIVE])
  then [(c_phone k, c_name k, Sql.d_name cd, Sql.d_zakl cd)]
  else [].

(** [CREATE TABLE IF NOT EXISTS public.maka_med_results AS SELECT ...]:
    nothing is done when the table exists. *)
Definition create_results (db : option (list (pystr * pystr * pystr * pystr)))
           (results : list (pystr * pystr * pystr * pystr))
  : option (list (pystr * pystr * pystr * pystr)) :=
  match db with
  | Some t => Some t
  | None => Some results
  end.

(** The statements of the script up to the commit: the persistent table
    after them and, when no statement raised, the rows fetched for the
    spreadsheet, which is written after the commit.  Nothing is committed
    when a statement raises. *)
Definition script (df : list row) (man : list med_row) (mn : list contact)
           (db : option (list (pystr * pystr * pystr * pystr)))
  : option (list (pystr * pystr * pystr * pystr))
    * outcome (list (pystr * pystr * pystr * pystr)) :=
  let medicine := Sql.load df in
  let cleaned_data := Sql.SQL_CLEAN_VALUES medicine in
  match (decoded_data ← Sql.SQL_DECODE_ANALYSIS cleaned_data man;
         Sql.SQL_CHECK_CORRECT_VALUE decoded_data;;
         Ok decoded_data) with
  | Raise e => (db, Raise e)
  | Ok decoded_data =>
      let filtered_patients := Sql.SQL_FILTER_PATIENTS decoded_data in
      let results :=
        SQL_FINAL_RESULTS_WITH_PATIENTS filtered_patients decoded_data mn in
      (create_results db results, Ok results)
  end.

End SqlReport.

(** ** Notions used in the statements *)

(** The number of rows of the frame recorded for a patient. *)
Definition tests_of (df : DataFrame) (p : Z) : Z :=
  Z.of_nat (length (filter (fun r => patient r = p) (rows df))).

(** [df] with its "Значение" column rewritten value by value. *)
Definition map_values (f : pystr -> pystr) (df : DataFrame) : DataFrame :=
  Df (map (fun r => Row (patient r) (test r) (f (value r))) (rows df)) (extra df).

(** What [V1.clean_values] does to one value. *)
Definition V1_clean_value (s : pystr) : pystr :=
  if startswith (lower s) [1087%N] then [PLUS]          (* "п" *)
  else if startswith (lower s) [1086%N] then [MINUS]    (* "о" *)
  else lower s.

(** What [Pandas.clean_values] does to one value. *)
Definition Pandas_clean_value (s : pystr) : pystr :=
  if startswith_any (lower s) [[1087%N]; [PLUS]] then Pandas.POSITIVE
  else if startswith_any (lower s) [[1086%N]; [MINUS]] then Pandas.NEGATIVE
  else lower s.

(** The cell [Pandas.check_range] holds for a row before its loop runs. *)
Definition Pandas_initial (r : row) : cell :=
  if Pandas.numeric (value r) then PyNone else PyStr (value r).

(** The cell [Pandas.check_range] holds for a row once the row has been
    dealt with, or the exception its iteration raises. *)
Definition Pandas_row_conclusion (med : list med_row) (r : row) : outcome cell :=
  if Pandas.numeric (value r) then
    curr_val ← float (value r);
    min_val ← med_value med (test r) m_min;
    max_val ← med_value med (test r) m_max;
    c ← Pandas.conclusion min_val max_val curr_val;
    Ok (from_option PyStr PyNone c)
  else Ok (PyStr (value r)).

(** The column "Заключение" when the loop of [Pandas.check_range] ends, and
    the exception that ended it, if any. *)
Fixpoint Pandas_loop_column (med : list med_row) (rs : list row)
  : list cell * option exn :=
  match rs with
  | [] => ([], None)
  | r :: rs' =>
      match Pandas_row_conclusion med r with
      | Ok c => let '(col, e) := Pandas_loop_column med rs' in (c :: col, e)
      | Raise e => (map Pandas_initial (r :: rs'), Some e)
      end
  end.

(** The test has a row in the reference table. *)
Definition has_range (med : list med_row) (t : pystr) : bool :=
  bool_decide (t ∈ map m_id med).

(** [float] accepts the text of every numeric row of the frame. *)
Definition numbers_parse (rs : list row) : bool :=
  forallb (fun r => negb (Pandas.numeric (value r))
                    || bool_decide (is_Some (py_float (value r)))) rs.

(** Every numeric row of the frame has its test in the reference table. *)
Definition ranges_known (med : list med_row) (rs : list row) : bool :=
  forallb (fun r => negb (Pandas.numeric (value r)) || has_range med (test r)) rs.

(** No bound of the reference table is [None]. *)
Definition bounds_given (med : list med_row) : bool :=
  forallb (fun m => bool_decide (m_min m ≠ BNone ∧ m_max m ≠ BNone)) med.

(** The rational is a binary64 number. *)
Definition is_binary64 (q : Q) : bool :=
  match b64 q with
  | Ffin y => Qeq_bool y q
  | _ => false
  end.

(** The frame behind a reference, and a cell of one of its added columns. *)
Definition frame_at (σ : store) (l : loc) : option DataFrame :=
  match σ !! l with
  | Some (ODf df) => Some df
  | _ => None
  end.

Definition cell_at (σ : store) (l : loc) (name : pystr) (i : nat) : option cell :=
  df ← frame_at σ l; col ← extra df !! name; col !! i.

(** The number of conclusions "Повышен", "Понижен" or "Положительный"
    among decoded rows. *)
Definition Sql_bad_results (g : list Sql.decoded_row) : Z :=
  Z.of_nat (length (filter (fun d => Sql.d_zakl d ∈ [Sql.HIGH; Sql.LOW; Sql.POSITIVE]) g)).

(** The prefixes [Pandas.clean_values] rewrites: "п", "+", "о", "-". *)
Definition marker_prefixes : list pystr :=
  Eval vm_compute in [u "п"; u "+"; u "о"; u "-"].

(** The number of conclusions of a patient, in the frame, that are neither
    "Норма" nor "Отрицательный". *)
Definition Pandas_bad_count (df : DataFrame) (p : Z) : Z :=
  Z.of_nat (length
    (filter (fun rc : row * cell =>
               rc.2 ≠ PyStr Pandas.NORMAL ∧ rc.2 ≠ PyStr Pandas.NEGATIVE)
            (filter (fun rc : row * cell => patient rc.1 = p)
                    (zip (rows df) (column Pandas.check_name df))))).

(** The cell the loop of [V1.check_range] leaves for a row, or the
    exception its iteration raises. *)
Definition V1_row_flag (med : list med_row) (r : row) : outcome cell :=
  min_val ← med_value med (test r) m_min;
  max_val ← med_value med (test r) m_max;
  curr_val ← float (value r);
  f ← V1.flag min_val max_val curr_val;
  Ok (from_option PyBool PyNone f).

(** The column "Повышен" when the loop of [V1.check_range] ends, and the
    exception that ended it, if any. *)
Fixpoint V1_loop_column (med : list med_row) (rs : list row)
  : list cell * option exn :=
  match rs with
  | [] => ([], None)
  | r :: rs' =>
      match V1_row_flag med r with
      | Ok c => let '(col, e) := V1_loop_column med rs' in (c :: col, e)
      | Raise e => (replicate (length (r :: rs')) PyNone, Some e)
      end
  end.

(** The numeric tests of the reference table, and the rows of a frame that
    [V1.check_range] keeps. *)
Definition V1_numeric_tests (med : list med_row) : list med_row :=
  filter (fun m => m_kind m = V1.KIND_N) med.

Definition V1_kept (med : list med_row) (rs : list row) : list row :=
  filter (fun r => test r ∈ map m_id (V1_numeric_tests med)) rs.

(** [float] accepts the value of every row. *)
Definition V1_numbers_parse (rs : list row) : bool :=
  forallb (fun r => bool_decide (is_Some (py_float (value r)))) rs.

(** [b < x] and [b > x] for a bound that is a number; a bound that is nan
    is neither below nor above. *)
Definition bound_lt (b : bound) (x : pyfloat) : bool :=
  from_option (fun q => flt (Ffin q) x) false (bound_number b).

Definition bound_gt (b : bound) (x : pyfloat) : bool :=
  from_option (fun q => flt x (Ffin q)) false (bound_number b).

(** A comparison of the bound with the float raises no exception: the
    bound is not [None], and it is no Decimal when the float is nan. *)
Definition comparable (b : bound) (x : pyfloat) : bool :=
  match b, x with
  | BNone, _ => false
  | BDecimal _, Fnan => false
  | _, _ => true
  end.

(** The bounds of the first reference row of the test of the row are
    comparable with the value of the row. *)
Definition V1_comparable (med : list med_row) (r : row) : bool :=
  match head (filter (fun m => m_id m = test r) med), py_float (value r) with
  | Some m, Some x => comparable (m_max m) x && comparable (m_min m) x
  | _, _ => true
  end.

(** The row is stored as it is: no U+0000, and every text within the
    length of its column. *)
Definition fits (r : PandasReport.report_row) : bool :=
  negb (PandasReport.has_nul (PandasReport.r_phone r))
  && negb (PandasReport.has_nul (PandasReport.r_name r))
  && negb (PandasReport.has_nul (PandasReport.r_test r))
  && negb (PandasReport.has_nul (default [] (PandasReport.adapt (PandasReport.r_zakl r))))
  && (length (PandasReport.r_phone r) <=? 20)%nat
  && (length (PandasReport.r_name r) <=? 100)%nat
  && (length (PandasReport.r_test r) <=? 20)%nat
  && (length (default [] (PandasReport.adapt (PandasReport.r_zakl r))) <=? 50)%nat.

Definition as_db_row (r : PandasReport.report_row) : PandasReport.db_row :=
  PandasReport.DbRow (PandasReport.r_phone r) (PandasReport.r_name r)
                     (PandasReport.r_test r) (PandasReport.adapt (PandasReport.r_zakl r)).

(** No text of the row contains U+0000. *)
Definition nul_free (r : PandasReport.report_row) : bool :=
  negb (PandasReport.has_nul (PandasReport.r_phone r)
        || PandasReport.has_nul (PandasReport.r_name r)
        || PandasReport.has_nul (PandasReport.r_test r)
        || PandasReport.has_nul (default [] (PandasReport.adapt (PandasReport.r_zakl r)))).

(** The text is longer than [n] characters and the excess is not blank. *)
Definition overlong (n : nat) (s : pystr) : bool :=
  negb (length s <=? n)%nat && negb (forallb (fun c => (c =? 32)%N) (drop n s)).

(** The columns of a decoded row that come from cleaned_data. *)
Definition decoded_source (d : Sql.decoded_row) : row :=
  Row (Sql.d_patient d) (Sql.d_test d) (Sql.d_value d).

(** ** Concrete inputs *)

Definition ex_med : list med_row :=
  [Med (u "A") (u "Гемоглобин") (u "N") 10 15].

(** A store where reference 1 is the frame and reference 2 the table of
    reference ranges. *)
Definition ex_store (df : DataFrame) : store :=
  <[1%positive := ODf df]> (<[2%positive := OMed ex_med]> ∅).

Definition ex_numeric : DataFrame :=
  Df [Row 1 (u "A") (u "12.5"); Row 1 (u "A") (u "10"); Row 1 (u "A") (u "15.5")] ∅.

Definition ex_signed : DataFrame :=
  Df [Row 7 (u "A") (u "-5"); Row 7 (u "A") (u "+3.2")] ∅.

Definition ex_plus : DataFrame := Df [Row 1 (u "A") (u "+")] ∅.

(** One patient with a positive marker, a value in range and a value that
    is neither a marker nor a number. *)
Definition ex_invalid : DataFrame :=
  Df [Row 1 (u "A") (u "п"); Row 1 (u "A") (u "12.5"); Row 1 (u "B") (u "abc")] ∅.

(** The same batch without the row that is neither a marker nor a number. *)
Definition ex_valid_only : DataFrame :=
  Df [Row 1 (u "A") (u "п"); Row 1 (u "A") (u "12.5")] ∅.

Definition ex_comma : DataFrame :=
  Df [Row 1 (u "A") (u "12,5"); Row 1 (u "A") (u "11")] ∅.

(** Test "X" has no row in [ex_med]. *)
Definition ex_unknown : DataFrame :=
  Df [Row 1 (u "X") (u "5"); Row 1 (u "A") (u "20"); Row 1 (u "A") (u "30")] ∅.

Definition ex_unknown_marker : DataFrame :=
  Df [Row 1 (u "X") (u "п"); Row 1 (u "X") (u "+")] ∅.

Definition ex_lower_pe : DataFrame :=
  Df [Row 1 (u "A") (u "п"); Row 1 (u "A") (u "20")] ∅.

(** Values on and next to the bounds of the range [10, 15]. *)
Definition ex_bounds : DataFrame :=
  Df [Row 1 (u "A") (u "10"); Row 1 (u "A") (u "15");
      Row 1 (u "A") (u "9.99"); Row 1 (u "A") (u "15.01")] ∅.

(** A value above the upper bound 15 in decimal and on it in binary64, and
    a value written with an Arabic-Indic digit for a test that has no
    reference row. *)
Definition ex_rounding : DataFrame :=
  Df [Row 1 (u "A") (u "15.000000000000000001"); Row 1 (u "A") (u "15.1")] ∅.

Definition ex_other_script : DataFrame :=
  Df [Row 1 (u "X") (u "٣"); Row 1 (u "A") (u "20")] ∅.



(** A reference table without bounds for its test: [None] in a table of
    Decimal objects, nan in a table of floats. *)
Definition ex_med_none : list med_row :=
  [Med (u "A") (u "Гемоглобин") (u "N") BNone BNone].

Definition ex_med_nan : list med_row :=
  [Med (u "A") (u "Гемоглобин") (u "N") BNaN BNaN].

(** A superscript digit passes [isdigit] and is no number for [float]. *)
Definition ex_superscript : DataFrame :=
  Df [Row 1 (u "A") (u "5²"); Row 1 (u "A") (u "20")] ∅.

(** The scenario of the specification: P1 with a positive marker and a
    value above its range, P2 with values in range. *)
Definition ex_scenario_med : list med_row :=
  [Med (u "A") (u "Анализ A") (u "Y") 0 0;
   Med (u "B") (u "Анализ B") (u "N") 10 40;
   Med (u "C") (u "Анализ C") (u "N") 10 40].

Definition ex_scenario : DataFrame :=
  Df [Row 1 (u "A") (u "Положительный"); Row 1 (u "B") (u "50");
      Row 2 (u "C") (u "30"); Row 2 (u "C") (u "10")] ∅.

(** A reference table with a numeric test "A" and a qualitative test "Q",
    and a frame with values of both. *)
Definition ex_v1_med : list med_row :=
  [Med (u "A") (u "Гемоглобин") (u "N") 10 15;
   Med (u "Q") (u "Тест") (u "Y") 0 0].

Definition ex_v1 : DataFrame :=
  Df [Row 1 (u "A") (u "20"); Row 1 (u "Q") (u "+"); Row 1 (u "A") (u "-3");
      Row 2 (u "A") (u "12"); Row 2 (u "Z") (u "7");
      Row 3 (u "A") (u "nan"); Row 3 (u "A") (u " 1e-05 ")] ∅.

Definition ex_v1_marker : DataFrame :=
  Df [Row 1 (u "A") (u "20"); Row 1 (u "A") (u "+")] ∅.

Definition ex_v1_store (df : DataFrame) : store :=
  <[1%positive := ODf df]> (<[2%positive := OMed ex_v1_med]> ∅).

Definition ex_contacts : list PandasReport.contact :=
  [PandasReport.Contact 1 (u "Иванов") (u "+79990000001");
   PandasReport.Contact 3 (u "Петров") (u "+79990000003")].

Definition ex_report : list PandasReport.report_row :=
  [PandasReport.Report (u "+79990000001") (u "Иванов") (u "A") (PyStr Pandas.POSITIVE);
   PandasReport.Report (u "+79990000001") (u "Иванов") (u "B") (PyStr Pandas.HIGH)].

(** The second row has a test name of 21 characters. *)
Definition ex_report_overlong : list PandasReport.report_row :=
  [PandasReport.Report (u "+79990000001") (u "Иванов") (u "A") (PyStr Pandas.POSITIVE);
   PandasReport.Report (u "+79990000001") (u "Иванов") (u "ABCDEFGHIJKLMNOPQRSTU")
                       (PyStr Pandas.HIGH)].

(** The report of the SQL revision on the scenario. *)
Definition ex_sql_report : list (pystr * pystr * pystr * pystr) :=
  [(u "+79990000001", u "Иванов", u "Анализ A", Sql.POSITIVE);
   (u "+79990000001", u "Иванов", u "Анализ B", Sql.HIGH)].

(** Text of digits and periods that is no number. *)
Definition ex_two_periods : list row :=
  [Row 1 (u "A") (u "12"); Row 1 (u "A") (u "1,2,3")].

(** * Properties *)

(** ** The scenario of the specification *)

Section Scenario.

Example scenario_pandas :
  (Pandas.main ex_scenario ex_scenario_med ∅).2
  = Ok [(1, u "A", PyStr Pandas.POSITIVE); (1, u "B", PyStr Pandas.HIGH)].
Proof. vm_compute. reflexivity. Qed.

Example scenario_sql :
  (Sql.script (rows ex_scenario) ex_scenario_med ≫= fun fp => Ok (map_to_list fp))
  = Ok [(1, (2, 2))].
Proof. vm_compute. reflexivity. Qed.

Example bounds_are_normal :
  column Pandas.check_name
    <$> frame_at (Pandas.check_range 1 2 2 (ex_store ex_bounds)).1 1
  = Some [PyStr Pandas.NORMAL; PyStr Pandas.NORMAL; PyStr Pandas.LOW; PyStr Pandas.HIGH]
  ∧ (Sql.SQL_DECODE_ANALYSIS (Sql.SQL_CLEAN_VALUES (Sql.load (rows ex_bounds))) ex_med
     ≫= fun ds => Ok (map Sql.d_zakl ds))
    = Ok [Sql.NORMAL; Sql.NORMAL; Sql.LOW; Sql.HIGH].
Proof. vm_compute. done. Qed.

(** The value is compared as [float] and the CAST read it. *)
Example rounded_value_is_normal :
  column Pandas.check_name
    <$> frame_at (Pandas.check_range 1 2 2 (ex_store ex_rounding)).1 1
  = Some [PyStr Pandas.NORMAL; PyStr Pandas.HIGH]
  ∧ (Sql.SQL_DECODE_ANALYSIS (Sql.SQL_CLEAN_VALUES (Sql.load (rows ex_rounding))) ex_med
     ≫= fun ds => Ok (map Sql.d_zakl ds))
    = Ok [Sql.NORMAL; Sql.HIGH].
Proof. vm_compute. done. Qed.

(** A digit of another script is a digit for the numeric mask and for
    [float], so that the lookup of its test is made; for the SQL revision
    it is no number. *)
Example other_script_digit :
  Pandas.numeric (u "٣") = true
  ∧ float (u "٣") = Ok (Ffin 3)
  ∧ (Pandas.check_range 1 2 2 (ex_store ex_other_script)).2 = Raise IndexError
  ∧ Sql.matches_number (u "٣") = false.
Proof. vm_compute. done. Qed.

Example superscript_digit_raises :
  Pandas.numeric (u "5²") = true
  ∧ py_float (u "5²") = None
  ∧ (Pandas.main ex_superscript ex_med ∅).2 = Raise ValueError.
Proof. vm_compute. done. Qed.

Example float_examples :
  py_float (u "12.5") = Some (Ffin (25 # 2))
  ∧ py_float (u "5.") = Some (Ffin 5)
  ∧ py_float (u ".5") = Some (Ffin (1 # 2))
  ∧ py_float (u "-5") = Some (Ffin (-5))
  ∧ py_float (u "0.1") = Some (Ffin (3602879701896397 # 36028797018963968))
  ∧ py_float (u "15.000000000000000001") = Some (Ffin 15)
  ∧ py_float (u "9007199254740993") = Some (Ffin 9007199254740992)
  ∧ py_float (u " 12 ") = Some (Ffin 12)
  ∧ py_float (u "1_000") = Some (Ffin 1000)
  ∧ py_float (u "1e-05") = py_float (u "0.00001")
  ∧ py_float (u "1e400") = Some (Finf false)
  ∧ py_float (u "-infinity") = Some (Finf true)
  ∧ py_float (u "nan") = Some Fnan
  ∧ py_float (u "٣.٥") = Some (Ffin (7 # 2))
  ∧ py_float (u ".") = None
  ∧ py_float (u "1.2.3") = None
  ∧ py_float (u "12,5") = None
  ∧ py_float (u "1__0") = None
  ∧ py_float (u "") = None.
Proof. vm_compute. repeat split; reflexivity. Qed.

(** Beyond the range of binary64 [float] returns an infinity or zero; the
    CAST of the SQL revision raises. *)
Example out_of_range_examples :
  py_float (replicate 400 57%N) = Some (Finf false)
  ∧ Sql.cast_float (replicate 400 57%N) = Raise DataError
  ∧ py_float (u "0." ++ replicate 400 48%N ++ u "1") = Some (Ffin 0)
  ∧ Sql.cast_float (u "0." ++ replicate 400 48%N ++ u "1") = Raise DataError
  ∧ Sql.cast_float (u "0.0") = Ok 0%Q.
Proof. vm_compute. repeat split; reflexivity. Qed.

(** Digits of other scripts are digits for [isdigit] and for [float];
    superscripts are digits for [isdigit] only. *)
Example isdigit_examples :
  isdigit (u "٣") = true ∧ isdigit (u "5²") = true ∧ isdigit (u "5a") = false
  ∧ isdigit (u "-5") = false ∧ isdigit [] = false.
Proof. vm_compute. repeat split; reflexivity. Qed.

Example lower_examples :
  lower (u "ПОЛОЖИТЕЛЬНЫЙ Abc Ё") = u "положительный abc ё".
Proof. vm_compute. reflexivity. Qed.

End Scenario.

(** ** Lists, masks and groups *)

Section Lists.
Context {A : Type}.

Lemma mask_select_decide (P : A -> Prop) `{!∀ x, Decision (P x)} (l : list A) :
  mask_select (map (fun x => bool_decide (P x)) l) l = filter P l.
Proof.
  induction l as [|x l IH]; [done|].
  cbn [map mask_select]. rewrite filter_cons.
  destruct (decide (P x)) as [HP|HP].
  - rewrite bool_decide_eq_true_2 by done. by rewrite IH.
  - rewrite bool_decide_eq_false_2 by done. by rewrite IH.
Qed.

Lemma filter_ext_elem (P Q : A -> Prop)
      `{!∀ x, Decision (P x)} `{!∀ x, Decision (Q x)} (l : list A) :
  (∀ x, x ∈ l → P x ↔ Q x) → filter P l = filter Q l.
Proof.
  induction l as [|x l IH]; intros Hext; [done|].
  rewrite !filter_cons.
  assert (P x ↔ Q x) as Hx by (apply Hext; left).
  rewrite IH; [|intros y Hy; apply Hext; by right].
  destruct (decide (P x)), (decide (Q x)); tauto.
Qed.

(** A group holds exactly the elements with its key, in order; keys
    without elements have no group. *)
Lemma groupby_lookup (key : A -> Z) (l : list A) (k : Z) :
  groupby key l !! k =
    match filter (fun x => key x = k) l with
    | [] => None
    | g => Some g
    end.
Proof.
  induction l as [|x l IH]; [done|].
  unfold groupby in *. cbn [foldr]. rewrite filter_cons.
  destruct (decide (key x = k)) as [->|Hne].
  - rewrite lookup_insert_eq, IH.
    by destruct (filter _ l).
  - by rewrite lookup_insert_ne.
Qed.

Lemma groupby_default (key : A -> Z) (l : list A) (k : Z) :
  default [] (groupby key l !! k) = filter (fun x => key x = k) l.
Proof. rewrite groupby_lookup. by destruct (filter _ l). Qed.

Lemma groupby_is_Some (key : A -> Z) (l : list A) (x : A) :
  x ∈ l → groupby key l !! key x = Some (filter (fun y => key y = key x) l).
Proof.
  intros Hx. rewrite groupby_lookup.
  assert (x ∈ filter (fun y => key y = key x) l) as Hin
    by (by apply list_elem_of_filter).
  destruct (filter _ l); [by apply elem_of_nil in Hin | done].
Qed.

(** With unique keys, the elements with the key of [x] are [x] alone. *)
Lemma filter_unique_key {K} `{EqDecision K} (key : A -> K) (l : list A) (x : A) :
  NoDup (map key l) → x ∈ l → filter (fun y => key y = key x) l = [x].
Proof.
  induction l as [|a l IH]; [by intros _ ?%elem_of_nil|].
  cbn [map]. intros [Ha Hnd]%NoDup_cons [->|Hx]%elem_of_cons.
  - rewrite filter_cons_True by done. f_equal.
    destruct (filter (fun y => key y = key a) l) as [|y ys] eqn:Hf; [done|].
    assert (y ∈ filter (fun y => key y = key a) l) as Hy by (rewrite Hf; left).
    apply list_elem_of_filter in Hy as [Hk Hy]. destruct Ha.
    rewrite <- Hk. apply list_elem_of_fmap. by exists y.
  - rewrite filter_cons_False; [by apply IH|].
    intros Hk. destruct Ha. rewrite Hk. apply list_elem_of_fmap. by exists x.
Qed.

End Lists.

(** ** The store monad *)

Section Run.

Lemma run_bind {A B} (m : M A) (f : A -> M B) (σ : store) :
  (m ≫= f) σ =
    match m σ with
    | (σ', Ok a) => f a σ'
    | (σ', Raise e) => (σ', Raise e)
    end.
Proof. reflexivity. Qed.

Lemma run_alloc (o : obj) (σ : store) :
  alloc o σ = (<[fresh (dom σ) := o]> σ, Ok (fresh (dom σ))).
Proof. reflexivity. Qed.

Lemma fresh_lookup (σ : store) : σ !! fresh (dom σ) = None.
Proof. apply not_elem_of_dom, is_fresh. Qed.

Lemma fresh_ne (σ : store) (l : loc) (o : obj) :
  σ !! l = Some o → l ≠ fresh (dom σ).
Proof. intros Hl ->. by rewrite fresh_lookup in Hl. Qed.

Lemma run_get_df (l : loc) (df : DataFrame) (σ : store) :
  σ !! l = Some (ODf df) → get_df l σ = (σ, Ok df).
Proof. intros Hl. unfold get_df. by rewrite Hl. Qed.

Lemma run_get_med (l : loc) (med : list med_row) (σ : store) :
  σ !! l = Some (OMed med) → get_med l σ = (σ, Ok med).
Proof. intros Hl. unfold get_med. by rewrite Hl. Qed.

Lemma run_update_df (l : loc) (f : DataFrame -> DataFrame) (df : DataFrame) (σ : store) :
  σ !! l = Some (ODf df) → update_df l f σ = (<[l := ODf (f df)]> σ, Ok tt).
Proof. intros Hl. unfold update_df. by rewrite Hl. Qed.

End Run.

(** ** The raw test-count gate (4.3) *)

Section FilterPatients.

Lemma filter_patients_dom (df : DataFrame) (test_count : Z) (r : row) :
  r ∈ rows df →
  patient r ∈ dom (filter (fun kv : Z * Z => test_count <= kv.2)
                     ((fun g => Z.of_nat (length g)) <$> groupby patient (rows df)))
  ↔ test_count <= tests_of df (patient r).
Proof.
  intros Hr. rewrite elem_of_dom. unfold is_Some.
  setoid_rewrite map_lookup_filter_Some.
  rewrite lookup_fmap, (groupby_is_Some patient _ r Hr). cbn.
  unfold tests_of. split.
  - intros (n & [= <-] & Hn). exact Hn.
  - intros Hn. eauto.
Qed.

(** C7. [filter_patients] (the same in the first script and in the pandas
    rewrite) keeps, in their order, exactly the rows of the patients that
    have at least [test_count] rows in the raw frame, and looks at no other
    column than the patient code; the script applies it with
    [test_count = 2] to the raw spreadsheet, and [clean_values] and
    [check_range] only ever see its result. *)
Theorem filter_patients_gate :
  (∀ (df : DataFrame) (test_count : Z),
      rows (Pandas.filter_patients df test_count)
      = filter (fun r => test_count <= tests_of df (patient r)) (rows df)
      ∧ V1.filter_patients df test_count = Pandas.filter_patients df test_count)
  ∧ (∀ (xlsx : DataFrame) (med : list med_row) (σ : store),
        ∃ (l lm : loc) (σ' : store),
          σ' !! l = Some (ODf (Pandas.clean_values (Pandas.filter_patients xlsx 2)))
          ∧ σ' !! lm = Some (OMed med)
          ∧ Pandas.main xlsx med σ = Pandas.check_range l lm 2 σ').
Proof.
  split.
  - intros df test_count. split; [|reflexivity].
    unfold Pandas.filter_patients, select. cbn [rows].
    rewrite mask_select_decide.
    apply filter_ext_elem. intros r Hr. by apply filter_patients_dom.
  - intros xlsx med σ. unfold Pandas.main.
    rewrite run_bind, run_alloc.
    set (l0 := fresh (dom σ)). set (σ0 := <[l0 := ODf xlsx]> σ).
    rewrite run_bind, (run_get_df l0 xlsx) by apply lookup_insert_eq.
    rewrite run_bind, run_alloc.
    set (l1 := fresh (dom σ0)).
    set (σ1 := <[l1 := ODf (Pandas.filter_patients xlsx 2)]> σ0).
    rewrite run_bind, (run_get_df l1 (Pandas.filter_patients xlsx 2))
      by apply lookup_insert_eq.
    rewrite run_bind, run_alloc.
    set (l2 := fresh (dom σ1)).
    set (σ2 := <[l2 := ODf (Pandas.clean_values (Pandas.filter_patients xlsx 2))]> σ1).
    rewrite run_bind, run_alloc.
    set (lm := fresh (dom σ2)).
    exists l2, lm, (<[lm := OMed med]> σ2). split; [|split; [|done]].
    + rewrite lookup_insert_ne.
      * apply lookup_insert_eq.
      * symmetry. eapply fresh_ne. apply lookup_insert_eq.
    + apply lookup_insert_eq.
Qed.

End FilterPatients.

(** ** The normalizer *)

Section CleanValues.

Lemma lower_cp_cases (c : N) :
  lower_cp c = c
  ∨ (lower_cp c = c + 32 ∧ (65 <= c <= 90 ∨ 192 <= c <= 222 ∨ 1040 <= c <= 1071))%N
  ∨ (lower_cp c = c + 80 ∧ 1024 <= c <= 1039)%N.
Proof.
  unfold lower_cp.
  repeat (match goal with
          | |- context [(?a <=? ?b)%N] => destruct (N.leb_spec a b)
          | |- context [(?a =? ?b)%N] => destruct (N.eqb_spec a b)
          end; cbn [andb negb]); lia.
Qed.

Lemma lower_cp_fixed (c : N) :
  (97 <= c <= 122 ∨ 224 <= c <= 254 ∨ 1072 <= c <= 1119)%N → lower_cp c = c.
Proof.
  intros Hc. unfold lower_cp.
  repeat (match goal with
          | |- context [(?a <=? ?b)%N] => destruct (N.leb_spec a b)
          | |- context [(?a =? ?b)%N] => destruct (N.eqb_spec a b)
          end; cbn [andb negb]); lia.
Qed.

Lemma lower_cp_idem (c : N) : lower_cp (lower_cp c) = lower_cp c.
Proof.
  destruct (lower_cp_cases c) as [Heq|[[Heq Hc]|[Heq Hc]]]; rewrite Heq.
  - exact Heq.
  - apply lower_cp_fixed. lia.
  - apply lower_cp_fixed. lia.
Qed.

Lemma lower_idem (s : pystr) : lower (lower s) = lower s.
Proof.
  unfold lower. rewrite map_map. apply map_ext. intros c. apply lower_cp_idem.
Qed.

Lemma zip_with_mask {B} (g : B -> bool) (rep : B) (vs : list B) :
  zip_with (fun (m : bool) v => if m then rep else v) (map g vs) vs
  = map (fun v => if g v then rep else v) vs.
Proof. induction vs as [|v vs IH]; [done|]. cbn. by rewrite IH. Qed.

Lemma set_values_map (f : pystr -> pystr) (df : DataFrame) :
  set_values (map f (value_col df)) df = map_values f df.
Proof.
  unfold set_values, map_values, value_col. f_equal.
  induction (rows df) as [|r rs IH]; [done|]. cbn. by rewrite IH.
Qed.

Lemma map_values_compose (f g : pystr -> pystr) (df : DataFrame) :
  map_values g (map_values f df) = map_values (fun s => g (f s)) df.
Proof. unfold map_values. cbn. by rewrite map_map. Qed.

Lemma map_values_ext (f g : pystr -> pystr) (df : DataFrame) :
  (∀ s, f s = g s) → map_values f df = map_values g df.
Proof.
  intros Hfg. unfold map_values. f_equal. apply map_ext. intros r. by rewrite Hfg.
Qed.

Lemma step_values (g : pystr -> bool) (rep : pystr) (df : DataFrame) :
  set_values (zip_with (fun (m : bool) v => if m then rep else v)
                       (map g (value_col df)) (value_col df)) df
  = map_values (fun v => if g v then rep else v) df.
Proof. rewrite zip_with_mask. apply set_values_map. Qed.

(** [clean_values] acts on each value separately. *)
Lemma V1_clean_values_map (df : DataFrame) :
  V1.clean_values df = map_values V1_clean_value df.
Proof.
  unfold V1.clean_values, V1.values_voc. cbn [fold_left].
  rewrite set_values_map, !step_values, !map_values_compose.
  apply map_values_ext. intros s. unfold V1_clean_value.
  destruct (startswith (lower s) [1087%N]) eqn:Hp; [done|].
  by destruct (startswith (lower s) [1086%N]).
Qed.

Lemma Pandas_clean_values_map (df : DataFrame) :
  Pandas.clean_values df = map_values Pandas_clean_value df.
Proof.
  unfold Pandas.clean_values, Pandas.values_voc. cbn [fold_left].
  rewrite set_values_map, !step_values, !map_values_compose.
  apply map_values_ext. intros s. unfold Pandas_clean_value, PLUS, MINUS.
  destruct (startswith_any (lower s) [[1087%N]; [43%N]]) eqn:Hp; [reflexivity|].
  by destruct (startswith_any (lower s) [[1086%N]; [45%N]]).
Qed.

Lemma V1_clean_value_idem (s : pystr) :
  V1_clean_value (V1_clean_value s) = V1_clean_value s.
Proof.
  unfold V1_clean_value at 2 3.
  destruct (startswith (lower s) [1087%N]) eqn:Hp; [done|].
  destruct (startswith (lower s) [1086%N]) eqn:Ho; [done|].
  unfold V1_clean_value. by rewrite lower_idem, Hp, Ho.
Qed.

Lemma Pandas_clean_value_idem (s : pystr) :
  Pandas_clean_value (Pandas_clean_value s) = Pandas_clean_value s.
Proof.
  unfold Pandas_clean_value at 2 3. unfold PLUS, MINUS.
  destruct (startswith_any (lower s) [[1087%N]; [43%N]]) eqn:Hp; [reflexivity|].
  destruct (startswith_any (lower s) [[1086%N]; [45%N]]) eqn:Ho; [reflexivity|].
  unfold Pandas_clean_value, PLUS, MINUS. by rewrite lower_idem, Hp, Ho.
Qed.

End CleanValues.

(** ** Rounding to binary64 *)

Section Rounding.

Lemma pow2_pos (t : Z) : 0 <= t → 0 < 2 ^ t.
Proof. intros. apply Z.pow_pos_nonneg; lia. Qed.

Lemma scaled_den_pos d t : 0 < d → 0 < scaled_den d t.
Proof.
  intros Hd. unfold scaled_den. destruct (Z.leb_spec t 0); [done|].
  pose proof (pow2_pos t). nia.
Qed.

Lemma scaled_num_pos n t : 0 < n → 0 < scaled_num n t.
Proof.
  intros Hd. unfold scaled_num. destruct (Z.leb_spec t 0); [|done].
  pose proof (pow2_pos (-t)). nia.
Qed.

Ltac pow2_eq :=
  rewrite <- ?Z.pow_succ_r by lia; rewrite <- ?Z.pow_add_r by lia; f_equal; lia.

(** Scaling by [2^t] and then by [2^(t'-t)] is scaling by [2^t']. *)
Lemma scaled_cross n d t t' :
  t <= t' ->
  scaled_num n t * scaled_den d t' = 2 ^ (t' - t) * (scaled_num n t' * scaled_den d t).
Proof.
  intros Htt. unfold scaled_num, scaled_den.
  destruct (Z.leb_spec t 0), (Z.leb_spec t' 0); try lia.
  - replace (- t) with ((t' - t) + (- t')) by lia.
    rewrite Z.pow_add_r by lia. ring.
  - replace (t' - t) with (t' + (- t)) by lia.
    rewrite Z.pow_add_r by lia. ring.
  - replace t' with ((t' - t) + t) at 1 by lia.
    rewrite Z.pow_add_r by lia. ring.
Qed.

(** [binade n d] is the exponent of the power of two just below [n/d]:
    [2^L <= n/d < 2^(L+1)]. *)
Lemma binade_spec (n d : positive) :
  let L := binade n d in
  scaled_den (Zpos d) L <= scaled_num (Zpos n) L
  ∧ scaled_num (Zpos n) (L + 1) < scaled_den (Zpos d) (L + 1).
Proof.
  set (a := Z.log2 (Zpos n)). set (b := Z.log2 (Zpos d)).
  pose proof (Z.log2_spec (Zpos n) eq_refl) as [Hn1 Hn2].
  pose proof (Z.log2_spec (Zpos d) eq_refl) as [Hd1 Hd2].
  pose proof (Z.log2_nonneg (Zpos n)) as Ha. pose proof (Z.log2_nonneg (Zpos d)) as Hb.
  fold a in Hn1, Hn2, Ha. fold b in Hd1, Hd2, Hb.
  rewrite Z.pow_succ_r in Hn2, Hd2 by lia.
  (* x < 2^(k+1) and 2^(k-1) <= x *)
  assert (scaled_num (Zpos n) (a - b + 1) < scaled_den (Zpos d) (a - b + 1)) as Hup.
  { unfold scaled_num, scaled_den. destruct (Z.leb_spec (a - b + 1) 0).
    - assert (2 * 2 ^ a * 2 ^ (- (a - b + 1)) = 2 ^ b) as E by pow2_eq.
      pose proof (pow2_pos (- (a - b + 1)) ltac:(lia)) as HP.
      pose proof (proj1 (Z.mul_lt_mono_pos_r _ _ _ HP) Hn2). lia.
    - assert (2 ^ b * 2 ^ (a - b + 1) = 2 * 2 ^ a) as E by pow2_eq.
      pose proof (pow2_pos (a - b + 1) ltac:(lia)) as HP.
      pose proof (proj1 (Z.mul_le_mono_pos_r _ _ _ HP) Hd1). lia. }
  assert (scaled_den (Zpos d) (a - b - 1) <= scaled_num (Zpos n) (a - b - 1)) as Hlow.
  { unfold scaled_num, scaled_den. destruct (Z.leb_spec (a - b - 1) 0).
    - assert (2 ^ a * 2 ^ (- (a - b - 1)) = 2 * 2 ^ b) as E by pow2_eq.
      pose proof (pow2_pos (- (a - b - 1)) ltac:(lia)) as HP.
      pose proof (proj1 (Z.mul_le_mono_pos_r _ _ _ HP) Hn1). lia.
    - assert (2 * 2 ^ b * 2 ^ (a - b - 1) = 2 ^ a) as E by pow2_eq.
      pose proof (pow2_pos (a - b - 1) ltac:(lia)) as HP.
      pose proof (proj1 (Z.mul_lt_mono_pos_r _ _ _ HP) Hd2). lia. }
  unfold binade. fold a b. cbn zeta.
  assert ((if 0 <=? a - b then Zpos d * 2 ^ (a - b) <=? Zpos n
           else Zpos d <=? Zpos n * 2 ^ (- (a - b))) = true
          ↔ scaled_den (Zpos d) (a - b) <= scaled_num (Zpos n) (a - b)) as Habove.
  { unfold scaled_num, scaled_den.
    destruct (Z.leb_spec 0 (a - b)), (Z.leb_spec (a - b) 0); rewrite ?Z.leb_le;
      try lia; try reflexivity.
    replace (a - b) with 0 by lia. cbn. lia. }
  destruct (if 0 <=? a - b then _ else _) eqn:Hab.
  - split; [by apply Habove | exact Hup].
  - split; [exact Hlow|]. replace (a - b - 1 + 1) with (a - b) by lia.
    apply Z.nle_gt. intros Hle. apply Habove in Hle. congruence.
Qed.

(** Comparing [n/d] with [c * 2^t'] is comparing it with
    [2^(t'-t) * c * 2^t]. *)
Lemma scaled_shift_lt n d t t' c :
  0 < d → t <= t' ->
  scaled_num n t' < c * scaled_den d t' ↔ scaled_num n t < 2 ^ (t' - t) * c * scaled_den d t.
Proof.
  intros Hd Htt. pose proof (scaled_cross n d t t' Htt) as Hx.
  pose proof (scaled_den_pos d t Hd) as H1. pose proof (scaled_den_pos d t' Hd) as H2.
  pose proof (pow2_pos (t' - t) ltac:(lia)) as HP.
  set (P := 2 ^ (t' - t)) in *. set (N := scaled_num n t) in *. set (N' := scaled_num n t') in *.
  set (D := scaled_den d t) in *. set (D' := scaled_den d t') in *.
  split; intros H.
  - apply (Z.mul_lt_mono_pos_r D'); [done|]. rewrite Hx.
    replace (P * c * D * D') with (P * (c * D' * D)) by ring.
    apply Z.mul_lt_mono_pos_l; [done|]. apply Z.mul_lt_mono_pos_r; done.
  - apply (Z.mul_lt_mono_pos_r D) ; [done|]. apply (Z.mul_lt_mono_pos_l P); [done|].
    rewrite <- Hx. replace (P * (c * D' * D)) with (P * c * D * D') by ring.
    apply Z.mul_lt_mono_pos_r; done.
Qed.

Lemma scaled_shift_le n d t t' c :
  0 < d → t <= t' ->
  c * scaled_den d t' <= scaled_num n t' ↔ 2 ^ (t' - t) * c * scaled_den d t <= scaled_num n t.
Proof.
  intros Hd Htt. pose proof (scaled_shift_lt n d t t' c Hd Htt). lia.
Qed.

(** [round_even] is within a half of [num/den], and even on a tie. *)
Lemma round_even_spec (num den : Z) :
  0 < den → 0 <= num ->
  let m := round_even num den in
  num / den <= m <= num / den + 1
  ∧ 2 * Z.abs (num - m * den) <= den
  ∧ (2 * Z.abs (num - m * den) = den → Z.even m = true).
Proof.
  intros Hden Hnum. unfold round_even.
  pose proof (Z.div_mod num den ltac:(lia)) as Hdm.
  pose proof (Z.mod_pos_bound num den Hden) as Hr.
  set (q := num / den) in *. set (r := num mod den) in *.
  assert (num - q * den = r) as E1 by lia.
  assert (num - (q + 1) * den = r - den) as E2 by lia.
  destruct (Z.ltb_spec den (2 * r)) as [Hlt|Hge]; cbn [orb].
  - cbn zeta. rewrite E2. split; [lia|]. split; lia.
  - destruct (Z.eqb_spec den (2 * r)) as [Heq|Hne]; cbn [andb].
    + destruct (Z.odd q) eqn:Hodd; cbn zeta.
      * rewrite E2. split; [lia|]. split; [lia|]. intros _.
        rewrite Z.even_add, <- Z.negb_odd, Hodd. reflexivity.
      * rewrite E1. split; [lia|]. split; [lia|]. intros _.
        by rewrite <- Z.negb_odd, Hodd.
    + cbn zeta. rewrite E1. split; [lia|]. split; lia.
Qed.

(** With the unit [2^e] of [ulp_exponent], [n/d] is below [2^53] units,
    and at least [2^52] of them unless the number is subnormal. *)
Lemma ulp_exponent_bounds (n d : positive) :
  let e := ulp_exponent n d in
  let num := scaled_num (Zpos n) e in
  let den := scaled_den (Zpos d) e in
  -1074 <= e
  ∧ num < 2 ^ 53 * den
  ∧ (-1074 < e → 2 ^ 52 * den <= num).
Proof.
  cbn zeta. pose proof (binade_spec n d) as [Hlo Hhi]. cbn zeta in Hlo, Hhi.
  unfold ulp_exponent. set (L := binade n d) in *.
  split; [lia|]. split.
  - destruct (Z.le_gt_cases (Z.max (L - 52) (-1074)) (L + 1)) as [Hle|Hgt].
    + pose proof (proj1 (scaled_shift_lt (Zpos n) (Zpos d) _ _ 1 eq_refl Hle)) as H.
      rewrite Z.mul_1_l in H. specialize (H Hhi).
      pose proof (scaled_den_pos (Zpos d) (Z.max (L - 52) (-1074)) eq_refl) as HD.
      assert (2 ^ (L + 1 - Z.max (L - 52) (-1074)) <= 2 ^ 53) as HP
          by (apply Z.pow_le_mono_r; lia).
      rewrite Z.mul_1_r in H.
      pose proof (proj1 (Z.mul_le_mono_pos_r _ _ _ HD) HP). lia.
    + pose proof (proj2 (scaled_shift_lt (Zpos n) (Zpos d) (L + 1) (Z.max (L - 52) (-1074)) 1
                           eq_refl ltac:(lia))) as H.
      rewrite Z.mul_1_l in H.
      pose proof (scaled_den_pos (Zpos d) (Z.max (L - 52) (-1074)) eq_refl) as HD.
      pose proof (scaled_den_pos (Zpos d) (L + 1) eq_refl) as HD'.
      pose proof (pow2_pos (Z.max (L - 52) (-1074) - (L + 1)) ltac:(lia)) as HP.
      assert (scaled_num (Zpos n) (Z.max (L - 52) (-1074)) < scaled_den (Zpos d) (Z.max (L - 52) (-1074))).
      { apply H. rewrite Z.mul_1_r. nia. }
      assert (0 < 2 ^ 53) by done. nia.
  - intros He. assert (Z.max (L - 52) (-1074) = L - 52) as -> by lia.
    pose proof (proj1 (scaled_shift_le (Zpos n) (Zpos d) (L - 52) L 1 eq_refl ltac:(lia))) as H.
    rewrite Z.mul_1_l, Z.mul_1_r in H. replace (L - (L - 52)) with 52 in H by lia.
    apply H. exact Hlo.
Qed.

(** A finite rounding is the rounded significand times the unit. *)
Lemma b64_pos_Some (n d : positive) (y : Q) :
  b64_pos n d = Some y ->
  let e := ulp_exponent n d in
  let m := round_even (scaled_num (Zpos n) e) (scaled_den (Zpos d) e) in
  y = Qred (if 0 <=? e then inject_Z (m * 2 ^ e) else Qmake m (Z.to_pos (2 ^ (- e))))
  ∧ e <= 971 ∧ (e = 971 → m < 2 ^ 53).
Proof.
  unfold b64_pos. cbn zeta.
  destruct (Z.ltb_spec 971 (ulp_exponent n d)); cbn [orb]; [done|].
  destruct (Z.eqb_spec (ulp_exponent n d) 971) as [He|He]; cbn [andb].
  - destruct (Z.leb_spec (2 ^ 53) (round_even (scaled_num (Zpos n) (ulp_exponent n d))
                                     (scaled_den (Zpos d) (ulp_exponent n d)))); [done|].
    intros [= <-]. repeat split; [lia | done].
  - intros [= <-]. repeat split; lia.
Qed.

(** The rounding leaves the range exactly from [2^1024 - 2^970] on: the
    midpoint between the largest binary64 number and [2^1024]. *)
Lemma b64_pos_None (n d : positive) :
  b64_pos n d = None ↔ (2 ^ 1024 - 2 ^ 970) * Zpos d <= Zpos n.
Proof.
  pose proof (ulp_exponent_bounds n d) as (He & Hhi & Hlo). cbn zeta in He, Hhi, Hlo.
  pose proof (round_even_spec (scaled_num (Zpos n) (ulp_exponent n d))
                (scaled_den (Zpos d) (ulp_exponent n d))
                (scaled_den_pos (Zpos d) _ eq_refl)
                (Z.lt_le_incl _ _ (scaled_num_pos (Zpos n) _ eq_refl)))
    as (Hm & Hhalf & Heven). cbn zeta in Hm, Hhalf, Heven.
  unfold b64_pos. cbn zeta.
  set (e := ulp_exponent n d) in *.
  set (num := scaled_num (Zpos n) e) in *. set (den := scaled_den (Zpos d) e) in *.
  set (m := round_even num den) in *.
  assert (0 < den) as Hden by apply (scaled_den_pos (Zpos d)), eq_refl.
  assert (0 < e → num = Zpos n ∧ den = Zpos d * 2 ^ e) as Hpos.
  { intros H. unfold num, den, scaled_num, scaled_den. by destruct (Z.leb_spec e 0); [lia|]. }
  split.
  - intros Hnone.
    destruct (Z.ltb_spec 971 e) as [Hbig|Hsmall]; cbn [orb] in Hnone.
    + (* the exponent is beyond the range *)
      specialize (Hlo ltac:(lia)). destruct Hpos as [En Ed]; [lia|].
      rewrite En, Ed in Hlo.
      assert (2 ^ 972 <= 2 ^ e) as HP by (apply Z.pow_le_mono_r; lia).
      assert (Zpos d * 2 ^ 972 <= Zpos d * 2 ^ e) by (apply Z.mul_le_mono_nonneg_l; lia).
      change (2 ^ 972) with (2 ^ 972)%Z in *. lia.
    + destruct (Z.eqb_spec e 971) as [He971|]; [|done]. cbn [andb] in Hnone.
      destruct (Z.leb_spec (2 ^ 53) m) as [Hm53|]; [|done].
      destruct Hpos as [En Ed]; [lia|]. rewrite He971 in Ed.
      assert ((2 ^ 54 - 1) * den <= 2 * num) by nia.
      rewrite En, Ed in H. lia.
  - intros Hbig.
    destruct (Z.ltb_spec 971 e) as [|Hsmall]; cbn [orb]; [done|].
    destruct (Z.eqb_spec e 971) as [He971|Hne]; cbn [andb].
    + destruct (Z.leb_spec (2 ^ 53) m) as [|Hm53]; [done|]. exfalso.
      destruct Hpos as [En Ed]; [lia|]. rewrite He971 in Ed.
      assert (2 * num <= (2 ^ 54 - 1) * den) as Hle by nia.
      assert (2 * num = (2 ^ 54 - 1) * den → False) as Hne.
      { intros Heq. assert (m = 2 ^ 53 - 1) as Em by nia.
        assert (Z.even m = true) as Hev by (apply Heven; rewrite Em; nia).
        by rewrite Em in Hev. }
      rewrite En, Ed in Hle, Hne. lia.
    + exfalso.
      pose proof (proj2 (scaled_shift_lt (Zpos n) (Zpos d) e 971 (2 ^ 52) eq_refl ltac:(lia))) as H.
      assert (2 ^ 53 <= 2 ^ (971 - e) * 2 ^ 52) as HP.
      { assert (2 ^ 1 <= 2 ^ (971 - e)) by (apply Z.pow_le_mono_r; lia). lia. }
      assert (scaled_num (Zpos n) 971 < 2 ^ 52 * scaled_den (Zpos d) 971) as H'.
      { apply H. fold num den.
        pose proof (proj1 (Z.mul_le_mono_pos_r _ _ _ Hden) HP). lia. }
      revert H'. unfold scaled_num, scaled_den. cbn [Z.leb Z.compare]. lia.
Qed.

Lemma Qpow2_pos (e : Z) : (0 < 2 ^ e)%Q.
Proof. by apply Qpower_0_lt. Qed.

Lemma Qpow2_inject (e : Z) : 0 <= e → (inject_Z (2 ^ e) == 2 ^ e)%Q.
Proof. intros He. by rewrite Zpower_Qpower. Qed.

(** The scaled fraction is [(n/d) / 2^e]. *)
Lemma scaled_Q (n d : positive) (e : Z) :
  ((Zpos n # d) * inject_Z (scaled_den (Zpos d) e)
   == inject_Z (scaled_num (Zpos n) e) * 2 ^ e)%Q.
Proof.
  pose proof (Qpow2_pos e) as Hs.
  rewrite (Qmake_Qdiv (Zpos n) d). unfold scaled_num, scaled_den.
  destruct (Z.leb_spec e 0).
  - rewrite inject_Z_mult, Qpow2_inject, Qpower_opp by lia.
    set (s := (2 ^ e)%Q) in *. clearbody s. field. split; [intros E; lra | done].
  - rewrite inject_Z_mult, Qpow2_inject by lia. field. done.
Qed.

(** Bounds on the scaled integers are bounds on the rationals. *)
Lemma half_ulp (x s N D M : Q) :
  (0 < s → 0 < D → x * D == N * s ->
   (- D <= 2 * (N - M * D) <= D → 2 * Qabs (x - M * s) <= s)
   ∧ (2 * Qabs (x - M * s) == s ->
       2 * (N - M * D) == D ∨ 2 * (N - M * D) == - D)
   ∧ (∀ c, N < c * D ↔ x < c * s)
   ∧ (∀ c, c * D <= N ↔ c * s <= x))%Q.
Proof.
  intros Hs HD Hx.
  assert (∀ a b : Q, a * D < b * D ↔ a < b)%Q as HltD.
  { intros a b. split; intros H.
    - apply Qnot_le_lt. intros Hle.
      pose proof (Qmult_le_compat_r _ _ D Hle (Qlt_le_weak _ _ HD)). lra.
    - by apply Qmult_lt_compat_r. }
  assert (∀ a b : Q, a * s < b * s ↔ a < b)%Q as Hlts.
  { intros a b. split; intros H.
    - apply Qnot_le_lt. intros Hle.
      pose proof (Qmult_le_compat_r _ _ s Hle (Qlt_le_weak _ _ Hs)). lra.
    - by apply Qmult_lt_compat_r. }
  assert (∀ c, N < c * D ↔ x < c * s)%Q as Hlt.
  { intros c. rewrite <- (Hlts N), <- (HltD x), Hx.
    assert (c * D * s == c * s * D)%Q as -> by ring. reflexivity. }
  assert (∀ c, c * D <= N ↔ c * s <= x)%Q as Hle.
  { intros c. split; intros H; apply Qnot_lt_le; intros H'; apply Hlt in H'; lra. }
  assert (∀ c, N <= c * D ↔ x <= c * s)%Q as Hge.
  { intros c. rewrite <- (Qmult_le_r N _ s), <- (Qmult_le_r x _ D), Hx by done.
    assert (c * D * s == c * s * D)%Q as -> by ring. reflexivity. }
  assert (∀ c, N == c * D ↔ x == c * s)%Q as Heq.
  { intros c. split; intros H.
    - apply Qle_antisym; [apply Hge | apply Hle]; lra.
    - apply Qle_antisym; [apply Hge | apply Hle]; lra. }
  repeat split; try apply Hlt; try apply Hle.
  - intros [H1 H2].
    assert (Qabs (x - M * s) <= s * (1 # 2))%Q; [|lra].
    apply Qabs_Qle_condition. split.
    + assert ((M - (1 # 2)) * s <= x)%Q; [|lra]. apply Hle. lra.
    + assert (x <= (M + (1 # 2)) * s)%Q; [|lra]. apply Hge. lra.
  - apply Qabs_case; intros Hsign Habs.
    + left. assert (x == (M + (1 # 2)) * s)%Q as H' by lra. apply Heq in H'. lra.
    + right. assert (x == (M - (1 # 2)) * s)%Q as H' by lra. apply Heq in H'. lra.
Qed.

Lemma b64_pos_value (m e : Z) :
  (Qred (if 0 <=? e then inject_Z (m * 2 ^ e) else Qmake m (Z.to_pos (2 ^ (- e))))
   == inject_Z m * 2 ^ e)%Q.
Proof.
  rewrite Qred_correct. pose proof (Qpow2_pos e) as Hs.
  destruct (Z.leb_spec 0 e).
  - by rewrite inject_Z_mult, Qpow2_inject.
  - rewrite Qmake_Qdiv, Z2Pos.id by (apply pow2_pos; lia).
    rewrite Qpow2_inject, Qpower_opp by lia.
    set (s := (2 ^ e)%Q) in *. clearbody s. field. intros E. lra.
Qed.

(** The rounding of a positive rational [n/d] is a binary64 number
    [m * 2^e] whose unit [2^e] is that of the binade of [n/d] (or the
    least one, [2^-1074]); it is within half a unit of [n/d], and has an
    even significand when [n/d] is half-way between two neighbours. *)
Lemma b64_pos_nearest (n d : positive) (y : Q) :
  b64_pos n d = Some y ->
  ∃ m e : Z,
    (y == inject_Z m * 2 ^ e)%Q
    ∧ -1074 <= e <= 971 ∧ 0 <= m <= 2 ^ 53 ∧ (e = 971 → m < 2 ^ 53)
    ∧ (Zpos n # d < 2 ^ 53 * 2 ^ e)%Q
    ∧ (-1074 < e → (2 ^ 52 * 2 ^ e <= Zpos n # d)%Q)
    ∧ (2 * Qabs ((Zpos n # d) - y) <= 2 ^ e)%Q
    ∧ ((2 * Qabs ((Zpos n # d) - y) == 2 ^ e)%Q → Z.even m = true).
Proof.
  intros (Hy & He971 & Hm971)%b64_pos_Some. cbn zeta in Hy, He971, Hm971.
  pose proof (ulp_exponent_bounds n d) as (He & Hhi & Hlo). cbn zeta in He, Hhi, Hlo.
  pose proof (round_even_spec (scaled_num (Zpos n) (ulp_exponent n d))
                (scaled_den (Zpos d) (ulp_exponent n d))
                (scaled_den_pos (Zpos d) _ eq_refl)
                (Z.lt_le_incl _ _ (scaled_num_pos (Zpos n) _ eq_refl)))
    as (Hm & Hhalf & Heven). cbn zeta in Hm, Hhalf, Heven.
  pose proof (scaled_Q n d (ulp_exponent n d)) as Hx.
  pose proof (Qpow2_pos (ulp_exponent n d)) as Hs.
  pose proof (scaled_den_pos (Zpos d) (ulp_exponent n d) eq_refl) as Hden.
  pose proof (scaled_num_pos (Zpos n) (ulp_exponent n d) eq_refl) as Hnum.
  set (e := ulp_exponent n d) in *.
  set (num := scaled_num (Zpos n) e) in *. set (den := scaled_den (Zpos d) e) in *.
  set (m := round_even num den) in *.
  assert (y == inject_Z m * 2 ^ e)%Q as Hyq by (rewrite Hy; apply b64_pos_value).
  destruct (half_ulp (Zpos n # d) (2 ^ e) (inject_Z num) (inject_Z den) (inject_Z m))
    as (Hnear & Htie & Hlt & Hle); [done | by rewrite <- (Zlt_Qlt 0) | done |].
  assert (inject_Z (2 * (num - m * den)) = 2 * (inject_Z num - inject_Z m * inject_Z den))%Q
    as Hinj.
  { unfold Z.sub, Qminus.
    by rewrite inject_Z_mult, inject_Z_plus, inject_Z_opp, inject_Z_mult. }
  assert (0 <= num / den) as Hq by (apply Z.div_pos; lia).
  exists m, e. split; [done|]. split; [lia|].
  assert (m <= 2 ^ 53) as Hm53.
  { assert (num / den < 2 ^ 53); [|lia].
    apply Z.div_lt_upper_bound; [done|]. lia. }
  split; [lia|]. split; [done|]. split; [|split; [|split]].
  - apply (Hlt (2 ^ 53)%Q). change (2 ^ 53)%Q with (inject_Z (2 ^ 53)).
    rewrite <- inject_Z_mult, <- Zlt_Qlt. done.
  - intros Hne. apply (Hle (2 ^ 52)%Q). change (2 ^ 52)%Q with (inject_Z (2 ^ 52)).
    rewrite <- inject_Z_mult, <- Zle_Qle. by apply Hlo.
  - rewrite Hyq. apply Hnear. rewrite <- Hinj, <- inject_Z_opp, <- !Zle_Qle. lia.
  - rewrite Hyq. intros Heq. apply Heven. apply Htie in Heq.
    rewrite <- Hinj, <- inject_Z_opp, !inject_Z_injective in Heq. lia.
Qed.

(** [b64] rounds to the nearest binary64 number, ties to even. *)
Lemma b64_nearest (q y : Q) :
  b64 q = Ffin y ->
  ∃ m e : Z,
    (y == inject_Z m * 2 ^ e)%Q
    ∧ -1074 <= e <= 971 ∧ Z.abs m <= 2 ^ 53 ∧ (e = 971 → Z.abs m < 2 ^ 53)
    ∧ (Qabs q < 2 ^ 53 * 2 ^ e)%Q
    ∧ (-1074 < e → (2 ^ 52 * 2 ^ e <= Qabs q)%Q)
    ∧ (2 * Qabs (q - y) <= 2 ^ e)%Q
    ∧ ((2 * Qabs (q - y) == 2 ^ e)%Q → Z.even m = true).
Proof.
  destruct q as [[|n|n] d]; unfold b64; cbn [Qnum Qden].
  - intros [= <-]. exists 0, (-1074). pose proof (Qpow2_pos (-1074)) as Hs.
    set (s := (2 ^ (-1074))%Q) in *. clearbody s.
    assert (Qabs (0 # d) == 0)%Q as E0 by done.
    assert (Qabs ((0 # d) - 0) == 0)%Q as E1 by done.
    rewrite E0, E1. repeat split; try done; try lia; try lra.
  - destruct (b64_pos n d) as [y'|] eqn:Hpos; [|done]. intros [= <-].
    destruct (b64_pos_nearest n d y' Hpos) as (m & e & H1 & H2 & H3 & H4 & H5 & H6 & H7 & H8).
    exists m, e. repeat split; try done; try lia.
  - destruct (b64_pos n d) as [y'|] eqn:Hpos; [|done]. intros [= <-].
    destruct (b64_pos_nearest n d y' Hpos) as (m & e & H1 & H2 & H3 & H4 & H5 & H6 & H7 & H8).
    assert (Qabs (Z.neg n # d) == Z.pos n # d)%Q as Eabs by done.
    assert (Qabs ((Z.neg n # d) - - y') == Qabs ((Z.pos n # d) - y'))%Q as Ediff.
    { rewrite <- Qabs_opp. apply Qabs_wd.
      assert (Z.neg n # d == - (Z.pos n # d))%Q as -> by done. ring. }
    exists (- m), e. rewrite inject_Z_opp, Z.abs_opp, Z.even_opp, Eabs, Ediff.
    repeat split; try done; try lia. rewrite H1. ring.
Qed.

(** [b64] overflows to an infinity exactly from [2^1024 - 2^970] on, with
    the sign of the number. *)
Lemma b64_infinite (q : Q) (neg : bool) :
  b64 q = Finf neg ↔
  (inject_Z (2 ^ 1024 - 2 ^ 970) <= Qabs q)%Q ∧ neg = (Qnum q <? 0).
Proof.
  destruct q as [[|n|n] d]; unfold b64; cbn [Qnum Qden Qabs Z.abs].
  - split; [done|]. intros [H _]. revert H. unfold Qle. cbn. lia.
  - pose proof (b64_pos_None n d) as Hnone.
    assert ((inject_Z (2 ^ 1024 - 2 ^ 970) <= Z.pos n # d)%Q
            ↔ (2 ^ 1024 - 2 ^ 970) * Zpos d <= Zpos n) as ->.
    { unfold Qle. cbn [Qnum Qden inject_Z]. lia. }
    rewrite <- Hnone. destruct (b64_pos n d); split; try done.
    + by intros [? _].
    + intros [= <-]. done.
    + intros [_ ->]. done.
  - pose proof (b64_pos_None n d) as Hnone.
    assert ((inject_Z (2 ^ 1024 - 2 ^ 970) <= Z.pos n # d)%Q
            ↔ (2 ^ 1024 - 2 ^ 970) * Zpos d <= Zpos n) as ->.
    { unfold Qle. cbn [Qnum Qden inject_Z]. lia. }
    rewrite <- Hnone. destruct (b64_pos n d); split; try done.
    + by intros [? _].
    + intros [= <-]. done.
    + intros [_ ->]. done.
Qed.

End Rounding.

(** ** Numbers in text *)

Section Numbers.

Lemma remove_first_split (s : pystr) :
  remove_first DOT s = (split_dot s).1 ++ default [] (split_dot s).2.
Proof.
  induction s as [|c s IH]; [done|]. cbn.
  destruct (c =? DOT)%N; [done|].
  destruct (split_dot s) as [ip fp]. cbn in *. by rewrite IH.
Qed.

Lemma split_dot_join (s : pystr) :
  s = (split_dot s).1 ++ from_option (cons DOT) [] (split_dot s).2.
Proof.
  induction s as [|c s IH]; [done|]. cbn.
  destruct (N.eqb_spec c DOT) as [->|_]; [done|].
  destruct (split_dot s) as [ip fp]. cbn in *. by rewrite <- IH.
Qed.

Lemma isdigit_forallb (s : pystr) : isdigit s = true → forallb is_digit s = true.
Proof. by destruct s. Qed.

Lemma decimal_digits_forallb (s : pystr) :
  decimal_digits s = true → forallb is_decimal s = true.
Proof. by destruct s. Qed.

Lemma float_Ok (s : pystr) (x : pyfloat) : float s = Ok x ↔ py_float s = Some x.
Proof.
  unfold float. destruct (py_float s); split; intros Heq; by simplify_eq.
Qed.










(** The rounding never yields nan. *)
Lemma b64_not_nan (q : Q) : b64 q ≠ Fnan.
Proof.
  unfold b64. destruct (Qnum q); [done|..]; by destruct (b64_pos _ _).
Qed.

Lemma lstrip_subset (s : pystr) (c : N) : c ∈ lstrip s → c ∈ s.
Proof.
  induction s as [|d s IH]; [done|]. cbn.
  destruct (is_space_ascii d); [|done]. intros Hc. right. by apply IH.
Qed.

Lemma strip_subset (s : pystr) (c : N) : c ∈ strip s → c ∈ s.
Proof.
  unfold strip. intros Hc%list_elem_of_In%in_rev%list_elem_of_In.
  apply lstrip_subset in Hc.
  apply list_elem_of_In, in_rev, list_elem_of_In in Hc.
  by apply lstrip_subset.
Qed.

Lemma remove_underscores_subset (s t : pystr) (prev c : N) :
  remove_underscores prev s = Some t → c ∈ t → c ∈ s.
Proof.
  revert prev t. induction s as [|d s IH]; intros prev t.
  - cbn. destruct (prev =? UNDERSCORE)%N; [done|]. by intros [= <-].
  - cbn [remove_underscores]. destruct (d =? UNDERSCORE)%N.
    + destruct (is_decimal prev); [|done]. intros Ht Hc. right. by eapply IH.
    + destruct ((prev =? UNDERSCORE)%N && negb (is_decimal d)); [done|].
      destruct (remove_underscores d s) as [t'|] eqn:Ht'; [|done].
      intros [= <-] [->|Hc]%elem_of_cons; [left|]. right. by eapply IH.
Qed.

Lemma split_sign_subset (s : pystr) (c : N) : c ∈ (split_sign s).2 → c ∈ s.
Proof.
  destruct s as [|d s]; [done|]. cbn.
  destruct (d =? MINUS)%N; [by right|]. destruct (d =? PLUS)%N; [by right | done].
Qed.

Lemma to_ascii_cp_letter (c a : N) :
  (64 <= a < 127)%N → to_ascii_cp c = a → c = a.
Proof.
  intros Ha. unfold to_ascii_cp. destruct (c <? 127)%N; [done|].
  destruct (in_ranges space_ranges c); [lia|].
  unfold decimal_value. destruct (List.find (in_range c) decimal_ranges) as [r|]; cbn.
  - pose proof (N.mod_lt (c - r.1) 10). lia.
  - lia.
Qed.

(** A text that [float] reads as nan contains the letter "n" or "N". *)
Lemma float_nan_letter (v : pystr) :
  py_float v = Some Fnan → (110 ∈ v ∨ 78 ∈ v)%N.
Proof.
  unfold py_float.
  destruct (remove_underscores 0 (strip (map to_ascii_cp v))) as [t|] eqn:Ht; [|done].
  cbn [mbind option_bind]. destruct (split_sign t) as [neg body] eqn:Hsign.
  destruct (parse_number body) as [q|].
  { intros [= Hq]. by apply b64_not_nan in Hq. }
  destruct (bool_decide _); [done|].
  destruct (bool_decide (lower_ascii body = NAN)) eqn:Hnan; [|done]. intros _.
  apply bool_decide_eq_true in Hnan.
  destruct body as [|c body]; [done|]. injection Hnan as Hc _.
  assert (c = 110 ∨ c = 78)%N as Hcn.
  { destruct (N.leb_spec 65 c), (N.leb_spec c 90); cbn [andb] in Hc; lia. }
  assert (c ∈ map to_ascii_cp v) as Hin.
  { apply strip_subset. eapply remove_underscores_subset; [exact Ht|].
    apply split_sign_subset. rewrite Hsign. left. }
  apply list_elem_of_fmap in Hin as (c0 & Hc0 & Hin).
  destruct Hcn as [-> | ->]; symmetry in Hc0;
    apply to_ascii_cp_letter in Hc0; try lia; subst c0; auto.
Qed.

Lemma remove_first_elem (s : pystr) (c : N) :
  c ∈ s → c = DOT ∨ c ∈ remove_first DOT s.
Proof.
  induction s as [|d s IH]; [by intros ?%elem_of_nil|].
  intros [->|Hc]%elem_of_cons; cbn.
  - destruct (N.eqb_spec d DOT); [by left|]. right. left.
  - destruct (N.eqb_spec d DOT); [by right|].
    destruct (IH Hc); [by left|]. right. by right.
Qed.

(** Text accepted by the numeric mask is never read as nan. *)
Lemma numeric_not_nan (v : pystr) :
  Pandas.numeric v = true → py_float v ≠ Some Fnan.
Proof.
  intros Hnum Hnan%float_nan_letter. unfold Pandas.numeric in Hnum.
  apply isdigit_forallb in Hnum. rewrite forallb_forall in Hnum.
  assert (∀ c, c ∈ v → c = DOT ∨ is_digit c = true) as Hv.
  { intros c Hc. destruct (remove_first_elem v c Hc) as [|Hin]; [by left|].
    right. by apply Hnum, list_elem_of_In. }
  destruct Hnan as [Hn|Hn]; apply Hv in Hn as [Hn|Hn];
    first [discriminate Hn | by vm_compute in Hn].
Qed.

End Numbers.

(** ** The classifier of the pandas rewrite *)

Section PandasCheckRange.

Lemma med_value_known (med : list med_row) (t : pystr) :
  has_range med t = true →
  ∃ m, m ∈ med ∧ m_id m = t ∧ ∀ proj, med_value med t proj = Ok (proj m).
Proof.
  unfold has_range. rewrite bool_decide_eq_true, list_elem_of_fmap.
  intros (m0 & Ht & Hm0).
  assert (m0 ∈ filter (fun m => m_id m = t) med) as Hin
      by (by apply list_elem_of_filter).
  unfold med_value.
  destruct (filter (fun m => m_id m = t) med) as [|m ms] eqn:Hf;
    [by apply elem_of_nil in Hin|].
  assert (m ∈ filter (fun m => m_id m = t) med) as Hm by (rewrite Hf; left).
  apply list_elem_of_filter in Hm as [Hid Hm]. eauto.
Qed.

Lemma med_value_unknown (med : list med_row) (t : pystr) (proj : med_row -> bound) :
  has_range med t = false → med_value med t proj = Raise IndexError.
Proof.
  unfold has_range. rewrite bool_decide_eq_false, list_elem_of_fmap. intros Hno.
  unfold med_value.
  destruct (filter (fun m => m_id m = t) med) as [|m ms] eqn:Hf; [done|].
  assert (m ∈ filter (fun m => m_id m = t) med) as Hm by (rewrite Hf; left).
  apply list_elem_of_filter in Hm as [Hid Hm]. destruct Hno. eauto.
Qed.

Lemma row_conclusion_text (med : list med_row) (r : row) :
  Pandas.numeric (value r) = false →
  Pandas_row_conclusion med r = Ok (PyStr (value r)).
Proof. intros Hnum. unfold Pandas_row_conclusion. by rewrite Hnum. Qed.

Lemma row_conclusion_unknown (med : list med_row) (r : row) :
  Pandas.numeric (value r) = true → is_Some (py_float (value r)) →
  has_range med (test r) = false →
  Pandas_row_conclusion med r = Raise IndexError.
Proof.
  intros Hnum [q Hq%float_Ok] Hno. unfold Pandas_row_conclusion.
  rewrite Hnum, Hq. cbn [mbind outcome_bind].
  by rewrite (med_value_unknown med (test r) m_min Hno).
Qed.

Lemma row_conclusion_known (med : list med_row) (r : row) :
  Pandas.numeric (value r) = true → is_Some (py_float (value r)) →
  has_range med (test r) = true →
  ∃ x m, float (value r) = Ok x ∧ x ≠ Fnan ∧ m ∈ med ∧ m_id m = test r
         ∧ med_value med (test r) m_min = Ok (m_min m)
         ∧ med_value med (test r) m_max = Ok (m_max m)
         ∧ Pandas_row_conclusion med r
           = (c ← Pandas.conclusion (m_min m) (m_max m) x;
              Ok (from_option PyStr PyNone c)).
Proof.
  intros Hnum [x Hx] Hyes. unfold Pandas_row_conclusion. rewrite Hnum.
  destruct (med_value_known _ _ Hyes) as (m & Hm & Hid & Hval).
  exists x, m. rewrite !Hval. apply float_Ok in Hx as Hx'. rewrite Hx'.
  repeat split; try done. intros ->. by apply (numeric_not_nan _ Hnum).
Qed.

(** The comparisons of the loop raise for a bound that is [None] only,
    unless the value is nan. *)
Lemma py_cmp_defined (op : pyfloat -> pyfloat -> bool) (b : bound) (x : pyfloat) :
  b ≠ BNone → x ≠ Fnan → ∃ res, py_cmp op b x = Ok res.
Proof. intros Hb Hx. destruct b, x; cbn; by eauto. Qed.

Lemma py_cmp_outcome (op : pyfloat -> pyfloat -> bool) (b : bound) (x : pyfloat) :
  x ≠ Fnan → (∃ res, py_cmp op b x = Ok res) ∨ py_cmp op b x = Raise TypeError.
Proof. intros Hx. destruct b, x; cbn; by eauto. Qed.

Lemma conclusion_defined (min_val max_val : bound) (x : pyfloat) :
  min_val ≠ BNone → max_val ≠ BNone → x ≠ Fnan →
  ∃ c, Pandas.conclusion min_val max_val x = Ok c.
Proof.
  intros Hmin Hmax Hx. unfold Pandas.conclusion.
  destruct (py_cmp_defined flt max_val x Hmax Hx) as [[] ->]; cbn; [by eauto|].
  destruct (py_cmp_defined fgt min_val x Hmin Hx) as [[] ->]; cbn; [by eauto|].
  destruct (py_cmp_defined fle min_val x Hmin Hx) as [[] ->]; cbn; [|by eauto].
  destruct (py_cmp_defined fge max_val x Hmax Hx) as [[] ->]; cbn; by eauto.
Qed.

Lemma conclusion_outcome (min_val max_val : bound) (x : pyfloat) :
  x ≠ Fnan →
  (∃ c, Pandas.conclusion min_val max_val x = Ok c)
  ∨ Pandas.conclusion min_val max_val x = Raise TypeError.
Proof.
  intros Hx. unfold Pandas.conclusion.
  destruct (py_cmp_outcome flt max_val x Hx) as [[[] ->]| ->]; cbn; [by eauto| |by right].
  destruct (py_cmp_outcome fgt min_val x Hx) as [[[] ->]| ->]; cbn; [by eauto| |by right].
  destruct (py_cmp_outcome fle min_val x Hx) as [[[] ->]| ->]; cbn; [|by eauto|by right].
  destruct (py_cmp_outcome fge max_val x Hx) as [[[] ->]| ->]; cbn; by eauto.
Qed.

Lemma bounds_given_elem (med : list med_row) (m : med_row) :
  bounds_given med = true → m ∈ med → m_min m ≠ BNone ∧ m_max m ≠ BNone.
Proof.
  unfold bounds_given. rewrite forallb_forall. intros Hall Hm%list_elem_of_In.
  exact (bool_decide_eq_true_1 _ (Hall m Hm)).
Qed.

Lemma loop_column_length (med : list med_row) (rs : list row) :
  length (Pandas_loop_column med rs).1 = length rs.
Proof.
  induction rs as [|r rs IH]; [done|]. cbn [Pandas_loop_column].
  destruct (Pandas_row_conclusion med r) as [c|e].
  - destruct (Pandas_loop_column med rs) as [col e']. cbn in *. by rewrite IH.
  - cbn [fst]. by rewrite length_map.
Qed.

(** A row that is not numeric keeps its text as conclusion, whatever
    happens to the other rows. *)
Lemma loop_column_text (med : list med_row) (rs : list row) (i : nat) (r : row) :
  rs !! i = Some r → Pandas.numeric (value r) = false →
  (Pandas_loop_column med rs).1 !! i = Some (PyStr (value r)).
Proof.
  revert i. induction rs as [|r0 rs IH]; intros i Hi Hnum; [done|].
  cbn [Pandas_loop_column].
  destruct (Pandas_row_conclusion med r0) as [c|e] eqn:Hc.
  - destruct (Pandas_loop_column med rs) as [col e'] eqn:Hcol. cbn [fst] in *.
    destruct i as [|i]; cbn in Hi |- *.
    + injection Hi as ->. rewrite row_conclusion_text in Hc by done. congruence.
    + by apply IH.
  - cbn [fst]. rewrite list_lookup_fmap, Hi. cbn.
    unfold Pandas_initial. by rewrite Hnum.
Qed.

Lemma row_ok_cases (med : list med_row) (r : row) :
  negb (Pandas.numeric (value r)) || bool_decide (is_Some (py_float (value r))) = true →
  Pandas.numeric (value r) = false
  ∨ Pandas.numeric (value r) = true ∧ is_Some (py_float (value r)).
Proof.
  destruct (Pandas.numeric (value r)); [|by left].
  cbn. intros Hp%bool_decide_eq_true. by right.
Qed.

(** When [float] accepts the numeric rows, their tests are known and no
    bound is [None], the loop ends normally and every row holds its
    conclusion. *)
Lemma loop_column_ok (med : list med_row) (rs : list row) :
  numbers_parse rs = true →
  ranges_known med rs = true →
  bounds_given med = true →
  (Pandas_loop_column med rs).2 = None
  ∧ ∀ i r, rs !! i = Some r →
      ∃ c, Pandas_row_conclusion med r = Ok c
           ∧ (Pandas_loop_column med rs).1 !! i = Some c.
Proof.
  intros Hparse Hknown Hgiven. induction rs as [|r0 rs IH]; [done|].
  cbn [numbers_parse ranges_known forallb] in Hparse, Hknown.
  apply andb_true_iff in Hparse as [Hp0 Hps].
  apply andb_true_iff in Hknown as [Hr0 Hrs].
  destruct (IH Hps Hrs) as [IHe IHc]. clear IH.
  assert (∃ c, Pandas_row_conclusion med r0 = Ok c) as [c Hc].
  { destruct (row_ok_cases med r0 Hp0) as [Hnum|[Hnum Hq]].
    - rewrite row_conclusion_text by done. eauto.
    - rewrite Hnum in Hr0.
      destruct (row_conclusion_known med r0 Hnum Hq Hr0)
        as (x & m & _ & Hx & Hm & _ & _ & _ & ->).
      destruct (bounds_given_elem med m Hgiven Hm) as [Hmin Hmax].
      destruct (conclusion_defined _ _ x Hmin Hmax Hx) as [c ->]. cbn. eauto. }
  cbn [Pandas_loop_column]. rewrite Hc.
  destruct (Pandas_loop_column med rs) as [col e']. cbn [fst snd] in *.
  split; [done|]. intros [|i] r Hi; cbn in Hi |- *.
  - injection Hi as ->. eauto.
  - by apply IHc.
Qed.

(** When [float] accepts the numeric rows, the loop ends normally or raises
    IndexError or TypeError; TypeError needs a bound that is [None], and
    IndexError a numeric row with an unknown test. *)
Lemma loop_column_parsed (med : list med_row) (rs : list row) :
  numbers_parse rs = true →
  ((Pandas_loop_column med rs).2 = None
   ∨ (Pandas_loop_column med rs).2 = Some IndexError
   ∨ (Pandas_loop_column med rs).2 = Some TypeError)
  ∧ ((Pandas_loop_column med rs).2 = Some IndexError → ranges_known med rs = false)
  ∧ ((Pandas_loop_column med rs).2 = Some TypeError → bounds_given med = false)
  ∧ ((Pandas_loop_column med rs).2 = None → ranges_known med rs = true).
Proof.
  induction rs as [|r0 rs IH]; [cbn; split; [by left|]; repeat split; done|].
  cbn [numbers_parse ranges_known forallb].
  intros [Hp0 Hps]%andb_true_iff. specialize (IH Hps).
  cbn [Pandas_loop_column].
  destruct (row_ok_cases med r0 Hp0) as [Hnum|[Hnum Hq]].
  - rewrite row_conclusion_text by done. rewrite Hnum. cbn [negb orb andb].
    by destruct (Pandas_loop_column med rs) as [col e'].
  - rewrite Hnum. cbn [negb orb]. destruct (has_range med (test r0)) eqn:Hr0.
    + destruct (row_conclusion_known med r0 Hnum Hq Hr0)
        as (x & m & _ & Hx & Hm & _ & _ & _ & ->).
      destruct (conclusion_outcome (m_min m) (m_max m) x Hx) as [[c Hc0]|Hc0];
        rewrite Hc0; cbn [mbind outcome_bind andb].
      * by destruct (Pandas_loop_column med rs) as [col e'].
      * cbn [snd]. split; [by eauto|]. split; [done|]. split; [|done]. intros _.
        destruct (bounds_given med) eqn:Hgiven; [|done].
        destruct (bounds_given_elem med m Hgiven Hm) as [Hmin Hmax].
        destruct (conclusion_defined _ _ x Hmin Hmax Hx) as [c Hc]. congruence.
    + rewrite row_conclusion_unknown by done. cbn [snd andb].
      split; [by eauto|]. repeat split; done.
Qed.

(** When [float] accepts the numeric rows, no bound is [None] and the test
    of a numeric row is unknown, the loop raises IndexError. *)
Lemma loop_column_fail (med : list med_row) (rs : list row) :
  numbers_parse rs = true →
  bounds_given med = true →
  ranges_known med rs = false →
  (Pandas_loop_column med rs).2 = Some IndexError.
Proof.
  intros Hparse Hgiven Hno.
  destruct (loop_column_parsed med rs Hparse) as ([He|[He|He]] & _ & Htype & Hnone).
  - apply Hnone in He. congruence.
  - done.
  - apply Htype in He. congruence.
Qed.

Lemma assign_where_initial (rs : list row) :
  assign_where (map negb (map (fun r => Pandas.numeric (value r)) rs))
               (map (fun r => PyStr (value r)) rs)
               (replicate (length rs) PyNone)
  = map Pandas_initial rs.
Proof.
  unfold assign_where. induction rs as [|r rs IH]; [done|].
  cbn. rewrite IH. unfold Pandas_initial at 2.
  by destruct (Pandas.numeric (value r)).
Qed.

Lemma insert_after (pre : list cell) (c c' : cell) (post : list cell) :
  <[length pre := c']> (pre ++ c :: post) = pre ++ c' :: post.
Proof.
  rewrite insert_app_r_alt by lia. by rewrite Nat.sub_diag.
Qed.

Lemma loop_step_shift (pre : list cell) (c : cell) (rs : list row) :
  imap ((fun j r => (length pre + j, r)%nat) ∘ S) rs
  = imap (fun j r => (length (pre ++ [c]) + j, r)%nat) rs.
Proof.
  apply imap_ext. intros j r _. rewrite length_app. cbn. f_equal. lia.
Qed.

(** One iteration on a row. *)
Lemma Pandas_loop_body_run (l lm : loc) (med : list med_row) (i : nat) (r : row)
      (σ : store) :
  σ !! lm = Some (OMed med) →
  Pandas.loop_body l lm (i, r) σ
  = match (curr_val ← float (value r);
           min_val ← med_value med (test r) m_min;
           max_val ← med_value med (test r) m_max;
           Pandas.conclusion min_val max_val curr_val) with
    | Ok (Some s) => update_df l (loc_set Pandas.check_name i (PyStr s)) σ
    | Ok None => (σ, Ok tt)
    | Raise e => (σ, Raise e)
    end.
Proof.
  intros Hlm. unfold Pandas.loop_body. rewrite run_bind. unfold lift at 1.
  destruct (float (value r)) as [curr_val|e]; cbn [mbind outcome_bind]; [|done].
  rewrite run_bind, (run_get_med lm med σ Hlm), run_bind. unfold lift at 1.
  destruct (med_value med (test r) m_min) as [min_val|e];
    cbn [mbind outcome_bind]; [|done].
  rewrite run_bind. unfold lift at 1.
  destruct (med_value med (test r) m_max) as [max_val|e];
    cbn [mbind outcome_bind]; [|done].
  rewrite run_bind. unfold lift at 1.
  by destruct (Pandas.conclusion min_val max_val curr_val) as [[s|]|e].
Qed.

(** The loop writes the conclusions of the numeric rows one after the
    other into the caller's frame and stops at the first exception. *)
Lemma Pandas_loop_run (l lm : loc) (med : list med_row)
      (rws : list row) (ex : gmap pystr (list cell)) (rs : list row) :
  ∀ (pre : list cell) (σ : store),
    σ !! l = Some (ODf (Df rws (<[Pandas.check_name := pre ++ map Pandas_initial rs]> ex))) →
    σ !! lm = Some (OMed med) →
    for_each (mask_select (map (fun r => Pandas.numeric (value r)) rs)
                          (imap (fun j r => (length pre + j, r)%nat) rs))
             (Pandas.loop_body l lm) σ
    = (<[l := ODf (Df rws (<[Pandas.check_name :=
                               pre ++ (Pandas_loop_column med rs).1]> ex))]> σ,
       match (Pandas_loop_column med rs).2 with
       | None => Ok tt
       | Some e => Raise e
       end).
Proof.
  induction rs as [|r rs IH]; intros pre σ Hl Hlm.
  - cbn. by rewrite insert_id.
  - cbn [map mask_select Pandas_loop_column]. rewrite imap_cons.
    unfold Pandas_row_conclusion.
    destruct (Pandas.numeric (value r)) eqn:Hnum.
    + (* a numeric row: one iteration *)
      assert (Pandas_initial r = PyNone) as Hini
          by (unfold Pandas_initial; by rewrite Hnum).
      cbn [for_each]. rewrite run_bind.
      rewrite (Pandas_loop_body_run l lm med _ r σ Hlm).
      destruct (float (value r)) as [curr_val|e]; cbn [mbind outcome_bind];
        [|cbn; by rewrite insert_id].
      destruct (med_value med (test r) m_min) as [min_val|e];
        cbn [mbind outcome_bind]; [|cbn; by rewrite insert_id].
      destruct (med_value med (test r) m_max) as [max_val|e];
        cbn [mbind outcome_bind]; [|cbn; by rewrite insert_id].
      destruct (Pandas.conclusion min_val max_val curr_val) as [concl|e];
        cbn [mbind outcome_bind]; [|cbn; by rewrite insert_id].
      cbn [map] in Hl. rewrite Hini in Hl.
      set (c := from_option PyStr PyNone concl).
      rewrite (loop_step_shift pre c).
      assert (∃ σ1, (match concl with
                     | Some s => update_df l (loc_set Pandas.check_name
                                              (length pre + 0) (PyStr s)) σ
                     | None => (σ, Ok tt)
                     end) = (σ1, Ok tt)
                    ∧ σ1 = <[l := ODf (Df rws (<[Pandas.check_name :=
                                 (pre ++ [c]) ++ map Pandas_initial rs]> ex))]> σ)
        as (σ1 & -> & ->).
      { subst c. rewrite <- app_assoc. cbn [app].
        destruct concl as [s|]; cbn [from_option].
        - eexists. split; [by apply run_update_df|].
          unfold loc_set. cbn [rows extra].
          by rewrite alter_insert_eq, Nat.add_0_r, insert_after.
        - eexists. split; [reflexivity|]. by rewrite insert_id. }
      rewrite IH with (pre := pre ++ [c]);
        [| by rewrite lookup_insert_eq
         | rewrite lookup_insert_ne; [done | intros ->; congruence]].
      rewrite insert_insert_eq.
      destruct (Pandas_loop_column med rs) as [col e]. cbn [fst snd].
      by rewrite <- app_assoc.
    + (* a row that is not numeric is not visited *)
      assert (Pandas_initial r = PyStr (value r)) as Hini
          by (unfold Pandas_initial; by rewrite Hnum).
      cbn [map] in Hl. rewrite Hini in Hl.
      rewrite (loop_step_shift pre (PyStr (value r))).
      rewrite IH with (pre := pre ++ [PyStr (value r)]);
        [| by rewrite <- app_assoc | done].
      destruct (Pandas_loop_column med rs) as [col e]. cbn [fst snd].
      by rewrite <- app_assoc.
Qed.

(** The whole call: the caller's frame receives the column, and the table
    is computed from that frame unless the loop raised. *)
Lemma Pandas_check_range_run (l lm : loc) (test_count : Z) (σ : store)
      (df : DataFrame) (med : list med_row) :
  σ !! l = Some (ODf df) →
  σ !! lm = Some (OMed med) →
  Pandas.check_range l lm test_count σ
  = (<[l := ODf (set_column Pandas.check_name
                            (Pandas_loop_column med (rows df)).1 df)]> σ,
     match (Pandas_loop_column med (rows df)).2 with
     | None => Ok (Pandas.final_table
                     (set_column Pandas.check_name
                                 (Pandas_loop_column med (rows df)).1 df)
                     test_count)
     | Some e => Raise e
     end).
Proof.
  intros Hl Hlm. assert (l ≠ lm) as Hne by (intros ->; congruence).
  unfold Pandas.check_range.
  rewrite run_bind, (run_update_df l _ df σ Hl).
  rewrite run_bind, (run_get_df l _ _ (lookup_insert_eq _ _ _)).
  rewrite run_bind, (run_update_df l _ _ _ (lookup_insert_eq _ _ _)).
  rewrite insert_insert_eq.
  rewrite run_bind, (run_get_df l _ _ (lookup_insert_eq _ _ _)).
  unfold set_column, column. cbn [rows extra].
  rewrite lookup_insert_eq. cbn [default].
  rewrite insert_insert_eq, assign_where_initial.
  rewrite run_bind.
  rewrite (Pandas_loop_run l lm med (rows df) (extra df) (rows df) []);
    [| apply lookup_insert_eq | by rewrite lookup_insert_ne].
  rewrite insert_insert_eq. cbn [app].
  destruct (Pandas_loop_column med (rows df)) as [col [e|]]; cbn [fst snd]; [done|].
  by rewrite run_bind, (run_get_df l _ _ (lookup_insert_eq _ _ _)).
Qed.

End PandasCheckRange.

(** ** The range check (4.2, step 5) *)

Section RangeCheck.

Lemma Qltb_lt (x y : Q) : Qltb x y = true ↔ (x < y)%Q.
Proof.
  unfold Qltb. rewrite negb_true_iff, <- not_true_iff_false, Qle_bool_iff.
  split; [apply Qnot_le_lt | apply Qlt_not_le].
Qed.

Lemma Qltb_ge (x y : Q) : Qltb x y = false ↔ (y <= x)%Q.
Proof. unfold Qltb. by rewrite negb_false_iff, Qle_bool_iff. Qed.

Lemma Qltb_compat (x y y' : Q) : (y == y')%Q → Qltb x y = Qltb x y' ∧ Qltb y x = Qltb y' x.
Proof.
  intros Hy. split.
  - destruct (Qltb x y') eqn:H'.
    + apply Qltb_lt. apply Qltb_lt in H'. by rewrite Hy.
    + apply Qltb_ge. apply Qltb_ge in H'. by rewrite Hy.
  - destruct (Qltb y' x) eqn:H'.
    + apply Qltb_lt. apply Qltb_lt in H'. by rewrite Hy.
    + apply Qltb_ge. apply Qltb_ge in H'. by rewrite Hy.
Qed.


Lemma numeric_not_sign (v : pystr) :
  Sql.matches_number v = true → v ≠ Sql.PLUS_SIGN ∧ v ≠ Sql.MINUS_SIGN.
Proof. split; intros ->; discriminate. Qed.

(** The CASE of the SQL revision on a number, for bounds that are not
    NULL. *)
Lemma zakl_case_number (v : pystr) (min_val max_val : bound) (x lo hi : Q) :
  Sql.matches_number v = true → Sql.cast_float v = Ok x →
  Sql.sql_bound min_val = Ok (Some lo) → Sql.sql_bound max_val = Ok (Some hi) →
  Sql.zakl_case v min_val max_val
  = Ok (if Qltb x lo then Sql.LOW
        else if Qltb hi x then Sql.HIGH else Sql.NORMAL).
Proof.
  intros Hm Hx Hlo Hhi. destruct (numeric_not_sign v Hm) as [Hp Hn].
  unfold Sql.zakl_case, Sql.number_and, Sql.sql_lt, Sql.sql_gt.
  rewrite !bool_decide_eq_false_2 by done. rewrite Hm, Hx, Hlo, Hhi. cbn.
  destruct (Qltb x lo); [done|]. by destruct (Qltb hi x).
Qed.

(** A bound that is a binary64 number is that number for a comparison in
    double precision, whether it is stored as numeric or as double
    precision. *)
Lemma sql_bound_binary64 (b : bound) (q : Q) :
  bound_number b = Some q → is_binary64 q = true →
  ∃ q', Sql.sql_bound b = Ok (Some q') ∧ (q' == q)%Q.
Proof.
  intros Hb Hq. destruct b; simplify_eq/=; [|by exists q].
  unfold is_binary64 in Hq. unfold Sql.float8.
  destruct (b64 q) as [| |y]; [done..|].
  apply Qeq_bool_iff in Hq. exists y.
  destruct (Qeq_bool y 0) eqn:Hy0; [|done].
  apply Qeq_bool_iff in Hy0.
  assert (Qeq_bool q 0 = true) as ->; [|done].
  apply Qeq_bool_iff. by rewrite <- Hq.
Qed.

Lemma cell_at_insert (σ : store) (l : loc) (df : DataFrame) (col : list cell)
      (name : pystr) (i : nat) :
  cell_at (<[l := ODf (set_column name col df)]> σ) l name i = col !! i.
Proof.
  unfold cell_at, frame_at. rewrite lookup_insert_eq. cbn.
  by rewrite lookup_insert_eq.
Qed.

(** With unique test codes the lookup of the pandas rewrite and the join
    of the SQL revision find the one reference row of the test. *)
Lemma med_value_unique (med : list med_row) (m : med_row) (proj : med_row -> bound) :
  NoDup (map m_id med) → m ∈ med → med_value med (m_id m) proj = Ok (proj m).
Proof.
  intros Hnd Hm. unfold med_value.
  by rewrite (filter_unique_key m_id med m Hnd Hm).
Qed.

Lemma decode_one_row (med : list med_row) (m : med_row) (r : row) :
  NoDup (map m_id med) → m ∈ med → m_id m = test r →
  Sql.SQL_DECODE_ANALYSIS [r] med
  = (z ← Sql.zakl_case (value r) (m_min m) (m_max m);
     Ok [Sql.Dec (patient r) (test r) (m_name m) (value r) (m_min m) (m_max m) z]).
Proof.
  intros Hnd Hm Hid. unfold Sql.SQL_DECODE_ANALYSIS. cbn [mbind list_bind].
  rewrite app_nil_r.
  rewrite (list_filter_iff _ (fun m' => m_id m' = m_id m))
    by (intros m'; rewrite Hid; split; congruence).
  rewrite (filter_unique_key m_id med m Hnd Hm). cbn.
  by destruct (Sql.zakl_case (value r) (m_min m) (m_max m)).
Qed.



End RangeCheck.

(** ** Signed values in the pandas rewrite *)

Section SignedValues.

Lemma startswith_nil (s : pystr) : startswith s [] = true.
Proof. by destruct s. Qed.

Lemma map_values_lookup (f : pystr -> pystr) (df : DataFrame) (i : nat) (r : row) :
  rows df !! i = Some r →
  rows (map_values f df) !! i = Some (Row (patient r) (test r) (f (value r))).
Proof. intros Hi. unfold map_values. cbn. by rewrite list_lookup_fmap, Hi. Qed.

(** C9. In the pandas rewrite a value whose lowercased text begins with
    "+" or "-" (a signed number such as "-5" included) is rewritten by
    [clean_values] to "Положительный", resp. "Отрицательный"; the word is
    not numeric for [check_range], which takes it as the conclusion of the
    row whatever the reference table holds. *)
Theorem signed_value_becomes_marker
        (σ : store) (l lm : loc) (df : DataFrame) (med : list med_row)
        (test_count : Z) (i : nat) (r : row) :
  σ !! l = Some (ODf (Pandas.clean_values df)) →
  σ !! lm = Some (OMed med) →
  rows df !! i = Some r →
  startswith_any (lower (value r)) [[PLUS]; [MINUS]] = true →
  let word := if startswith (lower (value r)) [PLUS]
              then Pandas.POSITIVE else Pandas.NEGATIVE in
  rows (Pandas.clean_values df) !! i = Some (Row (patient r) (test r) word)
  ∧ Pandas.numeric word = false
  ∧ cell_at (Pandas.check_range l lm test_count σ).1 l Pandas.check_name i
    = Some (PyStr word).
Proof.
  intros Hl Hlm Hi Hsign word.
  assert (Pandas_clean_value (value r) = word) as Hword.
  { subst word. unfold Pandas_clean_value, startswith_any, PLUS, MINUS in *.
    destruct (lower (value r)) as [|c s]; [done|].
    cbn [existsb startswith] in Hsign |- *.
    rewrite !startswith_nil, !andb_true_r, !orb_false_r in Hsign |- *.
    destruct (N.eqb_spec 43 c) as [<-|Hp]; [reflexivity|].
    destruct (N.eqb_spec 45 c) as [<-|Hm]; [reflexivity|].
    discriminate Hsign. }
  assert (rows (Pandas.clean_values df) !! i = Some (Row (patient r) (test r) word))
    as Hrow.
  { rewrite Pandas_clean_values_map, <- Hword. by apply map_values_lookup. }
  assert (Pandas.numeric word = false) as Hnum
      by (subst word; by destruct (startswith (lower (value r)) [PLUS])).
  split; [done|]. split; [done|].
  rewrite (Pandas_check_range_run l lm test_count σ _ med Hl Hlm).
  cbn [fst]. rewrite cell_at_insert.
  by rewrite (loop_column_text med _ i _ Hrow Hnum).
Qed.

Lemma signed_value_becomes_marker_witness :
  startswith_any (lower (u "-5")) [[PLUS]; [MINUS]] = true
  ∧ rows (Pandas.clean_values ex_signed) !! 0%nat
    = Some (Row 7 (u "A") Pandas.NEGATIVE)
  ∧ cell_at (Pandas.check_range 1 2 2
               (ex_store (Pandas.clean_values ex_signed))).1 1 Pandas.check_name 0
    = Some (PyStr Pandas.NEGATIVE).
Proof.
  split; [reflexivity|].
  pose proof (signed_value_becomes_marker
                (ex_store (Pandas.clean_values ex_signed)) 1 2 ex_signed ex_med 2 0
                (Row 7 (u "A") (u "-5"))
                eq_refl eq_refl eq_refl eq_refl) as (Hrow & _ & Hcell).
  split; [exact Hrow | exact Hcell].
Defined.

End SignedValues.

(** ** Idempotence of the normalizer *)

Section Idempotence.

(** C8, as the code has it.  [clean_values] is idempotent in the first
    script and in the pandas rewrite.  The values it leaves alone are its
    own canonical ones: "+" and "-" in the first script, the words
    "Положительный" and "Отрицательный" in the pandas rewrite. *)
Theorem clean_values_idempotent :
  (∀ df, V1.clean_values (V1.clean_values df) = V1.clean_values df)
  ∧ (∀ df, Pandas.clean_values (Pandas.clean_values df) = Pandas.clean_values df)
  ∧ (∀ df, V1.clean_values (map_values (fun _ => [PLUS]) df)
           = map_values (fun _ => [PLUS]) df
           ∧ V1.clean_values (map_values (fun _ => [MINUS]) df)
             = map_values (fun _ => [MINUS]) df)
  ∧ (∀ df, Pandas.clean_values (map_values (fun _ => Pandas.POSITIVE) df)
           = map_values (fun _ => Pandas.POSITIVE) df
           ∧ Pandas.clean_values (map_values (fun _ => Pandas.NEGATIVE) df)
             = map_values (fun _ => Pandas.NEGATIVE) df).
Proof.
  split; [|split; [|split]]; intros df.
  - rewrite !V1_clean_values_map, map_values_compose.
    apply map_values_ext, V1_clean_value_idem.
  - rewrite !Pandas_clean_values_map, map_values_compose.
    apply map_values_ext, Pandas_clean_value_idem.
  - split; by rewrite V1_clean_values_map, map_values_compose.
  - split; by rewrite Pandas_clean_values_map, map_values_compose.
Qed.

(** C8 as stated fails in the pandas rewrite: the marker symbol "+" is
    not returned unchanged, it becomes "Положительный". *)
Lemma clean_values_changes_plus_sign :
  Pandas.clean_values ex_plus ≠ ex_plus
  ∧ rows (Pandas.clean_values ex_plus) = [Row 1 (u "A") (u "Положительный")].
Proof.
  split; [|reflexivity].
  intros Heq. apply (f_equal rows) in Heq. discriminate Heq.
Qed.

End Idempotence.

(** ** Who writes into the caller's frame *)

Section Aliasing.

(** An iteration of the first script's loop touches the local frame
    only. *)
Lemma V1_loop_body_frame (l2 lm2 l' : loc) (x : nat * row) (σ : store) :
  l' ≠ l2 → (V1.loop_body l2 lm2 x σ).1 !! l' = σ !! l'.
Proof.
  intros Hne. destruct x as [i r]. unfold V1.loop_body.
  unfold get_med, lift, update_df, mbind, M_bind, mret, M_ret.
  repeat case_match; simplify_eq; cbn [fst]; try done.
  all: by rewrite lookup_insert_ne.
Qed.

Lemma V1_loop_frame (l2 lm2 l' : loc) (xs : list (nat * row)) (σ : store) :
  l' ≠ l2 → (for_each xs (V1.loop_body l2 lm2) σ).1 !! l' = σ !! l'.
Proof.
  intros Hne. revert σ. induction xs as [|x xs IH]; intros σ; [done|].
  cbn [for_each]. rewrite run_bind.
  pose proof (V1_loop_body_frame l2 lm2 l' x σ Hne) as Hx.
  destruct (V1.loop_body l2 lm2 x σ) as [σ1 [[]|e]]; cbn [fst] in *.
  - by rewrite IH.
  - done.
Qed.

Lemma V1_loop_body_rows (l2 lm2 : loc) (x : nat * row) (σ : store) (df2 : DataFrame) :
  σ !! l2 = Some (ODf df2) →
  ∃ df3, (V1.loop_body l2 lm2 x σ).1 !! l2 = Some (ODf df3) ∧ rows df3 = rows df2.
Proof.
  intros Hl2. destruct x as [i r]. unfold V1.loop_body.
  unfold get_med, lift, update_df, mbind, M_bind, mret, M_ret.
  repeat case_match; simplify_eq; cbn [fst]; eauto.
  all: rewrite lookup_insert_eq; eauto.
Qed.

Lemma V1_loop_rows (l2 lm2 : loc) (xs : list (nat * row)) (σ : store) (df2 : DataFrame) :
  σ !! l2 = Some (ODf df2) →
  ∃ df3, (for_each xs (V1.loop_body l2 lm2) σ).1 !! l2 = Some (ODf df3)
         ∧ rows df3 = rows df2.
Proof.
  revert σ df2. induction xs as [|x xs IH]; intros σ df2 Hl2; [by eauto|].
  cbn [for_each]. rewrite run_bind.
  destruct (V1_loop_body_rows l2 lm2 x σ df2 Hl2) as (df3 & Hx & Hrows).
  destruct (V1.loop_body l2 lm2 x σ) as [σ1 [[]|e]]; cbn [fst] in *.
  - destruct (IH σ1 df3 Hx) as (df4 & H4 & Hrows4). exists df4.
    split; [done | congruence].
  - eauto.
Qed.

(** The first script's [check_range] works on objects of its own: every
    object that existed before the call is as it was, and the frame it
    builds (and returns, unless [float] raised) is a new object holding
    the rows whose test is a numeric test of the reference table. *)
Lemma V1_check_range_run (l lm : loc) (σ : store) (df : DataFrame)
      (med : list med_row) :
  σ !! l = Some (ODf df) → σ !! lm = Some (OMed med) →
  ∃ (l2 : loc) (df2 : DataFrame),
    σ !! l2 = None
    ∧ (V1.check_range l lm σ).1 !! l2 = Some (ODf df2)
    ∧ rows df2
      = filter (fun r => test r ∈ map m_id (filter (fun m => m_kind m = V1.KIND_N) med))
               (rows df)
    ∧ ((V1.check_range l lm σ).2 = Ok l2 ∨ ∃ e, (V1.check_range l lm σ).2 = Raise e)
    ∧ ∀ l', is_Some (σ !! l') → (V1.check_range l lm σ).1 !! l' = σ !! l'.
Proof.
  intros Hl Hlm. unfold V1.check_range.
  rewrite run_bind, (run_get_med lm med σ Hlm), run_bind, run_alloc.
  set (lm1 := fresh (dom σ)). set (σ1 := <[lm1 := OMed med]> σ).
  assert (∀ k, is_Some (σ !! k) → σ1 !! k = σ !! k) as H1.
  { intros k [o' Hk]. subst σ1. rewrite lookup_insert_ne; [done|].
    symmetry. by eapply fresh_ne. }
  rewrite run_bind, (run_get_df l df σ1) by (rewrite H1; eauto).
  rewrite run_bind, run_alloc.
  set (l1 := fresh (dom σ1)). set (σ2 := <[l1 := ODf df]> σ1).
  assert (∀ k, is_Some (σ1 !! k) → σ2 !! k = σ1 !! k) as H2.
  { intros k [o' Hk]. subst σ2. rewrite lookup_insert_ne; [done|].
    symmetry. by eapply fresh_ne. }
  rewrite run_bind, (run_get_med lm1 med σ2)
    by (rewrite H2; subst σ1; rewrite lookup_insert_eq; eauto).
  rewrite run_bind, run_alloc.
  set (lm2 := fresh (dom σ2)).
  set (med2 := filter (fun m => m_kind m = V1.KIND_N) med).
  set (σ3 := <[lm2 := OMed med2]> σ2).
  assert (∀ k, is_Some (σ2 !! k) → σ3 !! k = σ2 !! k) as H3.
  { intros k [o' Hk]. subst σ3. rewrite lookup_insert_ne; [done|].
    symmetry. by eapply fresh_ne. }
  rewrite run_bind, (run_get_med lm2 med2 σ3) by apply lookup_insert_eq.
  rewrite run_bind, (run_get_df l1 df σ3)
    by (rewrite H3; subst σ2; rewrite lookup_insert_eq; eauto).
  rewrite run_bind, run_alloc.
  set (l2 := fresh (dom σ3)).
  match goal with |- context [<[l2 := ODf ?d]> σ3] => set (df2 := d) end.
  set (σ4 := <[l2 := ODf df2]> σ3).
  assert (∀ k, is_Some (σ !! k) → σ3 !! k = σ !! k) as H03.
  { intros k Hk.
    assert (is_Some (σ1 !! k)) as Hk1 by (by rewrite H1).
    assert (is_Some (σ2 !! k)) as Hk2 by (by rewrite H2).
    by rewrite H3, H2, H1. }
  assert (σ !! l2 = None) as Hfresh.
  { destruct (σ !! l2) as [o'|] eqn:Hk; [|done].
    pose proof (fresh_lookup σ3) as Hf. fold l2 in Hf.
    rewrite H03 in Hf by eauto. congruence. }
  rewrite run_bind, (run_update_df l2 _ df2 σ4) by apply lookup_insert_eq.
  rewrite run_bind, (run_get_df l2 _ _ (lookup_insert_eq _ _ _)).
  rewrite run_bind.
  match goal with
  | |- context [for_each ?xs (V1.loop_body l2 lm2) ?s] =>
      set (items := xs); set (σ5 := s)
  end.
  destruct (V1_loop_rows l2 lm2 items σ5 _ (lookup_insert_eq _ _ _))
    as (df3 & Hdf3 & Hrows).
  cbn [set_column rows] in Hrows.
  assert (∀ l', is_Some (σ !! l') →
                (for_each items (V1.loop_body l2 lm2) σ5).1 !! l' = σ !! l') as Hold.
  { intros l' Hl'. assert (l' ≠ l2) as Hne by (intros ->; by destruct Hl'; congruence).
    rewrite V1_loop_frame by done. subst σ5 σ4.
    rewrite !lookup_insert_ne by done. by apply H03. }
  exists l2, df3.
  assert (rows df2 = filter (fun r => test r ∈ map m_id med2) (rows df)) as Hsel.
  { subst df2. unfold select. cbn [rows].
    rewrite mask_select_decide. apply filter_ext_elem.
    intros r _. by rewrite elem_of_remove_dups. }
  destruct (for_each items (V1.loop_body l2 lm2) σ5) as [σ6 [[]|e]];
    cbn [fst snd mret M_ret] in *.
  - split; [done|]. split; [done|]. split; [congruence|]. split; [by left | done].
  - split; [done|]. split; [done|]. split; [congruence|]. split; [eauto | done].
Qed.

(** C10. [check_range] of the pandas rewrite writes the column
    "Заключение" into the caller's frame itself: after the call the
    caller's reference holds the frame with that column, every other
    object of the caller is as it was, and a frame that had no such column
    is not what it was.  [check_range] of the first script works on copies:
    the caller's frame and reference table are as before, and the frame it
    returns is a new object. *)
Theorem check_range_writes_in_place
        (σ : store) (l lm : loc) (df : DataFrame) (med : list med_row)
        (test_count : Z) :
  σ !! l = Some (ODf df) →
  σ !! lm = Some (OMed med) →
  extra df !! Pandas.check_name = None →
  let σp := (Pandas.check_range l lm test_count σ).1 in
  let σv := (V1.check_range l lm σ).1 in
  (∃ col, length col = length (rows df)
          ∧ σp !! l = Some (ODf (set_column Pandas.check_name col df)))
  ∧ σp !! l ≠ σ !! l
  ∧ (∀ l', l' ≠ l → σp !! l' = σ !! l')
  ∧ σv !! l = σ !! l
  ∧ σv !! lm = σ !! lm
  ∧ (∀ l2, (V1.check_range l lm σ).2 = Ok l2 → σ !! l2 = None).
Proof.
  intros Hl Hlm Hcol σp σv. subst σp σv.
  rewrite (Pandas_check_range_run l lm test_count σ df med Hl Hlm). cbn [fst].
  destruct (V1_check_range_run l lm σ df med Hl Hlm)
    as (l2 & df2 & Hfresh & _ & _ & Hres & Hold).
  split; [|split; [|split; [|split; [|split]]]].
  - eexists. split; [apply loop_column_length | apply lookup_insert_eq].
  - rewrite lookup_insert_eq, Hl. intros [= Heq].
    apply (f_equal (fun d => extra d !! Pandas.check_name)) in Heq.
    cbn in Heq. rewrite lookup_insert_eq, Hcol in Heq. discriminate Heq.
  - intros l' Hne. by rewrite lookup_insert_ne.
  - apply Hold. eauto.
  - apply Hold. eauto.
  - intros l3 Hl3. destruct Hres as [Hres|[e Hres]]; congruence.
Qed.

Lemma check_range_writes_in_place_witness :
  extra ex_numeric !! Pandas.check_name = None
  ∧ cell_at (Pandas.check_range 1 2 2 (ex_store ex_numeric)).1 1 Pandas.check_name 2
    = Some (PyStr Pandas.HIGH)
  ∧ (Pandas.check_range 1 2 2 (ex_store ex_numeric)).1 !! 1%positive
    ≠ ex_store ex_numeric !! 1%positive
  ∧ (V1.check_range 1 2 (ex_store ex_numeric)).1 !! 1%positive
    = ex_store ex_numeric !! 1%positive.
Proof.
  split; [reflexivity|]. split; [reflexivity|].
  pose proof (check_range_writes_in_place (ex_store ex_numeric) 1 2 ex_numeric ex_med 2
                eq_refl eq_refl eq_refl) as (_ & Hchanged & _ & Hsame & _).
  split; [exact Hchanged | exact Hsame].
Defined.

End Aliasing.

(** ** Values that are neither markers nor numbers *)

Section InvalidValues.

Lemma final_table_reported (df : DataFrame) (test_count : Z) (p : Z) (t : pystr) (c : cell) :
  (p, t, c) ∈ Pandas.final_table df test_count →
  c ∈ [PyStr Pandas.HIGH; PyStr Pandas.LOW; PyStr Pandas.POSITIVE].
Proof.
  unfold Pandas.final_table. rewrite list_elem_of_fmap.
  intros ([r c'] & [= -> -> ->] & Hin).
  apply list_elem_of_filter in Hin as [Hrep _].
  unfold Pandas.reported in Hrep. cbn [snd] in Hrep.
  by apply bool_decide_unpack in Hrep.
Qed.

(** Without an Invalid conclusion the SQL revision goes on to
    filtered_patients. *)
Lemma Sql_script_proceeds (df : list row) (man : list med_row)
      (decoded_data : list Sql.decoded_row) :
  Sql.SQL_DECODE_ANALYSIS (Sql.SQL_CLEAN_VALUES (Sql.load df)) man = Ok decoded_data →
  (∀ d, d ∈ decoded_data → Sql.d_zakl d ≠ Sql.INVALID) →
  Sql.script df man = Ok (Sql.SQL_FILTER_PATIENTS decoded_data).
Proof.
  intros Hdec Hvalid. unfold Sql.script. rewrite Hdec. cbn [mbind outcome_bind].
  unfold Sql.SQL_CHECK_CORRECT_VALUE.
  assert (existsb (fun d => bool_decide (Sql.d_zakl d = Sql.INVALID)) decoded_data
          = false) as ->; [|done].
  apply not_true_iff_false. intros (d & Hd & Hinv)%existsb_exists.
  apply bool_decide_eq_true in Hinv.
  by apply (Hvalid d); [apply list_elem_of_In|].
Qed.

(** In the SQL revision an Invalid conclusion among the decoded rows
    aborts the script before filtered_patients is built. *)
Lemma Sql_invalid_aborts (df : list row) (man : list med_row)
      (decoded_data : list Sql.decoded_row) :
  Sql.SQL_DECODE_ANALYSIS (Sql.SQL_CLEAN_VALUES (Sql.load df)) man = Ok decoded_data →
  (∃ d, d ∈ decoded_data ∧ Sql.d_zakl d = Sql.INVALID) →
  Sql.script df man = Raise RaiseException.
Proof.
  intros Hdec (d & Hd & Hinv).
  unfold Sql.script. rewrite Hdec. cbn [mbind outcome_bind].
  unfold Sql.SQL_CHECK_CORRECT_VALUE.
  assert (existsb (fun d => bool_decide (Sql.d_zakl d = Sql.INVALID)) decoded_data
          = true) as ->; [|done].
  apply existsb_exists. exists d. split.
  - by apply list_elem_of_In.
  - by apply bool_decide_eq_true.
Qed.

(** C4 fails in the pandas rewrite.  The strict half holds: in the SQL
    revision an Invalid conclusion among the decoded rows aborts the run
    before aggregation (lemma [Sql_invalid_aborts]), as on the rows of
    [ex_invalid].  The lenient half
    does not: the pandas rewrite excludes no Invalid row before it
    aggregates.  In [ex_invalid] the row with the text "abc" is in the frame
    that [check_range] groups, it is one of the three tests and one of the
    two bad results counted for the patient, and with it the patient is
    reported; on the same rows without it the patient is not reported. *)
Theorem pandas_aggregates_invalid_rows :
  Sql.script (rows ex_invalid) (Med (u "B") (u "b") (u "N") 1 2 :: ex_med)
  = Raise RaiseException
  ∧ (∃ df, frame_at (Pandas.main ex_invalid ex_med ∅).1 3 = Some df
           ∧ map value (rows df) = [Pandas.POSITIVE; u "12.5"; u "abc"]
           ∧ column Pandas.check_name df
             = [PyStr Pandas.POSITIVE; PyStr Pandas.NORMAL; PyStr (u "abc")]
           ∧ Pandas.grouped df !! 1 = Some (3, 2))
  ∧ (Pandas.main ex_invalid ex_med ∅).2 = Ok [(1, u "A", PyStr Pandas.POSITIVE)]
  ∧ (Pandas.main ex_valid_only ex_med ∅).2 = Ok [].
Proof.
  split; [by vm_compute|].
  split; [|split; by vm_compute].
  eexists. split; [by vm_compute|]. repeat split; by vm_compute.
Qed.

End InvalidValues.

(** ** The bad-result gate (4.4) *)

Section Aggregator.

Lemma Sql_bad_sum (g : list Sql.decoded_row) :
  foldr (fun d acc => Sql.bad d + acc) 0 g = Sql_bad_results g.
Proof.
  unfold Sql_bad_results. induction g as [|d g IH]; [done|].
  cbn [foldr]. rewrite IH, filter_cons. unfold Sql.bad.
  destruct (decide (Sql.d_zakl d ∈ [Sql.HIGH; Sql.LOW; Sql.POSITIVE])) as [Hd|Hd].
  - rewrite bool_decide_eq_true_2 by done. cbn [length]. lia.
  - rewrite bool_decide_eq_false_2 by done. lia.
Qed.

(** The SQL revision counts, per patient, the conclusions "Повышен",
    "Понижен" and "Положительный" and nothing else, and keeps the
    patients with at least two of them. *)
Lemma Sql_filter_patients_spec (decoded_data : list Sql.decoded_row) (p n b : Z) :
  Sql.SQL_FILTER_PATIENTS decoded_data !! p = Some (n, b)
  ↔ (∃ d, d ∈ decoded_data ∧ Sql.d_patient d = p)
    ∧ n = Z.of_nat (length (filter (fun d => Sql.d_patient d = p) decoded_data))
    ∧ b = Sql_bad_results (filter (fun d => Sql.d_patient d = p) decoded_data)
    ∧ 2 <= b.
Proof.
  unfold Sql.SQL_FILTER_PATIENTS.
  rewrite map_lookup_filter_Some, lookup_fmap, groupby_lookup. cbn [snd].
  destruct (filter (fun d => Sql.d_patient d = p) decoded_data) as [|d0 g] eqn:Hg.
  - cbn. split; [intros [[=] _]|].
    intros ((d & Hd & Hp) & _).
    assert (d ∈ filter (fun d => Sql.d_patient d = p) decoded_data) as Hin
        by (by apply list_elem_of_filter).
    rewrite Hg in Hin. by apply elem_of_nil in Hin.
  - cbn [fmap option_fmap option_map]. rewrite Sql_bad_sum. split.
    + intros [[= <- <-] Hb]. split; [|done].
      exists d0.
      assert (d0 ∈ filter (fun d => Sql.d_patient d = p) decoded_data) as Hin
          by (rewrite Hg; left).
      apply list_elem_of_filter in Hin. tauto.
    + intros (_ & -> & -> & Hb). done.
Qed.

(** The pandas rewrite counts, per patient, every conclusion other than
    "Норма" and "Отрицательный". *)
Lemma Pandas_grouped_spec (df : DataFrame) (p n b : Z) :
  Pandas.grouped df !! p = Some (n, b)
  ↔ let g := filter (fun rc : row * cell => patient rc.1 = p)
                    (zip (rows df) (column Pandas.check_name df)) in
    g ≠ []
    ∧ n = Z.of_nat (length g)
    ∧ b = Z.of_nat (length (filter (fun rc : row * cell =>
                                      rc.2 ≠ PyStr Pandas.NORMAL
                                      ∧ rc.2 ≠ PyStr Pandas.NEGATIVE) g)).
Proof.
  unfold Pandas.grouped. rewrite lookup_fmap, groupby_lookup. cbn zeta.
  assert (∀ g : list (row * cell),
             filter (fun rc : row * cell => Pandas.counted rc.2) g
             = filter (fun rc : row * cell =>
                         rc.2 ≠ PyStr Pandas.NORMAL ∧ rc.2 ≠ PyStr Pandas.NEGATIVE) g)
    as Hcount.
  { intros g. apply list_filter_iff. intros [r c]. unfold Pandas.counted. cbn [snd].
    rewrite andb_True, !bool_decide_spec. done. }
  destruct (filter _ (zip (rows df) (column Pandas.check_name df))) as [|rc g].
  - cbn. split; [done | by intros [? _]].
  - cbn [fmap option_fmap option_map]. rewrite Hcount. split.
    + by intros [= <- <-].
    + by intros (_ & -> & ->).
Qed.

(** C1 fails in the pandas rewrite.  The patient of [ex_invalid] has one
    bad result ("Положительный"); the rewrite counts two, because the text
    "abc" is neither "Норма" nor "Отрицательный", and retains the
    patient. *)
Theorem pandas_counts_invalid_as_bad :
  ∃ df, frame_at (Pandas.main ex_invalid ex_med ∅).1 3 = Some df
        ∧ column Pandas.check_name df
          = [PyStr Pandas.POSITIVE; PyStr Pandas.NORMAL; PyStr (u "abc")]
        ∧ length (filter (fun c => c ∈ [PyStr Pandas.HIGH; PyStr Pandas.LOW;
                                        PyStr Pandas.POSITIVE])
                         (column Pandas.check_name df)) = 1%nat
        ∧ Pandas.grouped df !! 1 = Some (3, 2)
        ∧ (Pandas.main ex_invalid ex_med ∅).2
          = Ok [(1, u "A", PyStr Pandas.POSITIVE)].
Proof. eexists. split; [reflexivity|]. repeat split; reflexivity. Qed.

End Aggregator.

(** ** Decimal commas *)

Section DecimalComma.

Lemma replace_comma_digits (a : pystr) :
  forallb is_decimal a = true → replace_char COMMA DOT a = a.
Proof.
  induction a as [|c a IH]; [done|]. cbn [forallb replace_char map].
  intros [Hc Ha]%andb_true_iff. fold (replace_char COMMA DOT a). rewrite IH by done.
  destruct (N.eqb_spec c COMMA) as [->|_]; [discriminate Hc | done].
Qed.

Lemma split_dot_digits (a b : pystr) :
  forallb is_decimal a = true → split_dot (a ++ DOT :: b) = (a, Some b).
Proof.
  induction a as [|c a IH]; [done|]. cbn [forallb app split_dot].
  intros [Hc Ha]%andb_true_iff. rewrite IH by done.
  destruct (N.eqb_spec c DOT) as [->|_]; [discriminate Hc | done].
Qed.

Lemma decimal_digits_app (a b : pystr) :
  decimal_digits a = true → decimal_digits b = true → decimal_digits (a ++ b) = true.
Proof.
  intros Ha Hb. destruct a as [|c a]; [done|].
  cbn [app decimal_digits]. change (c :: a ++ b) with ((c :: a) ++ b).
  rewrite forallb_app.
  by rewrite (decimal_digits_forallb _ Ha), (decimal_digits_forallb _ Hb).
Qed.

(** What the SQL revision does with digits, a comma, digits: the load
    loop writes a period, and the text is then a number for the CASE, read
    by the CAST as its decimal value in double precision. *)
Lemma Sql_comma_decimal (a b : pystr) (min_val max_val : bound) :
  decimal_digits a = true → decimal_digits b = true →
  let v := replace_char COMMA DOT (a ++ COMMA :: b) in
  let q := Qmake (digits_val (a ++ b)) (pow10 (length b)) in
  v = a ++ DOT :: b
  ∧ Sql.matches_number v = true
  ∧ Sql.cast_float v = Sql.float8 q
  ∧ (∀ x lo hi, Sql.float8 q = Ok x →
       Sql.sql_bound min_val = Ok (Some lo) → Sql.sql_bound max_val = Ok (Some hi) →
       Sql.zakl_case v min_val max_val
       = Ok (if Qltb x lo then Sql.LOW
             else if Qltb hi x then Sql.HIGH else Sql.NORMAL))
  ∧ (∀ e, Sql.float8 q = Raise e → Sql.zakl_case v min_val max_val = Raise e).
Proof.
  intros Ha Hb v q.
  assert (v = a ++ DOT :: b) as Hv.
  { subst v. unfold replace_char. rewrite map_app. cbn [map].
    fold (replace_char COMMA DOT a). fold (replace_char COMMA DOT b).
    by rewrite !replace_comma_digits by (by apply decimal_digits_forallb). }
  split; [done|]. rewrite Hv.
  assert (Sql.cast_float (a ++ DOT :: b) = Sql.float8 q) as Hcast.
  { unfold Sql.cast_float, unsigned_decimal.
    rewrite split_dot_digits by (by apply decimal_digits_forallb). cbn [default].
    by rewrite decimal_digits_app. }
  assert (Sql.matches_number (a ++ DOT :: b) = true) as Hmatch.
  { unfold Sql.matches_number. destruct a as [|c a]; [done|].
    change ((c :: a) ++ DOT :: b) with (c :: (a ++ DOT :: b)).
    apply decimal_digits_forallb in Ha, Hb. cbn [forallb] in *.
    apply andb_true_iff in Ha as [-> Ha]. cbn [orb andb].
    rewrite forallb_app. cbn [forallb]. rewrite orb_true_r. cbn [andb].
    apply andb_true_iff. split; apply forallb_forall; intros d Hd.
    - rewrite forallb_forall in Ha. by rewrite (Ha d Hd).
    - rewrite forallb_forall in Hb. by rewrite (Hb d Hd). }
  split; [done|]. split; [done|]. split.
  - intros x lo hi Hx Hlo Hhi. apply zakl_case_number; try done. by rewrite Hcast.
  - intros e He. destruct (numeric_not_sign _ Hmatch) as [Hp Hn].
    unfold Sql.zakl_case, Sql.number_and.
    rewrite !bool_decide_eq_false_2 by done. by rewrite Hmatch, Hcast, He.
Qed.

(** C2 fails in the pandas rewrite: [clean_values] does not touch the
    comma, "12,5" is not numeric for [check_range] and its conclusion is
    the text "12,5" itself, not "Норма".  The SQL revision, on the same
    rows, concludes "Норма". *)
Theorem pandas_keeps_decimal_comma :
  rows (Pandas.clean_values ex_comma) !! 0%nat = Some (Row 1 (u "A") (u "12,5"))
  ∧ Pandas.numeric (u "12,5") = false
  ∧ cell_at (Pandas.main ex_comma ex_med ∅).1 3 Pandas.check_name 0
    = Some (PyStr (u "12,5"))
  ∧ Sql.SQL_DECODE_ANALYSIS (Sql.SQL_CLEAN_VALUES (Sql.load (rows ex_comma))) ex_med
    = Ok [Sql.Dec 1 (u "A") (u "Гемоглобин") (u "12.5") 10 15 Sql.NORMAL;
          Sql.Dec 1 (u "A") (u "Гемоглобин") (u "11") 10 15 Sql.NORMAL].
Proof. repeat split; reflexivity. Qed.

End DecimalComma.

(** ** Tests without a reference range *)

Section UnknownTest.

(** The pandas rewrite raises IndexError as soon as a numeric row has a
    test that is not in the reference table (the bounds of the table being
    given). *)
Lemma Pandas_unknown_test_raises (σ : store) (l lm : loc) (df : DataFrame)
      (med : list med_row) (test_count : Z) :
  σ !! l = Some (ODf df) → σ !! lm = Some (OMed med) →
  numbers_parse (rows df) = true →
  bounds_given med = true →
  ranges_known med (rows df) = false →
  (Pandas.check_range l lm test_count σ).2 = Raise IndexError.
Proof.
  intros Hl Hlm Hparse Hgiven Hno.
  rewrite (Pandas_check_range_run l lm test_count σ df med Hl Hlm). cbn [snd].
  by rewrite (loop_column_fail med (rows df) Hparse Hgiven Hno).
Qed.

(** The join of the SQL revision leaves out the rows whose test is not
    in the reference table and decodes the others as if they were
    alone. *)
Lemma Sql_decode_skips_unknown (cleaned_data : list row) (man : list med_row) :
  Sql.SQL_DECODE_ANALYSIS cleaned_data man
  = Sql.SQL_DECODE_ANALYSIS
      (filter (fun r => test r ∈ map m_id man) cleaned_data) man.
Proof.
  unfold Sql.SQL_DECODE_ANALYSIS. f_equal.
  induction cleaned_data as [|cd cds IH]; [done|].
  rewrite filter_cons. cbn [mbind list_bind]. rewrite IH.
  destruct (decide (test cd ∈ map m_id man)) as [Hin|Hout]; [done|].
  assert (filter (fun m => test cd = m_id m) man = []) as ->; [|done].
  destruct (filter (fun m => test cd = m_id m) man) as [|m ms] eqn:Hf; [done|].
  assert (m ∈ filter (fun m => test cd = m_id m) man) as Hm by (rewrite Hf; left).
  apply list_elem_of_filter in Hm as [Heq Hm].
  destruct Hout. apply list_elem_of_fmap. eauto.
Qed.

(** C5 fails in the pandas rewrite.  With a numeric row whose test "X"
    has no reference range the lookup [.values[0]] raises IndexError and
    the run ends; a marker row with such a test is kept and reported.
    The SQL revision drops the row in its join and goes on with the
    others. *)
Theorem pandas_unknown_test_not_excluded :
  (Pandas.main ex_unknown ex_med ∅).2 = Raise IndexError
  ∧ (Pandas.main ex_unknown_marker ex_med ∅).2
    = Ok [(1, u "X", PyStr Pandas.POSITIVE); (1, u "X", PyStr Pandas.POSITIVE)]
  ∧ Sql.SQL_DECODE_ANALYSIS (Sql.SQL_CLEAN_VALUES (Sql.load (rows ex_unknown))) ex_med
    = Ok [Sql.Dec 1 (u "A") (u "Гемоглобин") (u "20") 10 15 Sql.HIGH;
          Sql.Dec 1 (u "A") (u "Гемоглобин") (u "30") 10 15 Sql.HIGH]
  ∧ (Sql.script (rows ex_unknown) ex_med ≫= fun fp => Ok (fp !! 1))
    = Ok (Some (2, 2)).
Proof. repeat split; reflexivity. Qed.

End UnknownTest.

(** ** The positive marker prefix *)

Section PositiveMarker.

(** In the pandas rewrite a value whose lowercased text starts with "п"
    becomes "Положительный" and that is its conclusion. *)
Lemma Pandas_positive_prefix
      (σ : store) (l lm : loc) (df : DataFrame) (med : list med_row)
      (test_count : Z) (i : nat) (r : row) :
  σ !! l = Some (ODf (Pandas.clean_values df)) →
  σ !! lm = Some (OMed med) →
  rows df !! i = Some r →
  startswith (lower (value r)) [1087%N] = true →
  rows (Pandas.clean_values df) !! i = Some (Row (patient r) (test r) Pandas.POSITIVE)
  ∧ cell_at (Pandas.check_range l lm test_count σ).1 l Pandas.check_name i
    = Some (PyStr Pandas.POSITIVE).
Proof.
  intros Hl Hlm Hi Hpe.
  assert (rows (Pandas.clean_values df) !! i
          = Some (Row (patient r) (test r) Pandas.POSITIVE)) as Hrow.
  { rewrite Pandas_clean_values_map.
    rewrite (map_values_lookup _ df i r Hi). do 2 f_equal.
    unfold Pandas_clean_value, startswith_any. cbn [existsb]. by rewrite Hpe. }
  split; [done|].
  rewrite (Pandas_check_range_run l lm test_count σ _ med Hl Hlm).
  cbn [fst]. rewrite cell_at_insert.
  by rewrite (loop_column_text med _ i _ Hrow eq_refl).
Qed.

(** In the SQL revision a value that starts with the capital "П" becomes
    "+" and is decoded as "Положительный". *)
Lemma Sql_capital_prefix (r : row) (min_val max_val : bound) :
  startswith (value r) Sql.CAP_PE = true →
  ∃ r', Sql.SQL_CLEAN_VALUES [r] = [r'] ∧ value r' = Sql.PLUS_SIGN
        ∧ Sql.zakl_case (value r') min_val max_val = Ok Sql.POSITIVE.
Proof.
  intros Hpe. eexists. split; [reflexivity|]. cbn [value]. rewrite Hpe. done.
Qed.

(** C6 fails in the SQL revision.  Its pattern '^П' matches the capital
    letter only and the value is not lowercased first: "п" stays as it is,
    is decoded as "Некорректное значение", and the check aborts the run.
    The pandas rewrite concludes "Положительный" on the same rows. *)
Theorem sql_rejects_lowercase_marker :
  map value (Sql.SQL_CLEAN_VALUES (Sql.load (rows ex_lower_pe))) = [u "п"; u "20"]
  ∧ Sql.SQL_DECODE_ANALYSIS (Sql.SQL_CLEAN_VALUES (Sql.load (rows ex_lower_pe))) ex_med
    = Ok [Sql.Dec 1 (u "A") (u "Гемоглобин") (u "п") 10 15 Sql.INVALID;
          Sql.Dec 1 (u "A") (u "Гемоглобин") (u "20") 10 15 Sql.HIGH]
  ∧ Sql.script (rows ex_lower_pe) ex_med = Raise RaiseException
  ∧ (Pandas.main ex_lower_pe ex_med ∅).2
    = Ok [(1, u "A", PyStr Pandas.POSITIVE); (1, u "A", PyStr Pandas.HIGH)].
Proof. repeat split; reflexivity. Qed.

End PositiveMarker.

(** ** More on the raw test-count gate *)

Section FilterPatientsMore.

Lemma filter_patients_rows (df : DataFrame) (test_count : Z) :
  rows (Pandas.filter_patients df test_count)
  = filter (fun r => test_count <= tests_of df (patient r)) (rows df).
Proof.
  unfold Pandas.filter_patients, select. cbn [rows].
  rewrite mask_select_decide.
  apply filter_ext_elem. intros r Hr. by apply filter_patients_dom.
Qed.

Lemma filter_patients_mask (df : DataFrame) (test_count : Z) :
  Pandas.filter_patients df test_count
  = select (map (fun r => bool_decide (test_count <= tests_of df (patient r))) (rows df)) df.
Proof.
  unfold Pandas.filter_patients. f_equal.
  apply map_ext_in. intros r Hr%list_elem_of_In.
  apply bool_decide_ext. by apply filter_patients_dom.
Qed.

(** The rows of a retained patient are all retained. *)
Lemma tests_of_filter_patients (df : DataFrame) (test_count : Z) (p : Z) :
  test_count <= tests_of df p →
  tests_of (Pandas.filter_patients df test_count) p = tests_of df p.
Proof.
  intros Hp. unfold tests_of at 1. rewrite filter_patients_rows.
  rewrite list_filter_filter. unfold tests_of.
  rewrite (list_filter_iff _ (fun r => patient r = p)); [done|].
  intros r. split; [tauto|].
  intros Hr. split; [done|]. by rewrite Hr.
Qed.

Lemma filter_all {A} (P : A -> Prop) `{!∀ x, Decision (P x)} (l : list A) :
  (∀ x, x ∈ l → P x) → filter P l = l.
Proof.
  induction l as [|x l IH]; intros Hall; [done|].
  rewrite filter_cons_True by (apply Hall; left).
  f_equal. apply IH. intros y Hy. apply Hall. by right.
Qed.

Lemma mask_select_true {A} (k : nat) (l : list A) :
  (length l <= k)%nat → mask_select (replicate k true) l = l.
Proof.
  revert k. induction l as [|x l IH]; intros k Hk; [by destruct k|].
  destruct k as [|k]; cbn in Hk; [lia|]. cbn. rewrite IH; [done | lia].
Qed.

Lemma mask_select_shorter {A B} (f : A -> bool) (rs : list A) (l : list B) :
  (length (mask_select (map f rs) l) <= length (mask_select (map f rs) rs))%nat.
Proof.
  revert l. induction rs as [|r rs IH]; intros l; [done|].
  destruct l as [|x l]; cbn; [lia|].
  destruct (f r); cbn; specialize (IH l); lia.
Qed.

(** X1. [filter_patients] is idempotent: applied to its own result with
    the same threshold it returns that frame, added columns included. *)
Theorem filter_patients_idempotent (df : DataFrame) (test_count : Z) :
  Pandas.filter_patients (Pandas.filter_patients df test_count) test_count
  = Pandas.filter_patients df test_count.
Proof.
  rewrite (filter_patients_mask (Pandas.filter_patients df test_count)).
  set (df1 := Pandas.filter_patients df test_count).
  assert (map (fun r => bool_decide (test_count <= tests_of df1 (patient r))) (rows df1)
          = replicate (length (rows df1)) true) as ->.
  { assert (∀ r, r ∈ rows df1 → test_count <= tests_of df1 (patient r)) as Hall.
    { intros r Hr. subst df1. rewrite filter_patients_rows in Hr.
      apply list_elem_of_filter in Hr as [Hr _].
      by rewrite tests_of_filter_patients. }
    induction (rows df1) as [|r rs IH]; [done|]. cbn.
    rewrite bool_decide_eq_true_2 by (apply Hall; left).
    f_equal. apply IH. intros r' Hr'. apply Hall. by right. }
  unfold select. destruct df1 as [rs ex] eqn:Hdf1. cbn [rows extra]. f_equal.
  - by apply mask_select_true.
  - apply map_eq. intros name. rewrite lookup_fmap.
    destruct (ex !! name) as [col|] eqn:Hcol; [|done]. cbn. f_equal.
    apply mask_select_true.
    assert (ex = extra df1) as Hex by (by rewrite Hdf1).
    assert (rs = rows df1) as Hrs by (by rewrite Hdf1).
    subst df1. rewrite Hrs. rewrite Hex in Hcol.
    rewrite filter_patients_mask in Hcol |- *. unfold select in Hcol |- *.
    cbn [rows extra] in Hcol |- *. rewrite lookup_fmap in Hcol.
    destruct (extra df !! name) as [col0|]; [|done]. cbn in Hcol.
    injection Hcol as <-. apply mask_select_shorter.
Qed.

(** X2. With a threshold of at most one test nothing is dropped: every
    patient of the frame has at least one row. *)
Theorem filter_patients_low_threshold (df : DataFrame) (test_count : Z) :
  test_count <= 1 →
  rows (Pandas.filter_patients df test_count) = rows df.
Proof.
  intros Hle. rewrite filter_patients_rows.
  apply filter_all. intros r Hr. unfold tests_of.
  assert (r ∈ filter (fun r' => patient r' = patient r) (rows df)) as Hin
      by (by apply list_elem_of_filter).
  destruct (filter _ (rows df)); [by apply elem_of_nil in Hin|]. cbn [length]. lia.
Qed.

Lemma filter_patients_low_threshold_witness :
  (1 <= 1)%Z ∧ rows (Pandas.filter_patients ex_scenario 1) = rows ex_scenario.
Proof. split; [lia|]. apply filter_patients_low_threshold. lia. Defined.

End FilterPatientsMore.

(** ** More on the normalizer *)

Section CleanValuesMore.

(** X3. [clean_values] rewrites the column "Значение" only: the patient
    codes, the tests, the number and order of the rows and the added
    columns are those of its argument, in both pandas revisions. *)
Theorem clean_values_keeps_shape (df : DataFrame) :
  (map patient (rows (Pandas.clean_values df)) = map patient (rows df)
   ∧ map test (rows (Pandas.clean_values df)) = map test (rows df)
   ∧ extra (Pandas.clean_values df) = extra df)
  ∧ (map patient (rows (V1.clean_values df)) = map patient (rows df)
     ∧ map test (rows (V1.clean_values df)) = map test (rows df)
     ∧ extra (V1.clean_values df) = extra df).
Proof.
  rewrite Pandas_clean_values_map, V1_clean_values_map. unfold map_values.
  cbn [rows extra]. by rewrite !map_map.
Qed.

Lemma tests_of_map_values (f : pystr -> pystr) (df : DataFrame) (p : Z) :
  tests_of (map_values f df) p = tests_of df p.
Proof.
  unfold tests_of, map_values. cbn [rows]. f_equal.
  induction (rows df) as [|r rs IH]; [done|].
  cbn [map]. rewrite !filter_cons. cbn [patient].
  destruct (decide (patient r = p)); cbn [length]; by rewrite IH.
Qed.

Lemma mask_select_map {A B} (g : A -> B) (mask : list bool) (l : list A) :
  mask_select mask (map g l) = map g (mask_select mask l).
Proof.
  revert mask. induction l as [|x l IH]; intros [|b mask]; try done.
  cbn. destruct b; cbn; by rewrite IH.
Qed.

Lemma select_map_values (f : pystr -> pystr) (mask : list bool) (df : DataFrame) :
  select mask (map_values f df) = map_values f (select mask df).
Proof.
  unfold select, map_values. cbn [rows extra]. by rewrite mask_select_map.
Qed.

(** X4. The raw test-count gate and the normalizer commute: the gate reads
    the patient codes only, which the normalizer does not touch. *)
Theorem filter_patients_clean_values_commute (df : DataFrame) (test_count : Z) :
  Pandas.filter_patients (Pandas.clean_values df) test_count
  = Pandas.clean_values (Pandas.filter_patients df test_count).
Proof.
  rewrite !Pandas_clean_values_map, !filter_patients_mask.
  rewrite <- select_map_values. f_equal.
  assert (rows (map_values Pandas_clean_value df)
          = map (fun r => Row (patient r) (test r) (Pandas_clean_value (value r)))
                (rows df)) as -> by done.
  rewrite map_map. cbn [patient].
  apply map_ext. intros r. by rewrite tests_of_map_values.
Qed.

Lemma startswith_any_app (s : pystr) (ps qs : list pystr) :
  startswith_any s (ps ++ qs) = startswith_any s ps || startswith_any s qs.
Proof. unfold startswith_any. apply existsb_app. Qed.

(** X5. Every value that leaves [clean_values] of the pandas rewrite is
    one of the two marker words or a text in lower case that starts with
    none of "п", "+", "о", "-"; in particular no signed number is left. *)
Theorem clean_values_canonical (df : DataFrame) (r : row) :
  r ∈ rows (Pandas.clean_values df) →
  value r = Pandas.POSITIVE
  ∨ value r = Pandas.NEGATIVE
  ∨ (lower (value r) = value r ∧ startswith_any (value r) marker_prefixes = false).
Proof.
  rewrite Pandas_clean_values_map. unfold map_values. cbn [rows].
  intros (r0 & -> & _)%list_elem_of_fmap. cbn [value].
  unfold Pandas_clean_value, PLUS, MINUS.
  destruct (startswith_any (lower (value r0)) [[1087%N]; [43%N]]) eqn:Hp;
    [by left|].
  destruct (startswith_any (lower (value r0)) [[1086%N]; [45%N]]) eqn:Hn;
    [by right; left|].
  right. right. split; [apply lower_idem|].
  change marker_prefixes with ([[1087%N]; [43%N]] ++ [[1086%N]; [45%N]]).
  by rewrite startswith_any_app, Hp, Hn.
Qed.

Lemma clean_values_canonical_witness :
  Row 7 (u "A") Pandas.NEGATIVE ∈ rows (Pandas.clean_values ex_signed)
  ∧ (value (Row 7 (u "A") Pandas.NEGATIVE) = Pandas.POSITIVE
     ∨ value (Row 7 (u "A") Pandas.NEGATIVE) = Pandas.NEGATIVE
     ∨ (lower (value (Row 7 (u "A") Pandas.NEGATIVE))
        = value (Row 7 (u "A") Pandas.NEGATIVE)
        ∧ startswith_any (value (Row 7 (u "A") Pandas.NEGATIVE)) marker_prefixes
          = false)).
Proof.
  assert (Row 7 (u "A") Pandas.NEGATIVE ∈ rows (Pandas.clean_values ex_signed)) as Hin
      by (vm_compute; left).
  split; [exact Hin|]. exact (clean_values_canonical ex_signed _ Hin).
Defined.

End CleanValuesMore.

(** ** The table returned by the pandas rewrite *)

Section FinalTable.

Lemma final_table_elem (df : DataFrame) (test_count : Z) (p : Z) (t : pystr) (c : cell) :
  (p, t, c) ∈ Pandas.final_table df test_count
  ↔ (∃ r, (r, c) ∈ zip (rows df) (column Pandas.check_name df)
          ∧ patient r = p ∧ test r = t)
    ∧ c ∈ [PyStr Pandas.HIGH; PyStr Pandas.LOW; PyStr Pandas.POSITIVE]
    ∧ test_count <= Pandas_bad_count df p.
Proof.
  unfold Pandas.final_table. rewrite list_elem_of_fmap.
  setoid_rewrite list_elem_of_filter. setoid_rewrite list_elem_of_filter.
  setoid_rewrite elem_of_dom. unfold is_Some.
  setoid_rewrite map_lookup_filter_Some. split.
  - intros ([r c'] & [= -> -> ->] & Hrep & ([n b] & Hg & Hb) & Hin).
    cbn [fst snd] in *. apply Pandas_grouped_spec in Hg as (_ & _ & ->).
    split; [eauto|]. split; [|exact Hb].
    by apply bool_decide_unpack in Hrep.
  - intros ((r & Hin & <- & <-) & Hc & Hb). exists (r, c). cbn [fst snd].
    split; [done|]. split; [by apply bool_decide_pack|]. split; [|done].
    eexists (_, _). split; [|exact Hb].
    apply Pandas_grouped_spec. cbn zeta. split; [|done].
    intros Hnil.
    assert ((r, c) ∈ filter (fun rc : row * cell => patient rc.1 = patient r)
                       (zip (rows df) (column Pandas.check_name df))) as Hrc
        by (by apply list_elem_of_filter).
    rewrite Hnil in Hrc. by apply elem_of_nil in Hrc.
Qed.

(** X6. The table built at the end of [check_range]: a row of the frame is
    in it exactly when its conclusion is "Повышен", "Понижен" or
    "Положительный" and its patient has at least [test_count] conclusions
    other than "Норма" and "Отрицательный". *)
Theorem final_table_spec (df : DataFrame) (test_count : Z) (p : Z) (t : pystr) (c : cell) :
  (p, t, c) ∈ Pandas.final_table df test_count
  ↔ (∃ r, (r, c) ∈ zip (rows df) (column Pandas.check_name df)
          ∧ patient r = p ∧ test r = t)
    ∧ c ∈ [PyStr Pandas.HIGH; PyStr Pandas.LOW; PyStr Pandas.POSITIVE]
    ∧ test_count <= Pandas_bad_count df p.
Proof. apply final_table_elem. Qed.

End FinalTable.

(** ** How a call of the pandas classifier ends *)

Section Outcome.










End Outcome.

(** ** Reference ranges without bounds *)

Section UndefinedBounds.

Lemma loop_column_none_rows (med : list med_row) (rs : list row) (r : row) :
  (Pandas_loop_column med rs).2 = None → r ∈ rs →
  ∃ c, Pandas_row_conclusion med r = Ok c.
Proof.
  induction rs as [|r0 rs IH]; [by intros _ ?%elem_of_nil|].
  cbn [Pandas_loop_column].
  destruct (Pandas_row_conclusion med r0) as [c0|e] eqn:Hc0; [|done].
  destruct (Pandas_loop_column med rs) as [col e']. cbn [snd] in *.
  intros He [->|Hr]%elem_of_cons; [eauto | by apply IH].
Qed.

Lemma numbers_parse_elem (rs : list row) (r : row) :
  numbers_parse rs = true → r ∈ rs → Pandas.numeric (value r) = true →
  ∃ x, float (value r) = Ok x ∧ x ≠ Fnan.
Proof.
  unfold numbers_parse. rewrite forallb_forall.
  intros Hall Hr%list_elem_of_In Hnum. specialize (Hall r Hr).
  rewrite Hnum in Hall. cbn in Hall. apply bool_decide_eq_true in Hall as [x Hx].
  exists x. split; [by apply float_Ok|]. intros ->. by apply (numeric_not_nan _ Hnum).
Qed.

Lemma row_conclusion_unique (med : list med_row) (r : row) (m : med_row) (x : pyfloat) :
  Pandas.numeric (value r) = true → float (value r) = Ok x →
  NoDup (map m_id med) → m ∈ med → m_id m = test r →
  Pandas_row_conclusion med r
  = (c ← Pandas.conclusion (m_min m) (m_max m) x; Ok (from_option PyStr PyNone c)).
Proof.
  intros Hnum Hx Hnd Hm Hid. unfold Pandas_row_conclusion.
  rewrite Hnum, Hx, <- Hid. cbn [mbind outcome_bind].
  by rewrite !(med_value_unique med m _ Hnd Hm).
Qed.

(** X25. Reference ranges without bounds (the data model has bounds that
    may be undefined), for a numeric row whose test has such a reference
    row, in a frame whose numeric rows are numbers with known tests.  When
    the upper bound is [None] the pandas rewrite raises TypeError.  When
    both bounds are nan, and no bound of the table is [None], it returns
    and leaves the conclusion of the row empty.  The SQL revision, for which
    the bounds are NULL in both cases, concludes "Норма" for the row when
    its text is a number in the range of double precision. *)
Theorem undefined_bounds
        (σ : store) (l lm : loc) (df : DataFrame) (med : list med_row)
        (test_count : Z) (i : nat) (r : row) (m : med_row) :
  σ !! l = Some (ODf df) →
  σ !! lm = Some (OMed med) →
  numbers_parse (rows df) = true →
  ranges_known med (rows df) = true →
  NoDup (map m_id med) →
  rows df !! i = Some r →
  Pandas.numeric (value r) = true →
  m ∈ med → m_id m = test r →
  let run := Pandas.check_range l lm test_count σ in
  (m_max m = BNone → run.2 = Raise TypeError)
  ∧ (bounds_given med = true → m_min m = BNaN → m_max m = BNaN →
     (∃ table, run.2 = Ok table)
     ∧ cell_at run.1 l Pandas.check_name i = Some PyNone)
  ∧ (bound_number (m_min m) = None → bound_number (m_max m) = None →
     Sql.matches_number (value r) = true →
     (∃ y, Sql.cast_float (value r) = Ok y) →
     Sql.SQL_DECODE_ANALYSIS [r] med
     = Ok [Sql.Dec (patient r) (test r) (m_name m) (value r)
                   (m_min m) (m_max m) Sql.NORMAL]).
Proof.
  intros Hl Hlm Hparse Hknown Hnd Hi Hnum Hm Hid run. subst run.
  rewrite (Pandas_check_range_run l lm test_count σ df med Hl Hlm). cbn [fst snd].
  assert (r ∈ rows df) as Hr by (by eapply list_elem_of_lookup_2).
  destruct (numbers_parse_elem _ _ Hparse Hr Hnum) as (x & Hx & Hnan).
  pose proof (row_conclusion_unique med r m x Hnum Hx Hnd Hm Hid) as Hrow.
  split; [|split].
  - intros Hmax.
    assert (Pandas_row_conclusion med r = Raise TypeError) as Hraise.
    { rewrite Hrow, Hmax. unfold Pandas.conclusion. done. }
    destruct (loop_column_parsed med (rows df) Hparse)
      as ([He|[He|He]] & Hindex & _ & _).
    + destruct (loop_column_none_rows med (rows df) r He Hr) as [c Hc]. congruence.
    + apply Hindex in He. congruence.
    + by rewrite He.
  - intros Hgiven Hmin Hmax.
    destruct (loop_column_ok med (rows df) Hparse Hknown Hgiven) as [-> Hcol].
    split; [by eauto|]. rewrite cell_at_insert.
    destruct (Hcol i r Hi) as (c & Hc & ->). f_equal.
    rewrite Hrow, Hmin, Hmax in Hc. unfold Pandas.conclusion in Hc.
    cbn in Hc. by injection Hc as <-.
  - intros Hmin Hmax Hmatch [y Hy].
    rewrite (decode_one_row med m r Hnd Hm Hid).
    destruct (numeric_not_sign _ Hmatch) as [Hp Hn].
    assert (Sql.sql_bound (m_min m) = Ok None) as Hlo
        by (destruct (m_min m); by simplify_eq/=).
    assert (Sql.sql_bound (m_max m) = Ok None) as Hhi
        by (destruct (m_max m); by simplify_eq/=).
    unfold Sql.zakl_case, Sql.number_and, Sql.sql_lt, Sql.sql_gt.
    rewrite !bool_decide_eq_false_2 by done. by rewrite Hmatch, Hy, Hlo, Hhi.
Qed.

Lemma undefined_bounds_witness :
  (Pandas.check_range 1 2 2
     (<[1%positive := ODf ex_numeric]> (<[2%positive := OMed ex_med_none]> ∅))).2
  = Raise TypeError
  ∧ cell_at (Pandas.check_range 1 2 2
               (<[1%positive := ODf ex_numeric]> (<[2%positive := OMed ex_med_nan]> ∅))).1
            1 Pandas.check_name 0
    = Some PyNone
  ∧ Sql.SQL_DECODE_ANALYSIS [Row 1 (u "A") (u "12.5")] ex_med_none
    = Ok [Sql.Dec 1 (u "A") (u "Гемоглобин") (u "12.5") BNone BNone Sql.NORMAL].
Proof.
  assert (NoDup (map m_id ex_med_none)) as Hnd1 by (cbn; apply NoDup_singleton).
  assert (NoDup (map m_id ex_med_nan)) as Hnd2 by (cbn; apply NoDup_singleton).
  assert (Med (u "A") (u "Гемоглобин") (u "N") BNone BNone ∈ ex_med_none) as Hm1
      by left.
  assert (Med (u "A") (u "Гемоглобин") (u "N") BNaN BNaN ∈ ex_med_nan) as Hm2
      by left.
  pose proof (undefined_bounds
                (<[1%positive := ODf ex_numeric]> (<[2%positive := OMed ex_med_none]> ∅))
                1 2 ex_numeric ex_med_none 2 0 (Row 1 (u "A") (u "12.5")) _
                eq_refl eq_refl eq_refl eq_refl Hnd1 eq_refl eq_refl Hm1 eq_refl)
    as (Hnone & _ & Hsql).
  pose proof (undefined_bounds
                (<[1%positive := ODf ex_numeric]> (<[2%positive := OMed ex_med_nan]> ∅))
                1 2 ex_numeric ex_med_nan 2 0 (Row 1 (u "A") (u "12.5")) _
                eq_refl eq_refl eq_refl eq_refl Hnd2 eq_refl eq_refl Hm2 eq_refl)
    as (_ & Hnan & _).
  split; [exact (Hnone eq_refl)|]. split.
  - exact (proj2 (Hnan eq_refl eq_refl eq_refl)).
  - exact (Hsql eq_refl eq_refl eq_refl (ex_intro _ (25 # 2) eq_refl)).
Defined.

End UndefinedBounds.

(** ** The script of the pandas rewrite, end to end *)

Section PandasMain.

Lemma Pandas_main_run (xlsx : DataFrame) (med : list med_row) (σ : store) :
  ∃ (l lm : loc) (σ' : store),
    σ' !! l = Some (ODf (Pandas.clean_values (Pandas.filter_patients xlsx 2)))
    ∧ σ' !! lm = Some (OMed med)
    ∧ Pandas.main xlsx med σ = Pandas.check_range l lm 2 σ'.
Proof.
  unfold Pandas.main.
  rewrite run_bind, run_alloc.
  set (l0 := fresh (dom σ)). set (σ0 := <[l0 := ODf xlsx]> σ).
  rewrite run_bind, (run_get_df l0 xlsx) by apply lookup_insert_eq.
  rewrite run_bind, run_alloc.
  set (σ1 := <[fresh (dom σ0) := ODf (Pandas.filter_patients xlsx 2)]> σ0).
  rewrite run_bind, (run_get_df _ (Pandas.filter_patients xlsx 2))
    by apply lookup_insert_eq.
  rewrite run_bind, run_alloc.
  set (l2 := fresh (dom σ1)).
  set (σ2 := <[l2 := ODf (Pandas.clean_values (Pandas.filter_patients xlsx 2))]> σ1).
  rewrite run_bind, run_alloc.
  exists l2, (fresh (dom σ2)), (<[fresh (dom σ2) := OMed med]> σ2).
  split; [|split; [apply lookup_insert_eq | done]].
  rewrite lookup_insert_ne; [apply lookup_insert_eq|].
  symmetry. eapply fresh_ne. apply lookup_insert_eq.
Qed.

Lemma Pandas_main_rows
        (xlsx : DataFrame) (med : list med_row) (σ : store)
        (table : list (Z * pystr * cell)) (p : Z) (t : pystr) (c : cell) :
  (Pandas.main xlsx med σ).2 = Ok table →
  (p, t, c) ∈ table →
  (∃ r, r ∈ rows xlsx ∧ patient r = p ∧ test r = t)
  ∧ 2 <= tests_of xlsx p
  ∧ c ∈ [PyStr Pandas.HIGH; PyStr Pandas.LOW; PyStr Pandas.POSITIVE].
Proof.
  destruct (Pandas_main_run xlsx med σ) as (l & lm & σ' & Hl & Hlm & ->).
  rewrite (Pandas_check_range_run l lm 2 σ' _ med Hl Hlm). cbn [snd].
  destruct (Pandas_loop_column med _) as [col [e|]] eqn:Hcol; [done|].
  cbn [fst]. intros [= <-] Hin.
  apply final_table_elem in Hin as ((r & Hr & Hp & Ht) & Hc & _).
  apply elem_of_zip_l in Hr. cbn [set_column rows] in Hr.
  rewrite Pandas_clean_values_map in Hr. unfold map_values in Hr. cbn [rows] in Hr.
  apply list_elem_of_fmap in Hr as (r0 & -> & Hr0). cbn [patient test] in *.
  rewrite filter_patients_rows in Hr0.
  apply list_elem_of_filter in Hr0 as [Hcount Hr0].
  subst p t. split; [eauto|]. split; done.
Qed.

(** X8. What the script of the pandas rewrite can report.  Every row of the
    table it hands to the reporter comes from a row of the spreadsheet with
    that patient and that test, belongs to a patient with at least two rows
    in the spreadsheet, and carries one of the conclusions "Повышен",
    "Понижен", "Положительный". *)
Theorem main_reports_gated_rows
        (xlsx : DataFrame) (med : list med_row) (σ : store)
        (table : list (Z * pystr * cell)) (p : Z) (t : pystr) (c : cell) :
  (Pandas.main xlsx med σ).2 = Ok table →
  (p, t, c) ∈ table →
  (∃ r, r ∈ rows xlsx ∧ patient r = p ∧ test r = t)
  ∧ 2 <= tests_of xlsx p
  ∧ c ∈ [PyStr Pandas.HIGH; PyStr Pandas.LOW; PyStr Pandas.POSITIVE].
Proof. apply Pandas_main_rows. Qed.

Lemma main_reports_gated_rows_witness :
  (Pandas.main ex_scenario ex_scenario_med ∅).2
  = Ok [(1, u "A", PyStr Pandas.POSITIVE); (1, u "B", PyStr Pandas.HIGH)]
  ∧ 2 <= tests_of ex_scenario 1.
Proof.
  assert ((Pandas.main ex_scenario ex_scenario_med ∅).2
          = Ok [(1, u "A", PyStr Pandas.POSITIVE); (1, u "B", PyStr Pandas.HIGH)])
    as Hrun by (vm_compute; reflexivity).
  split; [exact Hrun|].
  refine (proj1 (proj2 (main_reports_gated_rows ex_scenario ex_scenario_med ∅ _
                          1 (u "A") (PyStr Pandas.POSITIVE) Hrun _))).
  left.
Defined.

End PandasMain.

(** ** The first script's range check *)

Section V1CheckRange.

Lemma V1_loop_body_run (l lm : loc) (med : list med_row) (i : nat) (r : row)
      (σ : store) :
  σ !! lm = Some (OMed med) →
  V1.loop_body l lm (i, r) σ
  = match (min_val ← med_value med (test r) m_min;
           max_val ← med_value med (test r) m_max;
           curr_val ← float (value r);
           V1.flag min_val max_val curr_val) with
    | Ok (Some b) => update_df l (loc_set V1.check_name i (PyBool b)) σ
    | Ok None => (σ, Ok tt)
    | Raise e => (σ, Raise e)
    end.
Proof.
  intros Hlm. unfold V1.loop_body.
  rewrite run_bind, (run_get_med lm med σ Hlm), run_bind. unfold lift at 1.
  destruct (med_value med (test r) m_min) as [min_val|e];
    cbn [mbind outcome_bind]; [|done].
  rewrite run_bind. unfold lift at 1.
  destruct (med_value med (test r) m_max) as [max_val|e];
    cbn [mbind outcome_bind]; [|done].
  rewrite run_bind. unfold lift at 1.
  destruct (float (value r)) as [curr_val|e]; cbn [mbind outcome_bind]; [|done].
  rewrite run_bind. unfold lift at 1.
  by destruct (V1.flag min_val max_val curr_val) as [[b|]|e].
Qed.

Lemma V1_loop_run (l lm : loc) (med : list med_row)
      (rws : list row) (ex : gmap pystr (list cell)) (rs : list row) :
  ∀ (pre : list cell) (σ : store),
    σ !! l = Some (ODf (Df rws (<[V1.check_name :=
                                   pre ++ replicate (length rs) PyNone]> ex))) →
    σ !! lm = Some (OMed med) →
    for_each (imap (fun j r => (length pre + j, r)%nat) rs) (V1.loop_body l lm) σ
    = (<[l := ODf (Df rws (<[V1.check_name :=
                               pre ++ (V1_loop_column med rs).1]> ex))]> σ,
       match (V1_loop_column med rs).2 with
       | None => Ok tt
       | Some e => Raise e
       end).
Proof.
  induction rs as [|r rs IH]; intros pre σ Hl Hlm.
  - cbn. by rewrite insert_id.
  - cbn [V1_loop_column]. rewrite imap_cons. cbn [for_each]. rewrite run_bind.
    rewrite (V1_loop_body_run l lm med _ r σ Hlm). unfold V1_row_flag.
    destruct (med_value med (test r) m_min) as [min_val|e];
      cbn [mbind outcome_bind]; [|cbn; by rewrite insert_id].
    destruct (med_value med (test r) m_max) as [max_val|e];
      cbn [mbind outcome_bind]; [|cbn; by rewrite insert_id].
    destruct (float (value r)) as [curr_val|e]; cbn [mbind outcome_bind];
      [|cbn; by rewrite insert_id].
    destruct (V1.flag min_val max_val curr_val) as [f|e]; cbn [mbind outcome_bind];
      [|cbn; by rewrite insert_id].
    cbn [length replicate] in Hl.
    set (c := from_option PyBool PyNone f).
    rewrite (loop_step_shift pre c).
    assert (∃ σ1, (match f with
                   | Some b => update_df l (loc_set V1.check_name
                                            (length pre + 0) (PyBool b)) σ
                   | None => (σ, Ok tt)
                   end) = (σ1, Ok tt)
                  ∧ σ1 = <[l := ODf (Df rws (<[V1.check_name :=
                               (pre ++ [c]) ++ replicate (length rs) PyNone]> ex))]> σ)
      as (σ1 & -> & ->).
    { subst c. rewrite <- app_assoc. cbn [app].
      destruct f as [b|]; cbn [from_option].
      - eexists. split; [by apply run_update_df|].
        unfold loc_set. cbn [rows extra].
        by rewrite alter_insert_eq, Nat.add_0_r, insert_after.
      - eexists. split; [reflexivity|]. by rewrite insert_id. }
    rewrite IH with (pre := pre ++ [c]);
      [| by rewrite lookup_insert_eq
       | rewrite lookup_insert_ne; [done | intros ->; congruence]].
    rewrite insert_insert_eq.
    destruct (V1_loop_column med rs) as [col e]. cbn [fst snd].
    by rewrite <- app_assoc.
Qed.

(** The whole call. *)
Lemma V1_check_range_result (l lm : loc) (σ : store) (df : DataFrame)
      (med : list med_row) :
  σ !! l = Some (ODf df) → σ !! lm = Some (OMed med) →
  ∃ (l2 : loc) (df2 : DataFrame),
    σ !! l2 = None
    ∧ (V1.check_range l lm σ).1 !! l2 = Some (ODf df2)
    ∧ rows df2 = V1_kept med (rows df)
    ∧ column V1.check_name df2
      = (V1_loop_column (V1_numeric_tests med) (V1_kept med (rows df))).1
    ∧ (V1.check_range l lm σ).2
      = match (V1_loop_column (V1_numeric_tests med) (V1_kept med (rows df))).2 with
        | None => Ok l2
        | Some e => Raise e
        end.
Proof.
  intros Hl Hlm. unfold V1.check_range.
  rewrite run_bind, (run_get_med lm med σ Hlm), run_bind, run_alloc.
  set (lm1 := fresh (dom σ)). set (σ1 := <[lm1 := OMed med]> σ).
  assert (∀ k, is_Some (σ !! k) → σ1 !! k = σ !! k) as H1.
  { intros k [o' Hk]. subst σ1. rewrite lookup_insert_ne; [done|].
    symmetry. by eapply fresh_ne. }
  rewrite run_bind, (run_get_df l df σ1) by (rewrite H1; eauto).
  rewrite run_bind, run_alloc.
  set (l1 := fresh (dom σ1)). set (σ2 := <[l1 := ODf df]> σ1).
  assert (∀ k, is_Some (σ1 !! k) → σ2 !! k = σ1 !! k) as H2.
  { intros k [o' Hk]. subst σ2. rewrite lookup_insert_ne; [done|].
    symmetry. by eapply fresh_ne. }
  rewrite run_bind, (run_get_med lm1 med σ2)
    by (rewrite H2; subst σ1; rewrite lookup_insert_eq; eauto).
  rewrite run_bind, run_alloc.
  set (lm2 := fresh (dom σ2)).
  fold (V1_numeric_tests med).
  set (σ3 := <[lm2 := OMed (V1_numeric_tests med)]> σ2).
  assert (∀ k, is_Some (σ2 !! k) → σ3 !! k = σ2 !! k) as H3.
  { intros k [o' Hk]. subst σ3. rewrite lookup_insert_ne; [done|].
    symmetry. by eapply fresh_ne. }
  rewrite run_bind, (run_get_med lm2 (V1_numeric_tests med) σ3)
    by apply lookup_insert_eq.
  rewrite run_bind, (run_get_df l1 df σ3)
    by (rewrite H3; subst σ2; rewrite lookup_insert_eq; eauto).
  rewrite run_bind, run_alloc.
  set (l2 := fresh (dom σ3)).
  match goal with |- context [<[l2 := ODf ?d]> σ3] => set (df2 := d) end.
  set (σ4 := <[l2 := ODf df2]> σ3).
  assert (∀ k, is_Some (σ !! k) → σ3 !! k = σ !! k) as H03.
  { intros k Hk.
    assert (is_Some (σ1 !! k)) as Hk1 by (by rewrite H1).
    assert (is_Some (σ2 !! k)) as Hk2 by (by rewrite H2).
    by rewrite H3, H2, H1. }
  assert (σ !! l2 = None) as Hfresh.
  { destruct (σ !! l2) as [o'|] eqn:Hk; [|done].
    pose proof (fresh_lookup σ3) as Hf. fold l2 in Hf.
    rewrite H03 in Hf by eauto. congruence. }
  assert (rows df2 = V1_kept med (rows df)) as Hsel.
  { subst df2. unfold select, V1_kept. cbn [rows].
    rewrite mask_select_decide. apply filter_ext_elem.
    intros r _. by rewrite elem_of_remove_dups. }
  assert (l2 ≠ lm2) as Hne.
  { apply not_eq_sym. eapply (fresh_ne σ3). subst σ3. apply lookup_insert_eq. }
  rewrite run_bind, (run_update_df l2 _ df2 σ4) by apply lookup_insert_eq.
  rewrite run_bind, (run_get_df l2 _ _ (lookup_insert_eq _ _ _)).
  rewrite run_bind. subst σ4. rewrite insert_insert_eq.
  unfold set_column. cbn [rows extra].
  rewrite (V1_loop_run l2 lm2 (V1_numeric_tests med) (rows df2) (extra df2) (rows df2) []);
    [| apply lookup_insert_eq
     | rewrite lookup_insert_ne by done; subst σ3; apply lookup_insert_eq].
  rewrite insert_insert_eq. cbn [app]. rewrite Hsel.
  exists l2.
  destruct (V1_loop_column (V1_numeric_tests med) (V1_kept med (rows df)))
    as [col [e|]]; cbn [fst snd mret M_ret].
  - eexists. split; [done|].
    split; [apply lookup_insert_eq|]. cbn [rows]. split; [done|]. split; [|done].
    unfold column. cbn [extra]. by rewrite lookup_insert_eq.
  - eexists. split; [done|].
    split; [apply lookup_insert_eq|]. cbn [rows]. split; [done|]. split; [|done].
    unfold column. cbn [extra]. by rewrite lookup_insert_eq.
Qed.

Lemma med_value_head (med : list med_row) (t : pystr) (proj : med_row -> bound)
      (m : med_row) :
  head (filter (fun m => m_id m = t) med) = Some m →
  med_value med t proj = Ok (proj m).
Proof.
  unfold med_value. destruct (filter _ med) as [|m0 ms]; [done|].
  by intros [= ->].
Qed.

Lemma kept_has_head (med : list med_row) (rs : list row) (r : row) :
  r ∈ V1_kept med rs →
  ∃ m, head (filter (fun m => m_id m = test r) (V1_numeric_tests med)) = Some m.
Proof.
  unfold V1_kept. intros [Hin _]%list_elem_of_filter.
  apply list_elem_of_fmap in Hin as (m0 & Hid & Hm0).
  assert (m0 ∈ filter (fun m => m_id m = test r) (V1_numeric_tests med)) as Hf
      by (by apply list_elem_of_filter).
  destruct (filter _ (V1_numeric_tests med)) as [|m ms];
    [by apply elem_of_nil in Hf | eauto].
Qed.

Lemma py_cmp_comparable (b : bound) (x : pyfloat) :
  comparable b x = true →
  py_cmp flt b x = Ok (bound_lt b x) ∧ py_cmp fgt b x = Ok (bound_gt b x).
Proof. by destruct b, x. Qed.

Lemma V1_row_flag_kept (med : list med_row) (r : row) (m : med_row) :
  head (filter (fun m => m_id m = test r) med) = Some m →
  V1_comparable med r = true →
  V1_row_flag med r
  = match py_float (value r) with
    | Some x => Ok (if bound_lt (m_max m) x then PyBool true
                    else if bound_gt (m_min m) x then PyBool false else PyNone)
    | None => Raise ValueError
    end.
Proof.
  intros Hm Hcmp. unfold V1_row_flag, float. unfold V1_comparable in Hcmp.
  rewrite Hm in Hcmp.
  rewrite !(med_value_head _ _ _ _ Hm). cbn [mbind outcome_bind].
  destruct (py_float (value r)) as [x|]; [|done]. cbn [mbind outcome_bind].
  apply andb_true_iff in Hcmp as [Hmax Hmin].
  destruct (py_cmp_comparable _ _ Hmax) as [Habove _].
  destruct (py_cmp_comparable _ _ Hmin) as [_ Hbelow].
  unfold V1.flag. rewrite Habove. cbn [mbind outcome_bind].
  destruct (bound_lt (m_max m) x); [done|].
  rewrite Hbelow. cbn [mbind outcome_bind].
  by destruct (bound_gt (m_min m) x).
Qed.

Lemma V1_loop_column_spec (med : list med_row) (rs : list row) :
  (∀ r, r ∈ rs → ∃ m, head (filter (fun m => m_id m = test r) med) = Some m) →
  forallb (V1_comparable med) rs = true →
  (V1_numbers_parse rs = true →
   (V1_loop_column med rs).2 = None
   ∧ ∀ i r, rs !! i = Some r →
       ∃ c, V1_row_flag med r = Ok c ∧ (V1_loop_column med rs).1 !! i = Some c)
  ∧ (V1_numbers_parse rs = false → (V1_loop_column med rs).2 = Some ValueError).
Proof.
  induction rs as [|r0 rs IH]; intros Hhead Hcmp; [done|].
  cbn [forallb] in Hcmp. apply andb_true_iff in Hcmp as [Hcmp0 Hcmp].
  destruct (Hhead r0) as [m Hm]; [left|].
  destruct IH as [IHok IHerr]; [intros r Hr; apply Hhead; by right | done |].
  cbn [V1_numbers_parse forallb V1_loop_column]. fold (V1_numbers_parse rs).
  rewrite (V1_row_flag_kept med r0 m Hm Hcmp0).
  destruct (py_float (value r0)) as [x|] eqn:Hx.
  - rewrite bool_decide_eq_true_2 by eauto. cbn [andb]. split.
    + intros Hp. destruct (IHok Hp) as [He Hc].
      destruct (V1_loop_column med rs) as [col e]. cbn [fst snd] in *.
      split; [done|]. intros [|i] r Hi; cbn in Hi |- *.
      * injection Hi as <-. rewrite (V1_row_flag_kept med r0 m Hm Hcmp0), Hx. eauto.
      * by apply Hc.
    + intros Hp. specialize (IHerr Hp).
      by destruct (V1_loop_column med rs) as [col e].
  - split; [|done]. rewrite bool_decide_eq_false_2; [done|].
    by intros [? ?].
Qed.



(** X10. [check_range] of the first script raises ValueError when [float]
    rejects the value of a row it keeps, the bounds of the rows that
    [float] accepts being comparable with their values: a marker "+" or
    "-" recorded for a numeric test ends the run.  The lookup of the bounds
    cannot fail, since only rows with a known numeric test are kept. *)
Theorem V1_check_range_value_error
        (σ : store) (l lm : loc) (df : DataFrame) (med : list med_row) :
  σ !! l = Some (ODf df) →
  σ !! lm = Some (OMed med) →
  forallb (V1_comparable (V1_numeric_tests med)) (V1_kept med (rows df)) = true →
  V1_numbers_parse (V1_kept med (rows df)) = false →
  (V1.check_range l lm σ).2 = Raise ValueError.
Proof.
  intros Hl Hlm Hcmp Hparse.
  destruct (V1_check_range_result l lm σ df med Hl Hlm)
    as (l2 & df2 & _ & _ & _ & _ & ->).
  destruct (V1_loop_column_spec (V1_numeric_tests med) (V1_kept med (rows df)))
    as [_ Herr]; [intros r Hr; by eapply kept_has_head | done |].
  by rewrite (Herr Hparse).
Qed.

Lemma V1_check_range_value_error_witness :
  forallb (V1_comparable (V1_numeric_tests ex_v1_med))
          (V1_kept ex_v1_med (rows (V1.clean_values ex_v1_marker))) = true
  ∧ V1_numbers_parse (V1_kept ex_v1_med (rows (V1.clean_values ex_v1_marker))) = false
  ∧ (V1.check_range 1 2 (ex_v1_store (V1.clean_values ex_v1_marker))).2
    = Raise ValueError.
Proof.
  split; [reflexivity|]. split; [reflexivity|].
  exact (V1_check_range_value_error (ex_v1_store (V1.clean_values ex_v1_marker)) 1 2
           (V1.clean_values ex_v1_marker) ex_v1_med eq_refl eq_refl eq_refl eq_refl).
Defined.

Example V1_flags_example :
  match V1.check_range 1 2 (ex_v1_store ex_v1) with
  | (σ', Ok l2) => column V1.check_name <$> frame_at σ' l2
  | _ => None
  end = Some [PyBool true; PyBool false; PyNone; PyNone; PyBool false].
Proof. vm_compute. reflexivity. Qed.

End V1CheckRange.

(** ** The reporter of the pandas rewrite *)

Section PandasReporter.

Import PandasReport.

Lemma unique_key_count {A} (f : A -> Z) (l : list A) (p : Z) :
  NoDup (map f l) →
  length (filter (fun k => f k = p) l) = if decide (p ∈ map f l) then 1%nat else 0%nat.
Proof.
  induction l as [|x l IH]; [done|]. cbn [map]. intros [Hx Hl]%NoDup_cons.
  rewrite filter_cons.
  destruct (decide (f x = p)) as [<-|Hne]; cbn [length]; rewrite (IH Hl).
  - destruct (decide (f x ∈ map f l)); [done|].
    destruct (decide (f x ∈ f x :: map f l)) as [|Hn]; [done|].
    destruct Hn. left.
  - destruct (decide (p ∈ map f l)) as [Hin|Hout];
      destruct (decide (p ∈ f x :: map f l)) as [Hin'|Hout']; try done.
    + destruct Hout'. by right.
    + apply elem_of_cons in Hin' as [?|?]; congruence.
Qed.

Lemma get_final_table_elem (df1 : list (Z * pystr * cell)) (df2 : list contact)
      (row : report_row) :
  row ∈ get_final_table df1 df2
  ↔ ∃ p t c k, (p, t, c) ∈ df1 ∧ k ∈ df2 ∧ c_id k = p
               ∧ row = Report (c_phone k) (c_name k) t c.
Proof.
  unfold get_final_table. rewrite list_elem_of_bind. split.
  - intros ([[p t] c] & Hrow & Hin). cbn [fst snd] in Hrow.
    apply list_elem_of_fmap in Hrow as (k & -> & Hk).
    apply list_elem_of_filter in Hk as [Hid Hk]. eauto 10.
  - intros (p & t & c & k & Hin & Hk & Hid & ->).
    exists (p, t, c). split; [|done]. cbn [fst snd].
    apply list_elem_of_fmap. exists k. split; [done|].
    by apply list_elem_of_filter.
Qed.

(** X11. [get_final_table] is the inner join of the classified rows with
    the contacts: a row is reported once for each contact with the code of
    its patient, and a row of a patient without contact is dropped without
    notice.  When the codes of the contacts are unique, the report has one
    row for each classified row whose patient has a contact. *)
Theorem get_final_table_spec (df1 : list (Z * pystr * cell)) (df2 : list contact) :
  (∀ row, row ∈ get_final_table df1 df2
          ↔ ∃ p t c k, (p, t, c) ∈ df1 ∧ k ∈ df2 ∧ c_id k = p
                       ∧ row = Report (c_phone k) (c_name k) t c)
  ∧ (NoDup (map c_id df2) →
     length (get_final_table df1 df2)
     = length (filter (fun x : Z * pystr * cell => x.1.1 ∈ map c_id df2) df1)).
Proof.
  split.
  - intros row. apply get_final_table_elem.
  - intros Hnd. unfold get_final_table.
    induction df1 as [|[[p t] c] df1 IH]; [done|].
    cbn [mbind list_bind]. rewrite length_app, length_fmap.
    fold (@mbind list _ _ _
            (fun x : Z * pystr * cell =>
               (fun k => Report (c_phone k) (c_name k) x.1.2 x.2)
                 <$> filter (fun k => c_id k = x.1.1) df2) df1).
    rewrite IH, filter_cons. cbn [fst snd].
    rewrite (unique_key_count c_id df2 p Hnd).
    by destruct (decide (p ∈ map c_id df2)).
Qed.

Lemma get_final_table_spec_witness :
  NoDup (map c_id ex_contacts)
  ∧ length (get_final_table
              [(1, u "A", PyStr Pandas.POSITIVE); (2, u "B", PyStr Pandas.HIGH);
               (1, u "B", PyStr Pandas.HIGH)] ex_contacts)
    = length (filter (fun x : Z * pystr * cell => x.1.1 ∈ map c_id ex_contacts)
                     [(1, u "A", PyStr Pandas.POSITIVE); (2, u "B", PyStr Pandas.HIGH);
                      (1, u "B", PyStr Pandas.HIGH)]).
Proof.
  assert (NoDup (map c_id ex_contacts)) as Hnd.
  { cbn. apply NoDup_cons. split; [|apply NoDup_singleton].
    intros Hin%list_elem_of_singleton. discriminate Hin. }
  split; [exact Hnd|].
  exact (proj2 (get_final_table_spec _ ex_contacts) Hnd).
Defined.

Lemma varchar_fits (n : nat) (s : pystr) :
  (length s <=? n)%nat = true → varchar n s = Ok s.
Proof. intros Hs. unfold varchar. by rewrite Hs. Qed.

Lemma insert_row_fits (r : report_row) :
  fits r = true → insert_row r = Ok (as_db_row r).
Proof.
  unfold fits. rewrite !andb_true_iff, !negb_true_iff.
  intros [[[[[[[H1 H2] H3] H4] L1] L2] L3] L4].
  unfold insert_row. rewrite H1, H2, H3, H4. cbn [orb].
  rewrite !varchar_fits by done. cbn [mbind outcome_bind].
  unfold as_db_row. destruct (adapt (r_zakl r)) as [z|]; [|done].
  cbn [default] in L4. by rewrite varchar_fits.
Qed.

Lemma executemany_fits (df : list report_row) :
  forallb fits df = true → executemany df = Ok (map as_db_row df).
Proof.
  induction df as [|r df IH]; [done|]. cbn [forallb].
  intros [Hr Hdf]%andb_true_iff. cbn [executemany].
  by rewrite (insert_row_fits r Hr), (IH Hdf).
Qed.

(** X12. [load_final_table_to_db] appends.  When every row fits its
    columns, the table holds, after the call, the rows it held before
    followed by the rows of the frame, in order; the table is created when
    it did not exist.  Calling it again with the same frame stores every
    row a second time. *)
Theorem load_appends (db : option (list db_row)) (df : list report_row) :
  forallb fits df = true →
  load_final_table_to_db db df = (Some (default [] db ++ map as_db_row df), Ok tt)
  ∧ load_final_table_to_db (load_final_table_to_db db df).1 df
    = (Some (default [] db ++ map as_db_row df ++ map as_db_row df), Ok tt).
Proof.
  intros Hfits. unfold load_final_table_to_db.
  rewrite (executemany_fits df Hfits). cbn [fst default].
  split; [done|]. f_equal. f_equal. symmetry. apply app_assoc.
Qed.

Lemma load_appends_witness :
  forallb fits ex_report = true
  ∧ load_final_table_to_db None ex_report = (Some (map as_db_row ex_report), Ok tt)
  ∧ load_final_table_to_db (load_final_table_to_db None ex_report).1 ex_report
    = (Some (map as_db_row ex_report ++ map as_db_row ex_report), Ok tt).
Proof.
  split; [reflexivity|].
  exact (load_appends None ex_report eq_refl).
Defined.

Lemma varchar_overlong (n : nat) (s : pystr) :
  overlong n s = true → varchar n s = Raise DataError.
Proof.
  unfold overlong, varchar. rewrite andb_true_iff, !negb_true_iff.
  by intros [-> ->].
Qed.

Lemma varchar_outcome (n : nat) (s : pystr) :
  (∃ s', varchar n s = Ok s') ∨ varchar n s = Raise DataError.
Proof.
  unfold varchar. destruct (length s <=? n)%nat; [eauto|].
  destruct (forallb _ (drop n s)); eauto.
Qed.

Lemma insert_row_nul_free (r : report_row) :
  nul_free r = true →
  (∃ x, insert_row r = Ok x) ∨ insert_row r = Raise DataError.
Proof.
  unfold nul_free. rewrite negb_true_iff. intros Hnul.
  unfold insert_row. rewrite Hnul.
  destruct (varchar_outcome 20 (r_phone r)) as [[? ->]| ->]; [|by right].
  destruct (varchar_outcome 100 (r_name r)) as [[? ->]| ->]; [|by right].
  destruct (varchar_outcome 20 (r_test r)) as [[? ->]| ->]; [|by right].
  cbn [mbind outcome_bind].
  destruct (adapt (r_zakl r)) as [z|]; [|eauto].
  destruct (varchar_outcome 50 z) as [[? ->]| ->]; [eauto | by right].
Qed.

Lemma insert_row_overlong (r : report_row) :
  nul_free r = true →
  overlong 20 (r_phone r) || overlong 100 (r_name r) || overlong 20 (r_test r)
  || overlong 50 (default [] (adapt (r_zakl r))) = true →
  insert_row r = Raise DataError.
Proof.
  unfold nul_free. rewrite negb_true_iff. intros Hnul Hlong.
  unfold insert_row. rewrite Hnul.
  destruct (overlong 20 (r_phone r)) eqn:H1;
    [rewrite (varchar_overlong _ _ H1); reflexivity|].
  destruct (varchar_outcome 20 (r_phone r)) as [[? ->]| ->]; [|reflexivity].
  cbn [mbind outcome_bind].
  destruct (overlong 100 (r_name r)) eqn:H2;
    [rewrite (varchar_overlong _ _ H2); reflexivity|].
  destruct (varchar_outcome 100 (r_name r)) as [[? ->]| ->]; [|reflexivity].
  cbn [mbind outcome_bind].
  destruct (overlong 20 (r_test r)) eqn:H3;
    [rewrite (varchar_overlong _ _ H3); reflexivity|].
  destruct (varchar_outcome 20 (r_test r)) as [[? ->]| ->]; [|reflexivity].
  cbn [mbind outcome_bind orb] in *.
  destruct (adapt (r_zakl r)) as [z|]; [|discriminate Hlong].
  change (overlong 50 z = true) in Hlong.
  rewrite (varchar_overlong _ _ Hlong). reflexivity.
Qed.

(** X13. [load_final_table_to_db] stores all rows or none.  When no text
    contains U+0000 and one row has a text too long for its column (20
    characters for the phone and the test, 100 for the name, 50 for the
    conclusion, blanks in excess not counted), the call raises a database
    error and the table is what it was before, whatever rows came first;
    it is not even created. *)
Theorem load_all_or_nothing
        (db : option (list db_row)) (df : list report_row) (r : report_row) :
  forallb nul_free df = true →
  r ∈ df →
  overlong 20 (r_phone r) || overlong 100 (r_name r) || overlong 20 (r_test r)
  || overlong 50 (default [] (adapt (r_zakl r))) = true →
  load_final_table_to_db db df = (db, Raise DataError).
Proof.
  intros Hnul Hr Hlong. unfold load_final_table_to_db.
  assert (executemany df = Raise DataError) as ->; [|done].
  induction df as [|r0 df IH]; [by apply elem_of_nil in Hr|].
  cbn [forallb] in Hnul. apply andb_true_iff in Hnul as [Hr0 Hdf].
  cbn [executemany].
  destruct (insert_row_nul_free r0 Hr0) as [[x Hx]|Hx]; rewrite Hx; [|done].
  cbn [mbind outcome_bind].
  apply elem_of_cons in Hr as [->|Hr].
  - rewrite insert_row_overlong in Hx by done. discriminate Hx.
  - by rewrite IH.
Qed.

Lemma load_all_or_nothing_witness :
  forallb nul_free ex_report_overlong = true
  ∧ load_final_table_to_db None ex_report_overlong = (None, Raise DataError).
Proof.
  split; [reflexivity|].
  refine (load_all_or_nothing None ex_report_overlong
            (Report (u "+79990000001") (u "Иванов") (u "ABCDEFGHIJKLMNOPQRSTU")
                    (PyStr Pandas.HIGH)) eq_refl _ eq_refl).
  right. left.
Defined.

Lemma executemany_length (df : list report_row) (stored : list db_row) :
  executemany df = Ok stored → length stored = length df.
Proof.
  revert stored. induction df as [|r df IH]; intros stored; [by intros [= <-]|].
  cbn [executemany]. destruct (insert_row r) as [x|e]; [|done].
  cbn [mbind outcome_bind]. destruct (executemany df) as [xs|e]; [|done].
  cbn [mbind outcome_bind]. intros [= <-]. cbn [length]. by rewrite (IH xs).
Qed.

(** X14. The script of the pandas rewrite and the persistent table.  A
    run that ends normally has appended one row for each row of the frame it
    writes to the spreadsheet, and every such row carries one of the
    conclusions "Повышен", "Понижен", "Положительный".  A run that raises
    leaves the table as it was, unless the exception comes from writing the
    spreadsheet: this happens after the commit, and the rows of the frame
    stay appended. *)
Theorem main_table_effect
        (to_excel : list report_row -> outcome unit)
        (xlsx : DataFrame) (med : list med_row) (mn : list contact)
        (db : option (list db_row)) (σ : store) :
  let run := PandasReport.main to_excel xlsx med mn db σ in
  (∀ df_final, run.2 = Ok df_final →
     (∃ stored, run.1 = Some (default [] db ++ stored)
                ∧ length stored = length df_final)
     ∧ ∀ r, r ∈ df_final →
         r_zakl r ∈ [PyStr Pandas.HIGH; PyStr Pandas.LOW; PyStr Pandas.POSITIVE])
  ∧ (∀ e, run.2 = Raise e →
       run.1 = db
       ∨ ∃ df_final stored,
           to_excel df_final = Raise e
           ∧ run.1 = Some (default [] db ++ stored)
           ∧ length stored = length df_final)
  ∧ (∀ table stored e,
       (Pandas.main xlsx med σ).2 = Ok table →
       executemany (get_final_table table mn) = Ok stored →
       to_excel (get_final_table table mn) = Raise e →
       run = (Some (default [] db ++ stored), Raise e)).
Proof.
  intros run. subst run. unfold PandasReport.main.
  destruct (Pandas.main xlsx med σ) as [σ' [table|e0]] eqn:Hmain; cbn [snd];
    [|split; [intros ? [=] | split; [by left | intros ? ? ? [=]]]].
  unfold load_final_table_to_db.
  destruct (executemany (get_final_table table mn)) as [stored|e1] eqn:Hex;
    cbn [fst snd];
    [|split; [intros ? [=] | split; [by left | intros ? ? ? [= <-]; congruence]]].
  destruct (to_excel (get_final_table table mn)) as [[]|e2] eqn:Hxl; cbn [fst snd].
  - split; [|split; [intros ? [=] | intros ? ? ? [= <-]; congruence]].
    intros df_final [= <-]. split.
    + exists stored. split; [done|]. by apply executemany_length.
    + intros r Hr.
      apply get_final_table_elem in Hr as (p & t & c & k & Hin & _ & _ & ->).
      cbn [r_zakl].
      assert ((Pandas.main xlsx med σ).2 = Ok table) as Hrun by (by rewrite Hmain).
      by destruct (Pandas_main_rows xlsx med σ table p t c Hrun Hin) as (_ & _ & ?).
  - split; [intros ? [=]|]. split.
    + intros e [= <-]. right. exists (get_final_table table mn), stored.
      split; [done|]. split; [done|]. by apply executemany_length.
    + intros table' stored' e [= <-] Hs He. congruence.
Qed.

Lemma main_table_effect_witness :
  (PandasReport.main (fun _ => Ok tt) ex_scenario ex_scenario_med ex_contacts None ∅).2
  = Ok ex_report
  ∧ (∃ stored,
       (PandasReport.main (fun _ => Ok tt) ex_scenario ex_scenario_med
                          ex_contacts None ∅).1
       = Some (default [] None ++ stored)
       ∧ length stored = length ex_report)
  ∧ PandasReport.main (fun _ => Raise OSError) ex_scenario ex_scenario_med
                      ex_contacts None ∅
    = (Some (default [] None ++ map as_db_row ex_report), Raise OSError).
Proof.
  assert ((PandasReport.main (fun _ => Ok tt) ex_scenario ex_scenario_med
                             ex_contacts None ∅).2
          = Ok ex_report) as Hrun by (vm_compute; reflexivity).
  assert ((Pandas.main ex_scenario ex_scenario_med ∅).2
          = Ok [(1, u "A", PyStr Pandas.POSITIVE); (1, u "B", PyStr Pandas.HIGH)])
    as Hmain by (vm_compute; reflexivity).
  split; [exact Hrun|]. split.
  - exact (proj1 (proj1 (main_table_effect (fun _ => Ok tt) ex_scenario ex_scenario_med
                           ex_contacts None ∅) ex_report Hrun)).
  - exact (proj2 (proj2 (main_table_effect (fun _ => Raise OSError) ex_scenario
                           ex_scenario_med ex_contacts None ∅))
                 _ (map as_db_row ex_report) OSError Hmain eq_refl eq_refl).
Defined.

End PandasReporter.

(** ** More on the SQL revision *)

Section SqlMore.

Import PandasReport.

(** X15. The rows the SQL revision reports.  A row is in the result of
    SQL_FINAL_RESULTS_WITH_PATIENTS, evaluated on filtered_patients and
    decoded_data, exactly when it is built from a decoded row with one of
    the conclusions "Повышен", "Понижен", "Положительный", whose patient
    has at least two such conclusions among the decoded rows, and from a
    contact with the code of that patient. *)
Theorem Sql_final_results_spec
        (decoded_data : list Sql.decoded_row) (mn : list contact)
        (row : pystr * pystr * pystr * pystr) :
  row ∈ SqlReport.SQL_FINAL_RESULTS_WITH_PATIENTS
          (Sql.SQL_FILTER_PATIENTS decoded_data) decoded_data mn
  ↔ ∃ d k, d ∈ decoded_data ∧ k ∈ mn ∧ c_id k = Sql.d_patient d
           ∧ Sql.d_zakl d ∈ [Sql.HIGH; Sql.LOW; Sql.POSITIVE]
           ∧ 2 <= Sql_bad_results
                    (filter (fun d' => Sql.d_patient d' = Sql.d_patient d) decoded_data)
           ∧ row = (c_phone k, c_name k, Sql.d_name d, Sql.d_zakl d).
Proof.
  unfold SqlReport.SQL_FINAL_RESULTS_WITH_PATIENTS.
  rewrite list_elem_of_bind. split.
  - intros ([p [n b]] & Hrow & Hfp). cbn [fst] in Hrow.
    apply elem_of_map_to_list in Hfp.
    apply Sql_filter_patients_spec in Hfp as (_ & _ & -> & Hb).
    apply list_elem_of_bind in Hrow as (d & Hrow & Hd).
    apply list_elem_of_filter in Hd as [Hp Hd].
    apply list_elem_of_bind in Hrow as (k & Hrow & Hk).
    apply list_elem_of_filter in Hk as [Hid Hk].
    case_bool_decide as Hbad; [|by apply elem_of_nil in Hrow].
    apply list_elem_of_singleton in Hrow. subst p.
    exists d, k. rewrite Hp in Hb. repeat (split; [done|]). done.
  - intros (d & k & Hd & Hk & Hid & Hbad & Hb & ->).
    exists (Sql.d_patient d,
            (Z.of_nat (length (filter (fun d' => Sql.d_patient d' = Sql.d_patient d)
                                      decoded_data)),
             Sql_bad_results
               (filter (fun d' => Sql.d_patient d' = Sql.d_patient d) decoded_data))).
    split.
    + cbn [fst]. apply list_elem_of_bind. exists d.
      split; [|by apply list_elem_of_filter].
      apply list_elem_of_bind. exists k.
      split; [|by apply list_elem_of_filter].
      rewrite bool_decide_eq_true_2 by done. left.
    + apply elem_of_map_to_list, Sql_filter_patients_spec. eauto 10.
Qed.

(** X16. The SQL revision and the persistent table.  The script creates
    the table with its results when the table does not exist, and never
    changes a table that exists: a second run, whatever its input, leaves
    the rows of the first.  A run in which a statement raises commits
    nothing. *)
Theorem Sql_script_table
        (df : list row) (man : list med_row) (mn : list contact)
        (db : option (list (pystr * pystr * pystr * pystr))) :
  (∀ t, db = Some t → (SqlReport.script df man mn db).1 = Some t)
  ∧ (∀ e, (SqlReport.script df man mn db).2 = Raise e →
          (SqlReport.script df man mn db).1 = db)
  ∧ (∀ results, db = None → (SqlReport.script df man mn db).2 = Ok results →
                (SqlReport.script df man mn db).1 = Some results)
  ∧ (∀ df' man' mn' results,
        db = None → (SqlReport.script df man mn db).2 = Ok results →
        (SqlReport.script df' man' mn' (SqlReport.script df man mn db).1).1
        = Some results).
Proof.
  unfold SqlReport.script.
  destruct (Sql.SQL_DECODE_ANALYSIS _ man ≫= _) as [decoded|e0]; cbn [fst snd].
  - split; [by intros t ->|]. split; [intros ? [=]|].
    split; [by intros results -> [= <-]|].
    intros df' man' mn' results -> [= <-]. cbn [SqlReport.create_results].
    by destruct (Sql.SQL_DECODE_ANALYSIS _ man' ≫= _).
  - split; [by intros t ->|]. split; [done|].
    split; intros; discriminate.
Qed.

Lemma Sql_script_table_witness :
  (SqlReport.script (rows ex_scenario) ex_scenario_med ex_contacts None).2
  = Ok ex_sql_report
  ∧ (SqlReport.script (rows ex_comma) ex_med []
       (SqlReport.script (rows ex_scenario) ex_scenario_med ex_contacts None).1).1
    = Some ex_sql_report.
Proof.
  assert ((SqlReport.script (rows ex_scenario) ex_scenario_med ex_contacts None).2
          = Ok ex_sql_report) as Hrun by (vm_compute; reflexivity).
  split; [exact Hrun|].
  exact (proj2 (proj2 (proj2 (Sql_script_table (rows ex_scenario) ex_scenario_med
                                               ex_contacts None)))
               (rows ex_comma) ex_med [] ex_sql_report eq_refl Hrun).
Defined.

(** X17. The aggregation of the SQL revision.  filtered_patients has a row
    for a patient exactly when the patient has decoded rows, at least two
    of them with a conclusion "Повышен", "Понижен" or "Положительный"; the
    row holds the number of decoded rows of the patient and the number of
    those conclusions. *)
Theorem Sql_filtered_patients_spec
        (decoded_data : list Sql.decoded_row) (p n b : Z) :
  Sql.SQL_FILTER_PATIENTS decoded_data !! p = Some (n, b)
  ↔ (∃ d, d ∈ decoded_data ∧ Sql.d_patient d = p)
    ∧ n = Z.of_nat (length (filter (fun d => Sql.d_patient d = p) decoded_data))
    ∧ b = Sql_bad_results (filter (fun d => Sql.d_patient d = p) decoded_data)
    ∧ 2 <= b.
Proof. apply Sql_filter_patients_spec. Qed.

(** X18. The join of SQL_DECODE_ANALYSIS drops the rows whose test has no
    row in de.med_an_name: decoding a batch gives what decoding the batch
    without these rows gives, error included. *)
Theorem Sql_decode_inner_join (cleaned_data : list row) (man : list med_row) :
  Sql.SQL_DECODE_ANALYSIS cleaned_data man
  = Sql.SQL_DECODE_ANALYSIS
      (filter (fun r => test r ∈ map m_id man) cleaned_data) man.
Proof. apply Sql_decode_skips_unknown. Qed.

Lemma float8_outcome (q : Q) :
  (∃ x, Sql.float8 q = Ok x) ∨ Sql.float8 q = Raise DataError.
Proof.
  unfold Sql.float8. destruct (b64 q) as [| |y]; [by right..|].
  destruct (Qeq_bool y 0 && negb (Qeq_bool q 0)); eauto.
Qed.

(** X19. The load loop of the SQL revision and the decimal comma.  Text
    made of decimal digits, a comma and decimal digits is loaded with a
    period in place of the comma, is a number for the CASE of
    SQL_DECODE_ANALYSIS, and is read by the CAST as its decimal value in
    double precision.  With bounds that are binary64 numbers it is
    concluded "Понижен", "Повышен" or "Норма" by comparing that number with
    the bounds; when the decimal value is out of the range of double
    precision the CASE raises a database error. *)
Theorem Sql_load_decimal_comma
        (a b : pystr) (min_val max_val : bound) (lo hi : Q) :
  decimal_digits a = true → decimal_digits b = true →
  bound_number min_val = Some lo → is_binary64 lo = true →
  bound_number max_val = Some hi → is_binary64 hi = true →
  let v := replace_char COMMA DOT (a ++ COMMA :: b) in
  let q := Qmake (digits_val (a ++ b)) (pow10 (length b)) in
  v = a ++ DOT :: b
  ∧ Sql.matches_number v = true
  ∧ Sql.cast_float v = Sql.float8 q
  ∧ match Sql.float8 q with
    | Ok x => Sql.zakl_case v min_val max_val
              = Ok (if Qltb x lo then Sql.LOW
                    else if Qltb hi x then Sql.HIGH else Sql.NORMAL)
    | Raise e => e = DataError ∧ Sql.zakl_case v min_val max_val = Raise DataError
    end.
Proof.
  intros Ha Hb Hlo Hblo Hhi Hbhi v q.
  destruct (Sql_comma_decimal a b min_val max_val Ha Hb)
    as (Hv & Hmatch & Hcast & Hok & Herr).
  fold v q in Hv, Hmatch, Hcast, Hok, Herr.
  split; [done|]. split; [done|]. split; [done|].
  destruct (sql_bound_binary64 _ _ Hlo Hblo) as (lo' & Hlo' & Elo).
  destruct (sql_bound_binary64 _ _ Hhi Hbhi) as (hi' & Hhi' & Ehi).
  destruct (float8_outcome q) as [[x Hx]|Hx]; rewrite Hx.
  - rewrite (Hok x lo' hi' Hx Hlo' Hhi').
    destruct (Qltb_compat x lo' lo Elo) as [-> _].
    by destruct (Qltb_compat x hi' hi Ehi) as [_ ->].
  - split; [done|]. by apply Herr.
Qed.

Lemma Sql_load_decimal_comma_witness :
  decimal_digits (u "15") = true
  ∧ is_binary64 10 = true ∧ is_binary64 15 = true
  ∧ replace_char COMMA DOT (u "15,000000000000000001") = u "15.000000000000000001"
  ∧ Sql.cast_float (replace_char COMMA DOT (u "15,000000000000000001")) = Ok 15%Q
  ∧ Sql.zakl_case (replace_char COMMA DOT (u "15,000000000000000001")) 10 15
    = Ok Sql.NORMAL.
Proof.
  split; [reflexivity|]. split; [reflexivity|]. split; [reflexivity|].
  destruct (Sql_load_decimal_comma (u "15") (u "000000000000000001") 10 15 10 15
              eq_refl eq_refl eq_refl eq_refl eq_refl eq_refl)
    as (Hv & _ & Hcast & Hzakl).
  split; [exact Hv|]. split; [exact Hcast | exact Hzakl].
Defined.

Lemma sql_cmp_outcome (x : Q) (b : bound) :
  ((∃ c, Sql.sql_lt x b = Ok c) ∨ Sql.sql_lt x b = Raise DataError)
  ∧ ((∃ c, Sql.sql_gt x b = Ok c) ∨ Sql.sql_gt x b = Raise DataError).
Proof.
  unfold Sql.sql_lt, Sql.sql_gt. destruct b as [| |q|q]; cbn [Sql.sql_bound].
  1, 2, 4: split; left; by eexists.
  destruct (float8_outcome q) as [[y ->]| ->]; cbn [mbind outcome_bind];
    split; first [left; by eexists | by right].
Qed.

Lemma zakl_case_outcome (v : pystr) (min_val max_val : bound) :
  (∃ z, Sql.zakl_case v min_val max_val = Ok z)
  ∨ Sql.zakl_case v min_val max_val = Raise DataError.
Proof.
  unfold Sql.zakl_case, Sql.number_and, Sql.cast_float.
  repeat case_bool_decide; eauto.
  destruct (Sql.matches_number v); [|eauto].
  destruct (unsigned_decimal v) as [q|]; [|by right].
  destruct (float8_outcome q) as [[x ->]| ->]; [|by right]. cbn [mbind outcome_bind].
  destruct (proj1 (sql_cmp_outcome x min_val)) as [[[] ->]| ->];
    cbn [mbind outcome_bind]; eauto.
  destruct (proj2 (sql_cmp_outcome x max_val)) as [[[] ->]| ->];
    cbn [mbind outcome_bind]; eauto.
Qed.

Lemma zakl_case_cast_error (v : pystr) (min_val max_val : bound) :
  Sql.matches_number v = true → unsigned_decimal v = None →
  Sql.zakl_case v min_val max_val = Raise DataError.
Proof.
  intros Hm Hx. destruct (numeric_not_sign v Hm) as [Hp Hn].
  unfold Sql.zakl_case, Sql.number_and, Sql.cast_float.
  rewrite !bool_decide_eq_false_2 by done. by rewrite Hm, Hx.
Qed.

Lemma mapM_raise {A B} (f : A -> outcome B) (l : list A) (x : A) (e : exn) :
  (∀ y, y ∈ l → (∃ b, f y = Ok b) ∨ f y = Raise e) →
  x ∈ l → f x = Raise e → Sql.mapM f l = Raise e.
Proof.
  induction l as [|y l IH]; intros Hall Hx Hfx; [by apply elem_of_nil in Hx|].
  cbn [Sql.mapM].
  destruct (Hall y) as [[b Hy]|Hy]; [left| |by rewrite Hy].
  rewrite Hy. cbn [mbind outcome_bind].
  apply elem_of_cons in Hx as [->|Hx]; [congruence|].
  rewrite IH; [done| |done..]. intros z Hz. apply Hall. by right.
Qed.

(** X20. Text of digits and periods that is no number ("1.2.3", ".",
    also "1,2,3" after the load loop) is not concluded "Некорректное
    значение" by the SQL revision: it passes the pattern of the CASE, the
    CAST fails, and the statement SQL_DECODE_ANALYSIS, hence the script,
    ends with a database error. *)
Theorem Sql_cast_error (df : list row) (man : list med_row) (r : row) (m : med_row) :
  r ∈ Sql.SQL_CLEAN_VALUES (Sql.load df) →
  m ∈ man → test r = m_id m →
  Sql.matches_number (value r) = true →
  unsigned_decimal (value r) = None →
  Sql.SQL_DECODE_ANALYSIS (Sql.SQL_CLEAN_VALUES (Sql.load df)) man = Raise DataError
  ∧ Sql.script df man = Raise DataError.
Proof.
  intros Hr Hm Hid Hnum Hcast.
  assert (Sql.SQL_DECODE_ANALYSIS (Sql.SQL_CLEAN_VALUES (Sql.load df)) man
          = Raise DataError) as Hdec.
  { unfold Sql.SQL_DECODE_ANALYSIS. apply (mapM_raise _ _ (r, m)).
    - intros [r' m'] _. cbn [fst snd].
      destruct (zakl_case_outcome (value r') (m_min m') (m_max m')) as [[z ->]| ->];
        [left; by eexists | by right].
    - apply list_elem_of_bind. exists r. split; [|done].
      apply list_elem_of_fmap. exists m. split; [done|].
      by apply list_elem_of_filter.
    - cbn [fst snd]. by rewrite zakl_case_cast_error. }
  split; [done|]. unfold Sql.script. by rewrite Hdec.
Qed.

Lemma Sql_cast_error_witness :
  Row 1 (u "A") (u "1.2.3") ∈ Sql.SQL_CLEAN_VALUES (Sql.load ex_two_periods)
  ∧ Sql.matches_number (u "1.2.3") = true
  ∧ unsigned_decimal (u "1.2.3") = None
  ∧ Sql.script ex_two_periods ex_med = Raise DataError.
Proof.
  assert (Row 1 (u "A") (u "1.2.3") ∈ Sql.SQL_CLEAN_VALUES (Sql.load ex_two_periods))
    as Hin by (vm_compute; right; left).
  split; [exact Hin|]. split; [reflexivity|]. split; [reflexivity|].
  refine (proj2 (Sql_cast_error ex_two_periods ex_med _
                   (Med (u "A") (u "Гемоглобин") (u "N") 10 15)
                   Hin _ eq_refl eq_refl eq_refl)).
  left.
Defined.

(** X21. The conclusions of the SQL revision.  When the CASE of
    SQL_DECODE_ANALYSIS yields a conclusion, it is one of the six labels;
    it is "Положительный" exactly for the value "+", "Отрицательный"
    exactly for "-", and "Некорректное значение" exactly for a value that
    is neither of the two nor text of digits and periods. *)
Theorem Sql_conclusions (v : pystr) (min_val max_val : bound) (z : pystr) :
  Sql.zakl_case v min_val max_val = Ok z →
  z ∈ [Sql.POSITIVE; Sql.NEGATIVE; Sql.LOW; Sql.HIGH; Sql.NORMAL; Sql.INVALID]
  ∧ (z = Sql.POSITIVE ↔ v = Sql.PLUS_SIGN)
  ∧ (z = Sql.NEGATIVE ↔ v = Sql.MINUS_SIGN)
  ∧ (z = Sql.INVALID
     ↔ v ≠ Sql.PLUS_SIGN ∧ v ≠ Sql.MINUS_SIGN ∧ Sql.matches_number v = false).
Proof.
  unfold Sql.zakl_case, Sql.number_and.
  assert (∀ P Q : Prop, P → Q → (P ↔ Q)) as Hboth by tauto.
  assert (∀ P Q : Prop, ¬ P → ¬ Q → (P ↔ Q)) as Hnone by tauto.
  case_bool_decide as Hp; [|case_bool_decide as Hn].
  - intros [= <-]. subst v. split; [apply list_elem_of_In; cbn; auto 10|].
    split; [by apply Hboth|]. split; [by apply Hnone|].
    apply Hnone; [discriminate|]. by intros [? _].
  - intros [= <-]. subst v. split; [apply list_elem_of_In; cbn; auto 10|].
    split; [by apply Hnone|]. split; [by apply Hboth|].
    apply Hnone; [discriminate|]. by intros (_ & ? & _).
  - destruct (Sql.matches_number v) eqn:Hm.
    + destruct (Sql.cast_float v) as [x|e]; [|done]. cbn [mbind outcome_bind].
      destruct (Sql.sql_lt x min_val) as [[]|e]; cbn [mbind outcome_bind];
        [| |done].
      2: destruct (Sql.sql_gt x max_val) as [[]|e]; cbn [mbind outcome_bind];
           [| |done].
      all: intros [= <-]; split; [apply list_elem_of_In; cbn; auto 10|].
      all: split; [by apply Hnone|]; split; [by apply Hnone|].
      all: apply Hnone; [discriminate|]; by intros (_ & _ & ?).
    + cbn [mbind outcome_bind]. intros [= <-].
      split; [apply list_elem_of_In; cbn; auto 10|].
      split; [by apply Hnone|]. split; [by apply Hnone|]. by apply Hboth.
Qed.

Lemma Sql_conclusions_witness :
  Sql.zakl_case (u "abc") 10 15 = Ok Sql.INVALID
  ∧ (Sql.INVALID = Sql.INVALID
     ↔ u "abc" ≠ Sql.PLUS_SIGN ∧ u "abc" ≠ Sql.MINUS_SIGN
       ∧ Sql.matches_number (u "abc") = false).
Proof.
  split; [reflexivity|].
  exact (proj2 (proj2 (proj2 (Sql_conclusions (u "abc") 10 15 Sql.INVALID eq_refl)))).
Defined.

(** X22. A signed number is no number for the SQL revision.  A value that
    starts with "-" and is longer than the marker "-" itself reaches
    cleaned_data as it was loaded, with periods for its commas, and the
    CASE of SQL_DECODE_ANALYSIS concludes "Некорректное значение" for it,
    whatever the bounds. *)
Theorem Sql_signed_number_invalid
        (p : Z) (t s : pystr) (min_val max_val : bound) :
  s ≠ [] →
  Sql.SQL_CLEAN_VALUES (Sql.load [Row p t (MINUS :: s)])
  = [Row p t (MINUS :: replace_char COMMA DOT s)]
  ∧ Sql.zakl_case (MINUS :: replace_char COMMA DOT s) min_val max_val
    = Ok Sql.INVALID.
Proof.
  intros Hs. split; [reflexivity|].
  unfold Sql.zakl_case, Sql.number_and.
  rewrite bool_decide_eq_false_2 by discriminate.
  rewrite bool_decide_eq_false_2; [done|].
  intros [= Heq]. destruct s; [done | discriminate Heq].
Qed.

Lemma Sql_signed_number_invalid_witness :
  u "5" ≠ []
  ∧ Sql.zakl_case (MINUS :: replace_char COMMA DOT (u "5")) 10 15 = Ok Sql.INVALID.
Proof.
  assert (u "5" ≠ []) as Hne by discriminate.
  split; [exact Hne|].
  exact (proj2 (Sql_signed_number_invalid 1 (u "A") (u "5") 10 15 Hne)).
Defined.

(** X23. The two normalizing steps of the SQL revision are idempotent:
    loading loaded rows and cleaning cleaned rows change nothing. *)
Theorem Sql_normalizing_idempotent (rs : list row) :
  Sql.load (Sql.load rs) = Sql.load rs
  ∧ Sql.SQL_CLEAN_VALUES (Sql.SQL_CLEAN_VALUES rs) = Sql.SQL_CLEAN_VALUES rs.
Proof.
  unfold Sql.load, Sql.SQL_CLEAN_VALUES. rewrite !map_map. split.
  - apply map_ext. intros r. cbn [patient test value]. f_equal.
    unfold replace_char. rewrite map_map. apply map_ext. intros c.
    destruct (N.eqb_spec c COMMA) as [->|Hc]; [done|].
    by destruct (N.eqb_spec c COMMA).
  - apply map_ext. intros r. cbn [patient test value]. f_equal.
    destruct (startswith (value r) Sql.CAP_PE) eqn:Hp; [done|].
    destruct (startswith (value r) Sql.CAP_O) eqn:Ho; [done|].
    by rewrite Hp, Ho.
Qed.

Lemma mapM_app {A B} (f : A -> outcome B) (l1 l2 : list A) :
  Sql.mapM f (l1 ++ l2)
  = (xs ← Sql.mapM f l1; ys ← Sql.mapM f l2; Ok (xs ++ ys)).
Proof.
  induction l1 as [|x l1 IH]; cbn [app Sql.mapM].
  - cbn [mbind outcome_bind]. by destruct (Sql.mapM f l2).
  - destruct (f x) as [y|e]; [|done]. cbn [mbind outcome_bind]. rewrite IH.
    destruct (Sql.mapM f l1) as [ys|e]; [|done]. cbn [mbind outcome_bind].
    by destruct (Sql.mapM f l2).
Qed.

Lemma unique_match (man : list med_row) (t : pystr) :
  NoDup (map m_id man) →
  ((t ∉ map m_id man) ∧ filter (fun m => t = m_id m) man = [])
  ∨ ((t ∈ map m_id man) ∧ ∃ m, filter (fun m => t = m_id m) man = [m]).
Proof.
  induction man as [|m0 man IH]; [left; split; [apply not_elem_of_nil | done]|].
  cbn [map]. intros [Hm0 Hnd]%NoDup_cons. rewrite filter_cons.
  destruct (decide (t = m_id m0)) as [->|Hne].
  - right. split; [left|]. exists m0. f_equal.
    destruct (IH Hnd) as [[_ ->]|[Hin _]]; [done | by destruct Hm0].
  - destruct (IH Hnd) as [[Hout ->]|[Hin Hm]].
    + left. split; [|done]. intros [?|?]%elem_of_cons; congruence.
    + right. split; [by right | done].
Qed.

(** X24. The decoded rows of the SQL revision.  When the test codes of
    de.med_an_name are unique and SQL_DECODE_ANALYSIS raises no error,
    decoded_data holds, in order, one row for each row of cleaned_data
    whose test is in de.med_an_name, with the patient, test and value of
    that row. *)
Theorem Sql_decoded_rows
        (cleaned_data : list row) (man : list med_row)
        (decoded_data : list Sql.decoded_row) :
  NoDup (map m_id man) →
  Sql.SQL_DECODE_ANALYSIS cleaned_data man = Ok decoded_data →
  map decoded_source decoded_data
  = filter (fun r => test r ∈ map m_id man) cleaned_data.
Proof.
  intros Hnd. unfold Sql.SQL_DECODE_ANALYSIS. revert decoded_data.
  induction cleaned_data as [|cd cds IH]; intros decoded_data.
  - cbn. by intros [= <-].
  - cbn [mbind list_bind]. rewrite mapM_app, filter_cons.
    destruct (unique_match man (test cd) Hnd) as [[Hout ->]|[Hin [m ->]]].
    + cbn [fmap list_fmap Sql.mapM mbind outcome_bind].
      rewrite decide_False by done.
      destruct (Sql.mapM _ _) as [ds|e] eqn:Hrest; [|done].
      cbn [mbind outcome_bind app]. intros [= <-]. by apply IH.
    + cbn [fmap list_fmap Sql.mapM fst snd]. rewrite decide_True by done.
      destruct (Sql.zakl_case (value cd) (m_min m) (m_max m)) as [z|e]; [|done].
      cbn [mbind outcome_bind].
      destruct (Sql.mapM _ _) as [ds|e] eqn:Hrest; [|done].
      cbn [mbind outcome_bind app]. intros [= <-]. cbn [map]. f_equal.
      * by destruct cd.
      * by apply IH.
Qed.

Lemma Sql_decoded_rows_witness :
  NoDup (map m_id ex_med)
  ∧ ∃ decoded_data,
      Sql.SQL_DECODE_ANALYSIS (Sql.SQL_CLEAN_VALUES (Sql.load (rows ex_unknown))) ex_med
      = Ok decoded_data
      ∧ map decoded_source decoded_data
        = filter (fun r => test r ∈ map m_id ex_med)
                 (Sql.SQL_CLEAN_VALUES (Sql.load (rows ex_unknown))).
Proof.
  assert (NoDup (map m_id ex_med)) as Hnd by (cbn; apply NoDup_singleton).
  split; [exact Hnd|].
  destruct (Sql.SQL_DECODE_ANALYSIS
              (Sql.SQL_CLEAN_VALUES (Sql.load (rows ex_unknown))) ex_med)
    as [decoded_data|e] eqn:Hrun; [|by vm_compute in Hrun].
  exists decoded_data. split; [reflexivity|].
  exact (Sql_decoded_rows _ ex_med decoded_data Hnd Hrun).
Defined.

End SqlMore.
